(** * Dropout-risk calculator: a shallow embedding of [utils/risk_calculator.py]

    The development follows the Python class [RiskCalculator] method by
    method.

    Numbers.  A Python [int] is a [Z].  A Python [float] is idealised as an
    exact rational ([Q]): the arithmetic of the source ([+], [-], [*], [/],
    comparisons, [min], [max], [round(_, 3)]) is carried out without binary
    rounding, and the non-finite floats ([nan], [inf]) are not part of the
    value type.  Equality of floats is [Qeq] ([==]).

    Input.  [student_data] is a dictionary from field names to Python
    values; it is a [gmap string pyval].  The built-in conversions [float()]
    and [int()] raise [ValueError] or [TypeError]; the two functions that
    parse a string and the rendering [str(e)] of an exception are built-ins
    of the language, not code of the repository, and the development is
    parametric in them (class [Builtins]).

    Object state.  The methods receive [self]; the two public methods are
    written in a state-and-exception monad whose state is the calculator
    object, so that what a call does to [self] is part of its meaning.

    Every float.  The statements that say that a call returns for every
    input of some kind cannot be made on the idealised numbers: Python
    raises [OverflowError] where a result is too large for a float, and
    [nan] and the infinities behave unlike any rational.  The methods and
    the handlers are therefore given a second time, on every float and
    with [OverflowError] (names with the suffix [_x]); the statements on
    bounds, on the shape of the component risks, on rejected values and on
    the answers of the handlers are made there. *)

From Stdlib Require Import ZArith QArith Qabs Qround Qminmax Lqa Lia List Ascii String Bool.
From Stdlib Require Import Sorting.Permutation Sorting.Sorted.
From stdpp Require Import gmap strings.

Local Open Scope string_scope.
Local Open Scope Z_scope.
Local Open Scope Q_scope.

(** ** Python values and the built-in operations the source uses *)

(** The values a field of [student_data] can hold.  [PyInt] also stands
    for a [bool], which [float()] and [int()] read as 0 or 1; [PyObject] is
    an object of any other type that they do not accept (a list, a
    dictionary, a timestamp), with the name of its type. *)
Inductive pyval : Type :=
| PyInt (z : Z)
| PyFloat (q : Q)
| PyStr (s : string)
| PyNone
| PyObject (type_name : string).

(** Which conversion was being applied when an exception was raised. *)
Inductive conv : Type := ToFloat | ToInt.

(** The two exception classes the built-in conversions raise; each carries
    the conversion and the offending value, from which [str(e)] is made. *)
Inductive exn : Type :=
| ValueError (c : conv) (v : pyval)
| TypeError (c : conv) (v : pyval).

(** [a < b] on floats. *)
Definition Qlt_bool (a b : Q) : bool := negb (Qle_bool b a).

(** Python's [max(a, b)]: the first argument unless the second is greater. *)
Definition py_max (a b : Q) : Q := if Qlt_bool a b then b else a.

(** Python's [min(a, b)]: the first argument unless the second is smaller. *)
Definition py_min (a b : Q) : Q := if Qlt_bool b a then b else a.

(** [int(x)] on a float truncates toward zero. *)
Definition trunc (q : Q) : Z := Z.quot (Qnum q) (Zpos (Qden q)).

(** Rounding of an exact value to the nearest integer, ties to even, as
    Python's [round] does on the value it is given. *)
Definition round_half_even (q : Q) : Z :=
  let f := Qfloor q in
  let r := q - inject_Z f in
  if Qlt_bool r (1 # 2) then f
  else if Qlt_bool (1 # 2) r then (f + 1)%Z
  else if Z.even f then f else (f + 1)%Z.

(** [round(x, 3)]. *)
Definition round3 (x : Q) : Q := inject_Z (round_half_even (x * 1000)) / 1000.

(** ** The calculator object *)

Inductive level : Type := High | Medium | Low.

Record Weights : Type := {
  w_attendance : Q;
  w_score_trend : Q;
  w_fees : Q;
  w_attempts : Q
}.

Record Thresholds : Type := {
  t_high : Q;
  t_medium : Q
}.

Record Colors : Type := {
  c_High : string;
  c_Medium : string;
  c_Low : string
}.

Record RiskCalculator : Type := {
  weights : Weights;
  thresholds : Thresholds;
  colors : Colors
}.

(** [self.colors[risk_level]] *)
Definition colors_get (c : Colors) (l : level) : string :=
  match l with
  | High => c_High c
  | Medium => c_Medium c
  | Low => c_Low c
  end.

(** [RiskCalculator.__init__] *)
Definition init : RiskCalculator := {|
  weights := {| w_attendance := 0.50; w_score_trend := 0.30;
                w_fees := 0.15; w_attempts := 0.05 |};
  thresholds := {| t_high := 0.70; t_medium := 0.40 |};
  colors := {| c_High := "danger"; c_Medium := "warning"; c_Low := "success" |}
|}.

(** ** Component risks *)

(** [calculate_attendance_risk] *)
Definition calculate_attendance_risk (attendance_percent : Q) : Q :=
  if Qle_bool 75 attendance_percent then 0
  else py_max 0 ((75 - attendance_percent) / 75).

(** [calculate_score_trend_risk] *)
Definition calculate_score_trend_risk (previous_avg current_avg : Q) : Q :=
  if Qeq_bool previous_avg 0 || Qeq_bool current_avg 0 then 0
  else
    let score_drop := previous_avg - current_avg in
    if Qle_bool score_drop 0 then 0
    else py_min (py_max (score_drop / 100) 0) 1.

(** [calculate_fee_risk] *)
Definition calculate_fee_risk (fees_due_days : Z) : Q :=
  py_min (inject_Z fees_due_days / 90) 1.

(** [calculate_attempts_risk] *)
Definition calculate_attempts_risk (attempts : Z) : Q :=
  if (attempts <=? 1)%Z then 0
  else py_min (inject_Z (attempts - 1) / 4) 1.

(** ** Results *)

(** The dictionary returned by [calculate_risk]; [error] is present only on
    the failure path. *)
Module Summary.
Record t : Type := {
  risk_score : Q;
  risk_level : level;
  risk_color : string;
  error : option string
}.
End Summary.

(** The text of a factor's ['value'] entry: the f-string of the source with
    the number it interpolates.  How Python prints that number is left to
    the renderer. *)
Inductive factor_value : Type :=
| PercentBelow75 (attendance : Q)      (* f"{attendance}% (below 75%)" *)
| DroppedByPoints (score_drop : Q)     (* f"Dropped by {score_drop:.1f} points" *)
| DaysOverdue (fees_due : Z)           (* f"{fees_due} days overdue" *)
| AttemptsMade (attempts : Z).         (* f"{attempts} attempts" *)

Record RiskFactor : Type := {
  factor : string;
  value : factor_value;
  risk_contribution : Q;
  severity : level
}.

Record Components : Type := {
  attendance_risk : Q;
  score_trend_risk : Q;
  fee_risk : Q;
  attempts_risk : Q
}.

Record WeightedComponents : Type := {
  attendance_weighted : Q;
  score_trend_weighted : Q;
  fee_weighted : Q;
  attempts_weighted : Q
}.

(** The dictionary returned by [calculate_detailed_risk].  The success path
    has no [error] key; the failure path has no [risk_components] and no
    [weighted_components] key. *)
Module Detailed.
Record t : Type := {
  risk_score : Q;
  risk_level : level;
  risk_color : string;
  risk_components : option Components;
  weighted_components : option WeightedComponents;
  risk_factors : list RiskFactor;
  top_reasons : list RiskFactor;
  recommendations : list string;
  error : option string
}.
End Detailed.

(** ** State and exceptions *)

(** A method call: from the calculator object to an outcome (an exception
    or a value) and the calculator object afterwards. *)
Definition M (A : Type) : Type := RiskCalculator -> (exn + A) * RiskCalculator.

#[export] Instance M_ret : MRet M := fun A a self => (inr a, self).

#[export] Instance M_bind : MBind M := fun A B k m self =>
  match m self with
  | (inl e, self') => (inl e, self')
  | (inr a, self') => k a self'
  end.

(** A built-in that raises or returns, and does not touch [self]. *)
Definition lift {A : Type} (r : exn + A) : M A := fun self => (r, self).

(** Reading an attribute of [self]. *)
Definition attr {A : Type} (f : RiskCalculator -> A) : M A :=
  fun self => (inr (f self), self).

(** [try: body except (ValueError, TypeError) as e: handler]. *)
Definition try_except {A : Type} (body : M A) (handler : exn -> M A) : M A :=
  fun self =>
    match body self with
    | (inl (ValueError c v), self') => handler (ValueError c v) self'
    | (inl (TypeError c v), self') => handler (TypeError c v) self'
    | (inr a, self') => (inr a, self')
    end.

(** ** Lists *)

(** [l.sort(key=key, reverse=True)]: Python's sort is stable, also with
    [reverse=True]; a stable sort is determined by the order on the keys,
    and insertion from the right is one. *)
Fixpoint insert_desc {A : Type} (key : A -> Q) (x : A) (l : list A) : list A :=
  match l with
  | [] => [x]
  | y :: ys =>
      if Qle_bool (key y) (key x) then x :: y :: ys
      else y :: insert_desc key x ys
  end.

Definition sort_desc {A : Type} (key : A -> Q) (l : list A) : list A :=
  fold_right (insert_desc key) [] l.

(** [x in l] on strings. *)
Definition str_in (x : string) (l : list string) : bool :=
  existsb (String.eqb x) l.

Definition level_eqb (a b : level) : bool :=
  match a, b with
  | High, High | Medium, Medium | Low, Low => true
  | _, _ => false
  end.

(** [x in l] on severities. *)
Definition level_in (x : level) (l : list level) : bool :=
  existsb (level_eqb x) l.

(** [d.get(k, default)] *)
Definition dict_get (d : gmap string pyval) (k : string) (dflt : pyval) : pyval :=
  match d !! k with
  | Some v => v
  | None => dflt
  end.

(** ** The methods *)

(** The built-ins of the language the methods call and the repository does
    not define: [float(s)] and [int(s)] on a string (the number, or [None]
    where Python raises [ValueError]) and [str(e)] on an exception. *)
Class Builtins : Type := {
  float_of_str : string -> option Q;
  int_of_str : string -> option Z;
  str_exn : exn -> string
}.

Section Engine.

Context {builtins : Builtins}.

(** [float(v)] *)
Definition py_float (v : pyval) : exn + Q :=
  match v with
  | PyInt z => inr (inject_Z z)
  | PyFloat q => inr q
  | PyStr s =>
      match float_of_str s with
      | Some q => inr q
      | None => inl (ValueError ToFloat v)
      end
  | PyNone | PyObject _ => inl (TypeError ToFloat v)
  end.

(** [int(v)] *)
Definition py_int (v : pyval) : exn + Z :=
  match v with
  | PyInt z => inr z
  | PyFloat q => inr (trunc q)
  | PyStr s =>
      match int_of_str s with
      | Some z => inr z
      | None => inl (ValueError ToInt v)
      end
  | PyNone | PyObject _ => inl (TypeError ToInt v)
  end.

(** [self.weights[...]], [self.thresholds[...]] and [self.colors[...]] *)
Definition self_weight (key : Weights -> Q) : M Q :=
  attr (fun self => key (weights self)).

Definition self_threshold (key : Thresholds -> Q) : M Q :=
  attr (fun self => key (thresholds self)).

Definition self_color (key : level) : M string :=
  attr (fun self => colors_get (colors self) key).

(** The [if]/[elif]/[else] that determines the risk level, which both
    public methods contain. *)
Definition determine_risk_level (risk_score : Q) : M level :=
  high ← self_threshold t_high;
  if Qle_bool high risk_score then mret High
  else
    medium ← self_threshold t_medium;
    if Qle_bool medium risk_score then mret Medium
    else mret Low.

(** The weighted sum, which both public methods contain. *)
Definition weighted_risk_score (attendance_risk score_risk fee_risk attempts_risk : Q)
    : M Q :=
  wa ← self_weight w_attendance;
  ws ← self_weight w_score_trend;
  wf ← self_weight w_fees;
  wt ← self_weight w_attempts;
  mret (wa * attendance_risk + ws * score_risk + wf * fee_risk + wt * attempts_risk).

(** [calculate_risk] *)
Definition calculate_risk (student_data : gmap string pyval) : M Summary.t :=
  try_except
    (attendance ← lift (py_float (dict_get student_data "attendance_percent" (PyInt 0)));
     fees_due ← lift (py_int (dict_get student_data "fees_due_days" (PyInt 0)));
     attempts ← lift (py_int (dict_get student_data "attempts_in_subject_X" (PyInt 1)));
     previous_avg ← lift (py_float (dict_get student_data "previous_3_tests_avg" (PyInt 0)));
     current_avg ← lift (py_float (dict_get student_data "last_3_tests_avg" (PyInt 0)));
     let attendance_risk := calculate_attendance_risk attendance in
     let score_risk := calculate_score_trend_risk previous_avg current_avg in
     let fee_risk := calculate_fee_risk fees_due in
     let attempts_risk := calculate_attempts_risk attempts in
     risk_score ← weighted_risk_score attendance_risk score_risk fee_risk attempts_risk;
     risk_level ← determine_risk_level risk_score;
     color ← self_color risk_level;
     mret {| Summary.risk_score := risk_score;
             Summary.risk_level := risk_level;
             Summary.risk_color := color;
             Summary.error := None |})
    (fun e =>
       color ← self_color Low;
       mret {| Summary.risk_score := 0.0;
               Summary.risk_level := Low;
               Summary.risk_color := color;
               Summary.error := Some ("Data processing error: " ++ str_exn e) |}).

(** [generate_recommendations] *)
Definition generate_recommendations (student_data : gmap string pyval)
    (risk_factors : list RiskFactor) : M (list string) :=
  let recommendations : list string := [] in
  let primary_risks :=
    List.map factor
      (List.filter (fun f => level_in (severity f) [High; Medium]) risk_factors) in
  recommendations ←
    (if str_in "Attendance" primary_risks then
       attendance ← lift (py_float (dict_get student_data "attendance_percent" (PyInt 0)));
       if Qlt_bool attendance 50 then
         mret (recommendations ++
           ["URGENT: Schedule immediate parent-teacher meeting and attendance counseling"])%list
       else if Qlt_bool attendance 65 then
         mret (recommendations ++
           ["Schedule one-on-one attendance counseling session"])%list
       else
         mret (recommendations ++
           ["Monitor attendance closely and provide gentle reminders"])%list
     else mret recommendations);
  recommendations ←
    (if str_in "Test Score Trend" primary_risks then
       previous_avg ← lift (py_float (dict_get student_data "previous_3_tests_avg" (PyInt 0)));
       current_avg ← lift (py_float (dict_get student_data "last_3_tests_avg" (PyInt 0)));
       let score_drop := previous_avg - current_avg in
       if Qlt_bool 15 score_drop then
         mret (recommendations ++
           ["Arrange remedial classes and peer tutoring support"])%list
       else if Qlt_bool 8 score_drop then
         mret (recommendations ++
           ["Provide additional study materials and practice sessions"])%list
       else
         mret (recommendations ++
           ["Regular check-ins on study habits and academic support"])%list
     else mret recommendations);
  recommendations ←
    (if str_in "Fee Payment" primary_risks then
       fees_due ← lift (py_int (dict_get student_data "fees_due_days" (PyInt 0)));
       if (90 <? fees_due)%Z then
         mret (recommendations ++
           ["Connect with financial aid office for payment plan options"])%list
       else
         mret (recommendations ++
           ["Send fee payment reminder and discuss any financial difficulties"])%list
     else mret recommendations);
  recommendations ←
    (if str_in "Subject Attempts" primary_risks then
       attempts ← lift (py_int (dict_get student_data "attempts_in_subject_X" (PyInt 1)));
       if (4 <=? attempts)%Z then
         mret (recommendations ++
           ["Consider alternative learning methods or course modification"])%list
       else
         mret (recommendations ++
           ["Provide focused support for challenging subject areas"])%list
     else mret recommendations);
  let overall_risk :=
    length (List.filter (fun f => level_eqb (severity f) High) risk_factors) in
  let recommendations :=
    if (2 <=? overall_risk)%nat then
      (recommendations ++
         ["Schedule weekly mentor meetings and create comprehensive support plan"])%list
    else if (1 <=? overall_risk)%nat then
      (recommendations ++
         ["Bi-weekly check-ins and targeted intervention strategy"])%list
    else recommendations in
  mret (firstn 3 recommendations).

(** [calculate_detailed_risk] *)
Definition calculate_detailed_risk (student_data : gmap string pyval) : M Detailed.t :=
  try_except
    (attendance ← lift (py_float (dict_get student_data "attendance_percent" (PyInt 0)));
     fees_due ← lift (py_int (dict_get student_data "fees_due_days" (PyInt 0)));
     attempts ← lift (py_int (dict_get student_data "attempts_in_subject_X" (PyInt 1)));
     previous_avg ← lift (py_float (dict_get student_data "previous_3_tests_avg" (PyInt 0)));
     current_avg ← lift (py_float (dict_get student_data "last_3_tests_avg" (PyInt 0)));
     let attendance_risk := calculate_attendance_risk attendance in
     let score_risk := calculate_score_trend_risk previous_avg current_avg in
     let fee_risk := calculate_fee_risk fees_due in
     let attempts_risk := calculate_attempts_risk attempts in
     risk_score ← weighted_risk_score attendance_risk score_risk fee_risk attempts_risk;
     risk_level ← determine_risk_level risk_score;
     let risk_factors : list RiskFactor := [] in
     risk_factors ←
       (if Qlt_bool 0 attendance_risk then
          wa ← self_weight w_attendance;
          mret (risk_factors ++
            [{| factor := "Attendance";
                value := PercentBelow75 attendance;
                risk_contribution := attendance_risk * wa;
                severity := if Qlt_bool attendance 50 then High
                            else if Qlt_bool attendance 65 then Medium
                            else Low |}])%list
        else mret risk_factors);
     risk_factors ←
       (if Qlt_bool 0 score_risk then
          let score_drop := previous_avg - current_avg in
          ws ← self_weight w_score_trend;
          mret (risk_factors ++
            [{| factor := "Test Score Trend";
                value := DroppedByPoints score_drop;
                risk_contribution := score_risk * ws;
                severity := if Qlt_bool 15 score_drop then High
                            else if Qlt_bool 8 score_drop then Medium
                            else Low |}])%list
        else mret risk_factors);
     risk_factors ←
       (if Qlt_bool 0 fee_risk then
          wf ← self_weight w_fees;
          mret (risk_factors ++
            [{| factor := "Fee Payment";
                value := DaysOverdue fees_due;
                risk_contribution := fee_risk * wf;
                severity := if (90 <? fees_due)%Z then High
                            else if (30 <? fees_due)%Z then Medium
                            else Low |}])%list
        else mret risk_factors);
     risk_factors ←
       (if Qlt_bool 0 attempts_risk then
          wt ← self_weight w_attempts;
          mret (risk_factors ++
            [{| factor := "Subject Attempts";
                value := AttemptsMade attempts;
                risk_contribution := attempts_risk * wt;
                severity := if (4 <=? attempts)%Z then High
                            else if (3 <=? attempts)%Z then Medium
                            else Low |}])%list
        else mret risk_factors);
     let risk_factors := sort_desc risk_contribution risk_factors in
     let top_reasons :=
       if (2 <=? length risk_factors)%nat then firstn 2 risk_factors
       else risk_factors in
     recommendations ← generate_recommendations student_data risk_factors;
     color ← self_color risk_level;
     wa ← self_weight w_attendance;
     ws ← self_weight w_score_trend;
     wf ← self_weight w_fees;
     wt ← self_weight w_attempts;
     mret {| Detailed.risk_score := round3 risk_score;
             Detailed.risk_level := risk_level;
             Detailed.risk_color := color;
             Detailed.risk_components := Some
               {| attendance_risk := round3 attendance_risk;
                  score_trend_risk := round3 score_risk;
                  fee_risk := round3 fee_risk;
                  attempts_risk := round3 attempts_risk |};
             Detailed.weighted_components := Some
               {| attendance_weighted := round3 (attendance_risk * wa);
                  score_trend_weighted := round3 (score_risk * ws);
                  fee_weighted := round3 (fee_risk * wf);
                  attempts_weighted := round3 (attempts_risk * wt) |};
             Detailed.risk_factors := risk_factors;
             Detailed.top_reasons := top_reasons;
             Detailed.recommendations := recommendations;
             Detailed.error := None |})
    (fun e =>
       color ← self_color Low;
       mret {| Detailed.risk_score := 0.0;
               Detailed.risk_level := Low;
               Detailed.risk_color := color;
               Detailed.risk_components := None;
               Detailed.weighted_components := None;
               Detailed.risk_factors := [];
               Detailed.top_reasons := [];
               Detailed.recommendations := [];
               Detailed.error := Some ("Detailed analysis error: " ++ str_exn e) |}).

(** ** What a call computes

    The five conversions at the head of both public methods, and the
    values the success path builds from their results.  These are the
    vocabulary of the theorems; [calculate_risk_run],
    [generate_recommendations_run] and [calculate_detailed_risk_run] relate
    them to the methods. *)

Record Fields : Type := {
  f_attendance : Q;
  f_fees_due : Z;
  f_attempts : Z;
  f_previous_avg : Q;
  f_current_avg : Q
}.

Definition convert (student_data : gmap string pyval) : exn + Fields :=
  match py_float (dict_get student_data "attendance_percent" (PyInt 0)) with
  | inl e => inl e
  | inr a =>
  match py_int (dict_get student_data "fees_due_days" (PyInt 0)) with
  | inl e => inl e
  | inr d =>
  match py_int (dict_get student_data "attempts_in_subject_X" (PyInt 1)) with
  | inl e => inl e
  | inr n =>
  match py_float (dict_get student_data "previous_3_tests_avg" (PyInt 0)) with
  | inl e => inl e
  | inr p =>
  match py_float (dict_get student_data "last_3_tests_avg" (PyInt 0)) with
  | inl e => inl e
  | inr c =>
      inr {| f_attendance := a; f_fees_due := d; f_attempts := n;
             f_previous_avg := p; f_current_avg := c |}
  end end end end end.

Definition attendance_risk_of (f : Fields) : Q :=
  calculate_attendance_risk (f_attendance f).
Definition score_risk_of (f : Fields) : Q :=
  calculate_score_trend_risk (f_previous_avg f) (f_current_avg f).
Definition fee_risk_of (f : Fields) : Q :=
  calculate_fee_risk (f_fees_due f).
Definition attempts_risk_of (f : Fields) : Q :=
  calculate_attempts_risk (f_attempts f).

Definition score_of (self : RiskCalculator) (f : Fields) : Q :=
  w_attendance (weights self) * attendance_risk_of f +
  w_score_trend (weights self) * score_risk_of f +
  w_fees (weights self) * fee_risk_of f +
  w_attempts (weights self) * attempts_risk_of f.

Definition level_of (self : RiskCalculator) (risk_score : Q) : level :=
  if Qle_bool (t_high (thresholds self)) risk_score then High
  else if Qle_bool (t_medium (thresholds self)) risk_score then Medium
  else Low.

Definition attendance_factor (self : RiskCalculator) (f : Fields) : RiskFactor :=
  {| factor := "Attendance";
     value := PercentBelow75 (f_attendance f);
     risk_contribution := attendance_risk_of f * w_attendance (weights self);
     severity := if Qlt_bool (f_attendance f) 50 then High
                 else if Qlt_bool (f_attendance f) 65 then Medium
                 else Low |}.

Definition score_factor (self : RiskCalculator) (f : Fields) : RiskFactor :=
  {| factor := "Test Score Trend";
     value := DroppedByPoints (f_previous_avg f - f_current_avg f);
     risk_contribution := score_risk_of f * w_score_trend (weights self);
     severity := if Qlt_bool 15 (f_previous_avg f - f_current_avg f) then High
                 else if Qlt_bool 8 (f_previous_avg f - f_current_avg f) then Medium
                 else Low |}.

Definition fee_factor (self : RiskCalculator) (f : Fields) : RiskFactor :=
  {| factor := "Fee Payment";
     value := DaysOverdue (f_fees_due f);
     risk_contribution := fee_risk_of f * w_fees (weights self);
     severity := if (90 <? f_fees_due f)%Z then High
                 else if (30 <? f_fees_due f)%Z then Medium
                 else Low |}.

Definition attempts_factor (self : RiskCalculator) (f : Fields) : RiskFactor :=
  {| factor := "Subject Attempts";
     value := AttemptsMade (f_attempts f);
     risk_contribution := attempts_risk_of f * w_attempts (weights self);
     severity := if (4 <=? f_attempts f)%Z then High
                 else if (3 <=? f_attempts f)%Z then Medium
                 else Low |}.

(** The factors in the order the method appends them, before the sort. *)
Definition appended (self : RiskCalculator) (f : Fields) : list RiskFactor :=
  ((if Qlt_bool 0 (attendance_risk_of f) then [attendance_factor self f] else []) ++
   (if Qlt_bool 0 (score_risk_of f) then [score_factor self f] else []) ++
   (if Qlt_bool 0 (fee_risk_of f) then [fee_factor self f] else []) ++
   (if Qlt_bool 0 (attempts_risk_of f) then [attempts_factor self f] else []))%list.

(** The sentences [generate_recommendations] returns when the conversions
    succeed with [f]: one step per [if] of the method, each from the list
    built so far. *)
Definition primary_risks_of (risk_factors : list RiskFactor) : list string :=
  List.map factor
    (List.filter (fun x => level_in (severity x) [High; Medium]) risk_factors).

Definition attendance_advice (f : Fields) (primary_risks recommendations : list string)
    : list string :=
  if str_in "Attendance" primary_risks then
    if Qlt_bool (f_attendance f) 50 then
      (recommendations ++
        ["URGENT: Schedule immediate parent-teacher meeting and attendance counseling"])%list
    else if Qlt_bool (f_attendance f) 65 then
      (recommendations ++
        ["Schedule one-on-one attendance counseling session"])%list
    else
      (recommendations ++
        ["Monitor attendance closely and provide gentle reminders"])%list
  else recommendations.

Definition score_advice (f : Fields) (primary_risks recommendations : list string)
    : list string :=
  if str_in "Test Score Trend" primary_risks then
    if Qlt_bool 15 (f_previous_avg f - f_current_avg f) then
      (recommendations ++
        ["Arrange remedial classes and peer tutoring support"])%list
    else if Qlt_bool 8 (f_previous_avg f - f_current_avg f) then
      (recommendations ++
        ["Provide additional study materials and practice sessions"])%list
    else
      (recommendations ++
        ["Regular check-ins on study habits and academic support"])%list
  else recommendations.

Definition fee_advice (f : Fields) (primary_risks recommendations : list string)
    : list string :=
  if str_in "Fee Payment" primary_risks then
    if (90 <? f_fees_due f)%Z then
      (recommendations ++
        ["Connect with financial aid office for payment plan options"])%list
    else
      (recommendations ++
        ["Send fee payment reminder and discuss any financial difficulties"])%list
  else recommendations.

Definition attempts_advice (f : Fields) (primary_risks recommendations : list string)
    : list string :=
  if str_in "Subject Attempts" primary_risks then
    if (4 <=? f_attempts f)%Z then
      (recommendations ++
        ["Consider alternative learning methods or course modification"])%list
    else
      (recommendations ++
        ["Provide focused support for challenging subject areas"])%list
  else recommendations.

Definition escalation (risk_factors : list RiskFactor) (recommendations : list string)
    : list string :=
  let overall_risk :=
    length (List.filter (fun x => level_eqb (severity x) High) risk_factors) in
  if (2 <=? overall_risk)%nat then
    (recommendations ++
      ["Schedule weekly mentor meetings and create comprehensive support plan"])%list
  else if (1 <=? overall_risk)%nat then
    (recommendations ++
      ["Bi-weekly check-ins and targeted intervention strategy"])%list
  else recommendations.

Definition recommendations_of (f : Fields) (risk_factors : list RiskFactor)
    : list string :=
  let primary_risks := primary_risks_of risk_factors in
  firstn 3
    (escalation risk_factors
      (attempts_advice f primary_risks
        (fee_advice f primary_risks
          (score_advice f primary_risks
            (attendance_advice f primary_risks []))))).

Definition summary_ok (self : RiskCalculator) (f : Fields) : Summary.t :=
  {| Summary.risk_score := score_of self f;
     Summary.risk_level := level_of self (score_of self f);
     Summary.risk_color := colors_get (colors self) (level_of self (score_of self f));
     Summary.error := None |}.

Definition summary_failed (self : RiskCalculator) (e : exn) : Summary.t :=
  {| Summary.risk_score := 0.0;
     Summary.risk_level := Low;
     Summary.risk_color := colors_get (colors self) Low;
     Summary.error := Some ("Data processing error: " ++ str_exn e) |}.

Definition top2 (risk_factors : list RiskFactor) : list RiskFactor :=
  if (2 <=? length risk_factors)%nat then firstn 2 risk_factors else risk_factors.

Definition detailed_ok (self : RiskCalculator) (f : Fields) : Detailed.t :=
  let sorted := sort_desc risk_contribution (appended self f) in
  {| Detailed.risk_score := round3 (score_of self f);
     Detailed.risk_level := level_of self (score_of self f);
     Detailed.risk_color := colors_get (colors self) (level_of self (score_of self f));
     Detailed.risk_components := Some
       {| attendance_risk := round3 (attendance_risk_of f);
          score_trend_risk := round3 (score_risk_of f);
          fee_risk := round3 (fee_risk_of f);
          attempts_risk := round3 (attempts_risk_of f) |};
     Detailed.weighted_components := Some
       {| attendance_weighted := round3 (attendance_risk_of f * w_attendance (weights self));
          score_trend_weighted := round3 (score_risk_of f * w_score_trend (weights self));
          fee_weighted := round3 (fee_risk_of f * w_fees (weights self));
          attempts_weighted := round3 (attempts_risk_of f * w_attempts (weights self)) |};
     Detailed.risk_factors := sorted;
     Detailed.top_reasons := top2 sorted;
     Detailed.recommendations := recommendations_of f sorted;
     Detailed.error := None |}.

Definition detailed_failed (self : RiskCalculator) (e : exn) : Detailed.t :=
  {| Detailed.risk_score := 0.0;
     Detailed.risk_level := Low;
     Detailed.risk_color := colors_get (colors self) Low;
     Detailed.risk_components := None;
     Detailed.weighted_components := None;
     Detailed.risk_factors := [];
     Detailed.top_reasons := [];
     Detailed.recommendations := [];
     Detailed.error := Some ("Detailed analysis error: " ++ str_exn e) |}.

End Engine.

(** ** An instance of the built-ins

    For closed runs the built-ins are instantiated with a parser of plain
    decimal literals: an optional sign, digits, and for [float] an optional
    fraction.  Python accepts more (blanks around the literal, exponents,
    underscores); every string used below is either of this form or
    rejected by Python too. *)

Definition digit_of (c : ascii) : option Z :=
  let n := Z.of_N (Ascii.N_of_ascii c) in
  if ((48 <=? n) && (n <=? 57))%Z then Some (n - 48)%Z else None.

(** The digits of [s] read in base ten, after [acc]; [None] at the first
    character that is not a digit. *)
Fixpoint read_digits (s : string) (acc : Z) : option Z :=
  match s with
  | EmptyString => Some acc
  | String c s' =>
      match digit_of c with
      | Some k => read_digits s' (10 * acc + k)%Z
      | None => None
      end
  end.

Definition read_nat (s : string) : option Z :=
  match s with
  | EmptyString => None
  | _ => read_digits s 0%Z
  end.

(** The sign of a literal and the rest of it. *)
Definition split_sign (s : string) : Z * string :=
  match s with
  | String "-"%char s' => ((-1)%Z, s')
  | String "+"%char s' => (1%Z, s')
  | _ => (1%Z, s)
  end.

Definition dec_int_of_str (s : string) : option Z :=
  let (sg, body) := split_sign s in
  match read_nat body with
  | Some n => Some (sg * n)%Z
  | None => None
  end.

(** The part of [s] before the first dot, and the part after it if there is
    a dot. *)
Fixpoint split_dot (s : string) : string * option string :=
  match s with
  | EmptyString => (EmptyString, None)
  | String "."%char s' => (EmptyString, Some s')
  | String c s' => let (a, b) := split_dot s' in (String c a, b)
  end.

Definition dec_float_of_str (s : string) : option Q :=
  let (sg, body) := split_sign s in
  match split_dot body with
  | (whole, None) =>
      match read_nat whole with
      | Some n => Some (inject_Z (sg * n))
      | None => None
      end
  | (whole, Some frac) =>
      match read_nat (whole ++ frac) with
      | Some n =>
          Some (inject_Z (sg * n) / inject_Z (10 ^ Z.of_nat (String.length frac)))
      | None => None
      end
  end.

Definition type_name (v : pyval) : string :=
  match v with
  | PyInt _ => "int"
  | PyFloat _ => "float"
  | PyStr _ => "str"
  | PyNone => "NoneType"
  | PyObject tp => tp
  end.

(** The messages CPython gives the exceptions of [float()] and [int()]. *)
Definition py_str_exn (e : exn) : string :=
  match e with
  | ValueError ToFloat (PyStr s) => "could not convert string to float: '" ++ s ++ "'"
  | ValueError ToInt (PyStr s) => "invalid literal for int() with base 10: '" ++ s ++ "'"
  | ValueError _ v => "invalid value of type " ++ type_name v
  | TypeError ToFloat v =>
      "float() argument must be a string or a real number, not '" ++ type_name v ++ "'"
  | TypeError ToInt v =>
      "int() argument must be a string, a bytes-like object or a real number, not '"
        ++ type_name v ++ "'"
  end.

Definition decimal_builtins : Builtins := {|
  float_of_str := dec_float_of_str;
  int_of_str := dec_int_of_str;
  str_exn := py_str_exn
|}.

(** The two public methods with these built-ins, under the names the
    specification gives them. *)
Definition score : gmap string pyval -> M Summary.t :=
  @calculate_risk decimal_builtins.
Definition explain : gmap string pyval -> M Detailed.t :=
  @calculate_detailed_risk decimal_builtins.

(** The end-to-end record of the specification. *)
Definition example_record : gmap string pyval :=
  <["attendance_percent" := PyInt 40]>
  (<["fees_due_days" := PyInt 100]>
  (<["attempts_in_subject_X" := PyInt 5]>
  (<["previous_3_tests_avg" := PyInt 80]>
  (<["last_3_tests_avg" := PyInt 55]> ∅)))).

(** The same record as text, as a table whose columns were read as strings
    gives it. *)
Definition example_record_text : gmap string pyval :=
  <["attendance_percent" := PyStr "40.0"]>
  (<["fees_due_days" := PyStr "100"]>
  (<["attempts_in_subject_X" := PyStr "5"]>
  (<["previous_3_tests_avg" := PyStr "80"]>
  (<["last_3_tests_avg" := PyStr "55.0"]> ∅)))).



(** ** Vocabulary of the specification *)

(** [clamp(x, lo, hi)] as the specification writes it: [x] limited to the
    interval from [lo] to [hi]. *)
Definition clamp (x lo hi : Q) : Q :=
  if Qlt_bool x lo then lo else if Qlt_bool hi x then hi else x.

(** A value in the closed unit interval. *)
Definition in_unit (x : Q) : Prop := 0 <= x <= 1.

(** A valid record, after conversion: attendance is a percentage, the fee
    delay is not negative, there is at least one attempt; the test averages
    are any numbers. *)
Definition valid_record (f : Fields) : Prop :=
  0 <= f_attendance f <= 100 /\ (0 <= f_fees_due f)%Z /\ (1 <= f_attempts f)%Z.

(** The order Low, Medium, High on levels. *)
Definition level_rank (l : level) : nat :=
  match l with
  | Low => 0
  | Medium => 1
  | High => 2
  end.

(** The fixed colour map of the specification. *)
Definition color_map (l : level) : string :=
  match l with
  | High => "danger"
  | Medium => "warning"
  | Low => "success"
  end.

(** A record on the Medium boundary (score 0.40) and one on the High
    boundary (score 0.70). *)
Definition record_at_medium : gmap string pyval :=
  <["attendance_percent" := PyInt 15]> ∅.

Definition record_at_high : gmap string pyval :=
  <["attendance_percent" := PyInt 0]>
  (<["fees_due_days" := PyInt 90]>
  (<["attempts_in_subject_X" := PyInt 5]> ∅)).

(** A number with at most three decimal places. *)
Definition rounded3 (q : Q) : Prop := exists k : Z, q == inject_Z k / 1000.

(** The place of a factor in the order of evaluation. *)
Definition eval_rank (x : RiskFactor) : nat :=
  if String.eqb (factor x) "Attendance" then 0
  else if String.eqb (factor x) "Test Score Trend" then 1
  else if String.eqb (factor x) "Fee Payment" then 2
  else 3.

(** [x] comes before [y] in a list sorted by descending key in which ties
    keep the order given by [rk]. *)
Definition before {A : Type} (key : A -> Q) (rk : A -> nat) (x y : A) : Prop :=
  key y < key x \/ (key x == key y /\ (rk x < rk y)%nat).

(** The order of [risk_factors]: descending contribution, ties in the
    order of evaluation. *)
Definition factor_before : RiskFactor -> RiskFactor -> Prop :=
  before risk_contribution eval_rank.

(** The sentence of the rule-table row for attendance from 65 up to 75. *)
Definition monitor_advice : string :=
  "Monitor attendance closely and provide gentle reminders".

(** A record with attendance 70 and nothing else at risk. *)
Definition record_attendance_70 : gmap string pyval :=
  <["attendance_percent" := PyFloat 70]>
  (<["fees_due_days" := PyInt 0]>
  (<["attempts_in_subject_X" := PyInt 1]>
  (<["previous_3_tests_avg" := PyFloat 60]>
  (<["last_3_tests_avg" := PyFloat 60]> ∅)))).

(** The fields of [example_record]. *)
Definition example_fields : Fields :=
  {| f_attendance := inject_Z 40; f_fees_due := 100; f_attempts := 5;
     f_previous_avg := inject_Z 80; f_current_avg := inject_Z 55 |}.

(** A record whose attendance, score trend and fee contributions are all
    0.15. *)
Definition record_with_ties : gmap string pyval :=
  <["attendance_percent" := PyFloat 52.5]>
  (<["fees_due_days" := PyInt 90]>
  (<["previous_3_tests_avg" := PyInt 90]>
  (<["last_3_tests_avg" := PyInt 40]> ∅))).

(** A record whose score, 0.6998, is just below the High threshold. *)
Definition record_near_high : gmap string pyval :=
  <["attendance_percent" := PyInt 0]>
  (<["fees_due_days" := PyInt 90]>
  (<["previous_3_tests_avg" := PyInt 80]>
  (<["last_3_tests_avg" := PyFloat 63.4]> ∅))).

(** ** Vocabulary of the further properties *)


(** A factor that [generate_recommendations] counts among the primary
    risks, and one that it counts as High. *)
Definition is_primary (x : RiskFactor) : bool :=
  level_in (severity x) [High; Medium].

Definition is_high (x : RiskFactor) : bool :=
  level_eqb (severity x) High.

(** The sentence of the rule-table row for a score drop of at most 8, and
    the two escalation sentences. *)
Definition check_ins_advice : string :=
  "Regular check-ins on study habits and academic support".

Definition weekly_advice : string :=
  "Schedule weekly mentor meetings and create comprehensive support plan".

Definition biweekly_advice : string :=
  "Bi-weekly check-ins and targeted intervention strategy".

(** The five keys the calculator reads. *)
Definition record_keys : list string :=
  ["attendance_percent"; "fees_due_days"; "attempts_in_subject_X";
   "previous_3_tests_avg"; "last_3_tests_avg"].

(** The keys whose value goes through [int()]; the other three go through
    [float()]. *)
Definition int_key (k : string) : bool :=
  str_in k ["fees_due_days"; "attempts_in_subject_X"].

(** * The dashboard handlers of [app.py]

    The handlers that call the calculator or keep the data it is applied
    to: [upload_csv], [get_students], [get_student_detail],
    [add_student_note], [get_summary], [logout], with [load_student_notes]
    and [save_student_notes].  A handler is modelled up to its call of
    [jsonify]: its result is the value it hands to [jsonify] and the status
    code; how Flask serialises that value is not part of the model.

    The state of the application is the Flask session, the global
    [students_data], the notes file and the global calculator [risk_calc].
    A [DataFrame] is its list of columns and its rows in order, a row being
    the dictionary [row.to_dict()] gives.  The handlers not modelled render
    templates or flash messages ([index], [login], [dashboard], [admin]) or
    read the sample file ([load_sample_data], [load_sample]). *)

(** The exceptions a handler body can raise: a missing column, the
    division in [get_summary], or one raised by the calculator. *)
Inductive app_exn : Type :=
| KeyError (key : string)
| ZeroDivisionError
| Raised (e : exn).

Record DataFrame : Type := {
  columns : list string;
  rows : list (gmap string pyval)
}.

(** An intervention note as [add_student_note] builds it. *)
Record Note : Type := {
  timestamp : string;
  mentor_id : string;
  note : string
}.

Record App : Type := {
  session : gmap string string;
  students_data : option DataFrame;
  notes_file : option (gmap string (list Note));
  risk_calc : RiskCalculator
}.

(** What a handler returns: [jsonify(body)], or [jsonify({'error': ...})]
    with a status code. *)
Inductive response (A : Type) : Type :=
| Ok (body : A)
| Failed (status : Z) (message : string).

Arguments Ok {A} body.
Arguments Failed {A} status message.

(** String methods of the language that the handlers call. *)
Class StrBuiltins : Type := {
  strip : string -> string;
  lower : string -> string
}.

(** [s.endswith(suffix)] *)
Definition endswith (s suffix : string) : bool :=
  (String.length suffix <=? String.length s)%nat &&
  String.eqb (substring (String.length s - String.length suffix)
                        (String.length suffix) s) suffix.

(** [sep.join(l)] *)
Fixpoint join (sep : string) (l : list string) : string :=
  match l with
  | [] => EmptyString
  | [x] => x
  | x :: rest => x ++ sep ++ join sep rest
  end.

(** A handler body: it may raise, and it may use the calculator. *)
Definition H (A : Type) : Type := RiskCalculator -> (app_exn + A) * RiskCalculator.

#[export] Instance H_ret : MRet H := fun A a calc => (inr a, calc).

#[export] Instance H_bind : MBind H := fun A B k m calc =>
  match m calc with
  | (inl e, calc') => (inl e, calc')
  | (inr a, calc') => k a calc'
  end.

Definition raise {A : Type} (e : app_exn) : H A := fun calc => (inl e, calc).

(** A call of a method of [risk_calc]. *)
Definition call {A : Type} (m : M A) : H A :=
  fun calc =>
    match m calc with
    | (inl e, calc') => (inl (Raised e), calc')
    | (inr a, calc') => (inr a, calc')
    end.

(** [row[key]] *)
Definition getitem (row : gmap string pyval) (key : string) : H pyval :=
  match row !! key with
  | Some v => mret v
  | None => raise (KeyError key)
  end.

(** A [for] loop that appends one result per element. *)
Fixpoint for_each {A B : Type} (body : A -> H B) (l : list A) : H (list B) :=
  match l with
  | [] => mret []
  | x :: rest =>
      y ← body x;
      ys ← for_each body rest;
      mret (y :: ys)
  end.

(** A [for] loop that updates the variables [acc]. *)
Fixpoint for_loop {A S : Type} (body : S -> A -> H S) (l : list A) (acc : S) : H S :=
  match l with
  | [] => mret acc
  | x :: rest =>
      acc ← body acc x;
      for_loop body rest acc
  end.

(** [round(x, 1)] *)
Definition round1 (x : Q) : Q := inject_Z (round_half_even (x * 10)) / 10.

(** [a / b] on two ints. *)
Definition py_truediv (a b : Z) : H Q :=
  if (b =? 0)%Z then raise ZeroDivisionError
  else mret (inject_Z a / inject_Z b).

Module StudentInfo.
Record t : Type := {
  student_id : pyval;
  first_name : pyval;
  last_name : pyval;
  class_ : pyval;
  roll_no : pyval;
  attendance_percent : pyval;
  fees_due_days : pyval;
  last_3_tests_avg : pyval;
  risk_score : Q;
  risk_level : level;
  risk_color : string
}.
End StudentInfo.

Record StudentList : Type := {
  students : list StudentInfo.t;
  total_count : nat
}.

(** [risk_counts], a dictionary with the three levels as keys. *)
Record RiskCounts : Type := {
  count_Low : nat;
  count_Medium : nat;
  count_High : nat
}.

(** [risk_counts[l]] and [risk_counts[l] += 1] *)
Definition counts_get (c : RiskCounts) (l : level) : nat :=
  match l with
  | Low => count_Low c
  | Medium => count_Medium c
  | High => count_High c
  end.

Definition counts_incr (c : RiskCounts) (l : level) : RiskCounts :=
  match l with
  | Low => {| count_Low := count_Low c + 1; count_Medium := count_Medium c;
              count_High := count_High c |}
  | Medium => {| count_Low := count_Low c; count_Medium := count_Medium c + 1;
                 count_High := count_High c |}
  | High => {| count_Low := count_Low c; count_Medium := count_Medium c;
               count_High := count_High c + 1 |}
  end.

Record AttendanceStat : Type := {
  as_student_id : pyval;
  as_attendance : pyval
}.

Record ScoreTrend : Type := {
  st_student_id : pyval;
  st_previous_avg : pyval;
  st_current_avg : pyval
}.

Record SummaryStats : Type := {
  total_students : nat;
  risk_distribution : RiskCounts;
  attendance_stats : list AttendanceStat;
  score_trends : list ScoreTrend;
  high_risk_percentage : Q
}.

Module StudentDetail.
Record t : Type := {
  student_id : pyval;
  first_name : pyval;
  last_name : pyval;
  class_ : pyval;
  roll_no : pyval;
  attendance_percent : pyval;
  fees_due_days : pyval;
  attempts_in_subject_X : pyval;
  last_test_1 : pyval;
  last_test_2 : pyval;
  last_test_3 : pyval;
  last_3_tests_avg : pyval;
  previous_3_tests_avg : pyval;
  risk_analysis : Detailed.t;
  intervention_notes : list Note
}.
End StudentDetail.

Record NoteAdded : Type := {
  na_message : string;
  na_note : Note
}.

Record Upload : Type := {
  filename : string;
  content : string + DataFrame
}.

Record Uploaded : Type := {
  up_message : string;
  up_student_count : nat;
  up_columns : list string
}.

(** [required_cols] of [upload_csv] *)
Definition required_cols : list string :=
  ["student_id"; "first_name"; "last_name"; "attendance_percent";
   "fees_due_days"; "attempts_in_subject_X"; "last_3_tests_avg";
   "previous_3_tests_avg"].

(** [str(e)] for the exceptions of a handler body. *)
Definition str_app_exn {builtins : Builtins} (e : app_exn) : string :=
  match e with
  | KeyError key => "'" ++ key ++ "'"
  | ZeroDivisionError => "division by zero"
  | Raised e => str_exn e
  end.

Definition set_risk_calc (app : App) (calc : RiskCalculator) : App :=
  {| session := session app; students_data := students_data app;
     notes_file := notes_file app; risk_calc := calc |}.

Definition set_students_data (app : App) (df : DataFrame) : App :=
  {| session := session app; students_data := Some df;
     notes_file := notes_file app; risk_calc := risk_calc app |}.

Definition set_notes_file (app : App) (notes : gmap string (list Note)) : App :=
  {| session := session app; students_data := students_data app;
     notes_file := Some notes; risk_calc := risk_calc app |}.

(** [load_student_notes]: the content of the notes file, or the empty
    dictionary when the file does not exist. *)
Definition load_student_notes (app : App) : gmap string (list Note) :=
  match notes_file app with
  | Some notes => notes
  | None => ∅
  end.

(** [save_student_notes] *)
Definition save_student_notes (app : App) (notes : gmap string (list Note)) : App :=
  set_notes_file app notes.

(** [logout]: the session is cleared; the response is a redirect. *)
Definition logout (app : App) : App :=
  {| session := ∅; students_data := students_data app;
     notes_file := notes_file app; risk_calc := risk_calc app |}.

Section Handlers.

Context {builtins : Builtins} {str_builtins : StrBuiltins}.

(** The body of the loop of [get_students]. *)
Definition student_info_of (row : gmap string pyval) : H StudentInfo.t :=
  risk_result ← call (calculate_risk row);
  student_id ← getitem row "student_id";
  first_name ← getitem row "first_name";
  last_name ← getitem row "last_name";
  let class_ := dict_get row "class" (PyStr "N/A") in
  let roll_no := dict_get row "roll_no" (PyStr "N/A") in
  attendance_percent ← getitem row "attendance_percent";
  fees_due_days ← getitem row "fees_due_days";
  last_3_tests_avg ← getitem row "last_3_tests_avg";
  mret {| StudentInfo.student_id := student_id;
          StudentInfo.first_name := first_name;
          StudentInfo.last_name := last_name;
          StudentInfo.class_ := class_;
          StudentInfo.roll_no := roll_no;
          StudentInfo.attendance_percent := attendance_percent;
          StudentInfo.fees_due_days := fees_due_days;
          StudentInfo.last_3_tests_avg := last_3_tests_avg;
          StudentInfo.risk_score := round3 (Summary.risk_score risk_result);
          StudentInfo.risk_level := Summary.risk_level risk_result;
          StudentInfo.risk_color := Summary.risk_color risk_result |}.

(** The [try] block of [get_students]. *)
Definition get_students_body (df : DataFrame) : H StudentList :=
  students_with_risk ← for_each student_info_of (rows df);
  let students_with_risk := sort_desc StudentInfo.risk_score students_with_risk in
  mret {| students := students_with_risk;
          total_count := length students_with_risk |}.

(** [get_students] *)
Definition get_students (app : App) : response StudentList * App :=
  match session app !! "user_id" with
  | None => (Failed 401 "Unauthorized", app)
  | Some _ =>
      match students_data app with
      | None => (Failed 400 "No student data loaded", app)
      | Some df =>
          match get_students_body df (risk_calc app) with
          | (inr body, calc) => (Ok body, set_risk_calc app calc)
          | (inl e, calc) =>
              (Failed 500 ("Error calculating risks: " ++ str_app_exn e),
               set_risk_calc app calc)
          end
      end
  end.

(** The body of the loop of [get_summary], on the three variables it
    updates. *)
Definition summary_step
    (acc : RiskCounts * list AttendanceStat * list ScoreTrend)
    (row : gmap string pyval)
    : H (RiskCounts * list AttendanceStat * list ScoreTrend) :=
  let '(risk_counts, attendance_stats, score_trends) := acc in
  risk_result ← call (calculate_risk row);
  let risk_counts := counts_incr risk_counts (Summary.risk_level risk_result) in
  student_id ← getitem row "student_id";
  attendance ← getitem row "attendance_percent";
  let attendance_stats :=
    (attendance_stats ++
      [{| as_student_id := student_id; as_attendance := attendance |}])%list in
  student_id ← getitem row "student_id";
  previous_avg ← getitem row "previous_3_tests_avg";
  current_avg ← getitem row "last_3_tests_avg";
  let score_trends :=
    (score_trends ++
      [{| st_student_id := student_id; st_previous_avg := previous_avg;
          st_current_avg := current_avg |}])%list in
  mret (risk_counts, attendance_stats, score_trends).

(** The [try] block of [get_summary]. *)
Definition get_summary_body (df : DataFrame) : H SummaryStats :=
  let risk_counts := {| count_Low := 0; count_Medium := 0; count_High := 0 |} in
  '(risk_counts, attendance_stats, score_trends) ←
    for_loop summary_step (rows df) (risk_counts, [], []);
  ratio ← py_truediv (Z.of_nat (counts_get risk_counts High))
                     (Z.of_nat (length (rows df)));
  mret {| total_students := length (rows df);
          risk_distribution := risk_counts;
          attendance_stats := attendance_stats;
          score_trends := score_trends;
          high_risk_percentage := round1 (ratio * 100) |}.

(** [get_summary] *)
Definition get_summary (app : App) : response SummaryStats * App :=
  match session app !! "user_id" with
  | None => (Failed 401 "Unauthorized", app)
  | Some _ =>
      match students_data app with
      | None => (Failed 400 "No student data loaded", app)
      | Some df =>
          match get_summary_body df (risk_calc app) with
          | (inr body, calc) => (Ok body, set_risk_calc app calc)
          | (inl e, calc) =>
              (Failed 500 ("Error generating summary: " ++ str_app_exn e),
               set_risk_calc app calc)
          end
      end
  end.

(** [students_data['student_id'] == student_id], row by row: a value that
    is not a string is not equal to the string of the URL. *)
Definition id_matches (student_id : string) (row : gmap string pyval) : bool :=
  match row !! "student_id" with
  | Some (PyStr s) => String.eqb s student_id
  | _ => false
  end.

(** The [try] block of [get_student_detail]; [None] stands for the answer
    'Student not found'. *)
Definition get_student_detail_body (app : App) (df : DataFrame) (student_id : string)
    : H (option StudentDetail.t) :=
  _ ← (if str_in "student_id" (columns df) then mret tt
       else raise (KeyError "student_id"));
  let student_row := List.filter (id_matches student_id) (rows df) in
  match student_row with
  | [] => mret None
  | student :: _ =>
      risk_result ← call (calculate_detailed_risk student);
      let notes := load_student_notes app in
      let student_notes :=
        match notes !! student_id with
        | Some l => l
        | None => []
        end in
      sid ← getitem student "student_id";
      first_name ← getitem student "first_name";
      last_name ← getitem student "last_name";
      let class_ := dict_get student "class" (PyStr "N/A") in
      let roll_no := dict_get student "roll_no" (PyStr "N/A") in
      attendance_percent ← getitem student "attendance_percent";
      fees_due_days ← getitem student "fees_due_days";
      attempts ← getitem student "attempts_in_subject_X";
      let last_test_1 := dict_get student "last_test_1" (PyInt 0) in
      let last_test_2 := dict_get student "last_test_2" (PyInt 0) in
      let last_test_3 := dict_get student "last_test_3" (PyInt 0) in
      last_3_tests_avg ← getitem student "last_3_tests_avg";
      previous_3_tests_avg ← getitem student "previous_3_tests_avg";
      mret (Some
        {| StudentDetail.student_id := sid;
           StudentDetail.first_name := first_name;
           StudentDetail.last_name := last_name;
           StudentDetail.class_ := class_;
           StudentDetail.roll_no := roll_no;
           StudentDetail.attendance_percent := attendance_percent;
           StudentDetail.fees_due_days := fees_due_days;
           StudentDetail.attempts_in_subject_X := attempts;
           StudentDetail.last_test_1 := last_test_1;
           StudentDetail.last_test_2 := last_test_2;
           StudentDetail.last_test_3 := last_test_3;
           StudentDetail.last_3_tests_avg := last_3_tests_avg;
           StudentDetail.previous_3_tests_avg := previous_3_tests_avg;
           StudentDetail.risk_analysis := risk_result;
           StudentDetail.intervention_notes := student_notes |})
  end.

(** [get_student_detail] *)
Definition get_student_detail (app : App) (student_id : string)
    : response StudentDetail.t * App :=
  match session app !! "user_id" with
  | None => (Failed 401 "Unauthorized", app)
  | Some _ =>
      match students_data app with
      | None => (Failed 400 "No student data loaded", app)
      | Some df =>
          match get_student_detail_body app df student_id (risk_calc app) with
          | (inr (Some body), calc) => (Ok body, set_risk_calc app calc)
          | (inr None, calc) => (Failed 404 "Student not found", set_risk_calc app calc)
          | (inl e, calc) =>
              (Failed 500 ("Error fetching student details: " ++ str_app_exn e),
               set_risk_calc app calc)
          end
      end
  end.

(** [add_student_note]; [body_note] is the ['note'] entry of the JSON body
    when there is one (a string), and [now] is
    [datetime.now().isoformat()]. *)
Definition add_student_note (app : App) (student_id : string)
    (body_note : option string) (now : string) : response NoteAdded * App :=
  match session app !! "user_id" with
  | None => (Failed 401 "Unauthorized", app)
  | Some user_id =>
      let note_text :=
        strip (match body_note with Some s => s | None => EmptyString end) in
      if String.eqb note_text EmptyString then
        (Failed 400 "Note text is required", app)
      else
        let notes := load_student_notes app in
        let notes :=
          match notes !! student_id with
          | None => <[student_id := []]> notes
          | Some _ => notes
          end in
        let new_note :=
          {| timestamp := now; mentor_id := user_id; note := note_text |} in
        let notes :=
          match notes !! student_id with
          | Some l => <[student_id := (l ++ [new_note])%list]> notes
          | None => notes
          end in
        let app := save_student_notes app notes in
        (Ok {| na_message := "Note added successfully"; na_note := new_note |}, app)
  end.

(** [upload_csv]; [file] is [request.files['file']] when there is one, and
    its [content] is what [pd.read_csv] makes of it: a data frame, or the
    text of the exception it raises. *)
Definition upload_csv (app : App) (file : option Upload) : response Uploaded * App :=
  match session app !! "user_id" with
  | None => (Failed 401 "Unauthorized", app)
  | Some _ =>
      match file with
      | None => (Failed 400 "No file provided", app)
      | Some file =>
          if String.eqb (filename file) EmptyString then
            (Failed 400 "No file selected", app)
          else if endswith (lower (filename file)) ".csv" then
            match content file with
            | inl msg => (Failed 400 ("Error processing CSV: " ++ msg), app)
            | inr df =>
                let app := set_students_data app df in
                let missing_cols :=
                  List.filter (fun col => negb (str_in col (columns df)))
                    required_cols in
                match missing_cols with
                | _ :: _ =>
                    (Failed 400 ("Missing columns: " ++ join ", " missing_cols), app)
                | [] =>
                    (Ok {| up_message := "CSV uploaded successfully";
                           up_student_count := length (rows df);
                           up_columns := columns df |}, app)
                end
            end
          else
            (Failed 400 "Invalid file format. Please upload a CSV file.", app)
      end
  end.

End Handlers.

(** ** Vocabulary of the properties of the handlers *)

(** [key in row] *)
Definition row_has (row : gmap string pyval) (key : string) : bool :=
  match row !! key with
  | Some _ => true
  | None => false
  end.

Definition has_keys (keys : list string) (row : gmap string pyval) : bool :=
  forallb (row_has row) keys.

(** The columns that [get_students], [get_summary] and
    [get_student_detail] read with [row[...]]. *)
Definition list_keys : list string :=
  ["student_id"; "first_name"; "last_name"; "attendance_percent";
   "fees_due_days"; "last_3_tests_avg"].

Definition summary_keys : list string :=
  ["student_id"; "attendance_percent"; "previous_3_tests_avg"; "last_3_tests_avg"].


(** A data frame as pandas makes it: every row has a value for every
    column. *)
Definition frame_ok (df : DataFrame) : Prop :=
  forall row key, In row (rows df) -> (row_has row key = true <-> In key (columns df)).

(** What [calculate_risk] returns for a row. *)
Definition summary_of {builtins : Builtins} (calc : RiskCalculator)
    (row : gmap string pyval) : Summary.t :=
  match convert row with
  | inr f => summary_ok calc f
  | inl e => summary_failed calc e
  end.


(** The entry of the student list that belongs to a row. *)
Definition listed_for {builtins : Builtins} (calc : RiskCalculator)
    (row : gmap string pyval) (e : StudentInfo.t) : Prop :=
  row !! "student_id" = Some (StudentInfo.student_id e) /\
  row !! "first_name" = Some (StudentInfo.first_name e) /\
  row !! "last_name" = Some (StudentInfo.last_name e) /\
  StudentInfo.class_ e = dict_get row "class" (PyStr "N/A") /\
  StudentInfo.roll_no e = dict_get row "roll_no" (PyStr "N/A") /\
  row !! "attendance_percent" = Some (StudentInfo.attendance_percent e) /\
  row !! "fees_due_days" = Some (StudentInfo.fees_due_days e) /\
  row !! "last_3_tests_avg" = Some (StudentInfo.last_3_tests_avg e) /\
  StudentInfo.risk_score e = round3 (Summary.risk_score (summary_of calc row)) /\
  StudentInfo.risk_level e = Summary.risk_level (summary_of calc row) /\
  StudentInfo.risk_color e = Summary.risk_color (summary_of calc row).

(** The entries of a list, or the rows of a frame, at a level. *)
Definition listed_at (l : level) (e : StudentInfo.t) : bool :=
  level_eqb (StudentInfo.risk_level e) l.

Definition row_at {builtins : Builtins} (calc : RiskCalculator) (l : level)
    (row : gmap string pyval) : bool :=
  level_eqb (Summary.risk_level (summary_of calc row)) l.

(** The entry of [attendance_stats] and of [score_trends] that belongs to a
    row. *)
Definition attendance_stat_for (row : gmap string pyval) (x : AttendanceStat) : Prop :=
  row !! "student_id" = Some (as_student_id x) /\
  row !! "attendance_percent" = Some (as_attendance x).

Definition score_trend_for (row : gmap string pyval) (x : ScoreTrend) : Prop :=
  row !! "student_id" = Some (st_student_id x) /\
  row !! "previous_3_tests_avg" = Some (st_previous_avg x) /\
  row !! "last_3_tests_avg" = Some (st_current_avg x).

(** A row with the eight required columns. *)
Definition student_row (id first last : string) (attendance : Q) (fees attempts : Z)
    (last_avg previous_avg : Q) : gmap string pyval :=
  <["student_id" := PyStr id]>
  (<["first_name" := PyStr first]>
  (<["last_name" := PyStr last]>
  (<["attendance_percent" := PyFloat attendance]>
  (<["fees_due_days" := PyInt fees]>
  (<["attempts_in_subject_X" := PyInt attempts]>
  (<["last_3_tests_avg" := PyFloat last_avg]>
  (<["previous_3_tests_avg" := PyFloat previous_avg]> ∅))))))).

(** Three students: one at no risk, one rated High, one whose attendance
    cannot be read. *)
Definition sample_frame : DataFrame :=
  {| columns := required_cols;
     rows := [ student_row "S001" "Asha" "Rao" 92 0 1 78 80;
               student_row "S002" "Ravi" "Kumar" 10 120 5 40 85;
               <["attendance_percent" := PyStr "N/A"]>
                 (student_row "S003" "Meera" "Shah" 0 0 1 0 0) ] |}.

Definition sample_app : App :=
  {| session := {[ "user_id" := "mentor" ]};
     students_data := Some sample_frame;
     notes_file := None;
     risk_calc := init |}.

(** [str.strip] and [str.lower] on ASCII text, for closed runs. *)
Definition is_space (c : ascii) : bool :=
  let n := Ascii.nat_of_ascii c in
  (n =? 32)%nat || ((9 <=? n)%nat && (n <=? 13)%nat)
  || ((28 <=? n)%nat && (n <=? 31)%nat).

Fixpoint lstrip (s : string) : string :=
  match s with
  | String c s' => if is_space c then lstrip s' else s
  | EmptyString => EmptyString
  end.

Fixpoint rstrip (s : string) : string :=
  match s with
  | String c s' =>
      match rstrip s' with
      | EmptyString => if is_space c then EmptyString else String c EmptyString
      | rest => String c rest
      end
  | EmptyString => EmptyString
  end.

Definition ascii_lower (c : ascii) : ascii :=
  let n := Ascii.nat_of_ascii c in
  if ((65 <=? n)%nat && (n <=? 90)%nat) then Ascii.ascii_of_nat (n + 32) else c.

Fixpoint map_string (f : ascii -> ascii) (s : string) : string :=
  match s with
  | String c s' => String (f c) (map_string f s')
  | EmptyString => EmptyString
  end.

Definition ascii_str_builtins : StrBuiltins :=
  {| strip := fun s => rstrip (lstrip s); lower := map_string ascii_lower |}.

(** The same students in a file that lacks the column of the fee delay. *)
Definition frame_without_fees : DataFrame :=
  {| columns := List.filter (fun c => negb (String.eqb c "fees_due_days")) required_cols;
     rows := List.map (delete "fees_due_days") (rows sample_frame) |}.

Definition upload_without_fees : Upload :=
  {| filename := "Students.CSV"; content := inr frame_without_fees |}.

Definition upload_sample : Upload :=
  {| filename := "students.csv"; content := inr sample_frame |}.

(** The application before any data is loaded, with a mentor logged in. *)
Definition fresh_app : App :=
  {| session := {[ "user_id" := "mentor" ]};
     students_data := None;
     notes_file := None;
     risk_calc := init |}.

(** Loaded data without rows. *)
Definition empty_app : App :=
  {| session := {[ "user_id" := "mentor" ]};
     students_data := Some {| columns := required_cols; rows := [] |};
     notes_file := None;
     risk_calc := init |}.

(** * The calculator on every float, with the results a float cannot hold

    The part above idealises a float as a rational and an [int] as a [Z]
    that every operation accepts.  This part follows the same methods on
    the inputs and through the outcomes that the idealisation leaves out:

    - a float is finite, or one of [inf], [-inf] and [nan] (what pandas
      gives for a cell that reads [inf], and for a blank cell); the
      arithmetic and the comparisons on them are those of IEEE 754, which
      Python's floats follow, and a finite float is still an exact
      rational;
    - [float(n)] on an [int], and the true division [n / k] of two
      [int]s, raise [OverflowError] when the result is too large for a
      float; [int(x)] raises [OverflowError] on an infinity and
      [ValueError] on [nan];
    - the [except (ValueError, TypeError)] clause of the two public
      methods does not catch [OverflowError], which reaches the caller;
      the handlers of [app.py] catch it with [except Exception].

    Arithmetic on finite floats is exact here as above: binary rounding,
    and the rounding to an infinity of a difference of two floats of
    opposite sign near the largest float, are not modelled.  The names are
    those of the source with the suffix [_x]. *)

(** ** Floats *)

Inductive pyfloat : Type :=
| Float (q : Q)
| PosInf
| NegInf
| NaN.

(** The least magnitude that a conversion to float rounds to [2^1024],
    which is not a float: half-way between the largest float,
    [2^1024 - 2^971], and [2^1024]. *)
Definition float_limit : Z := 2 ^ 1024 - 2 ^ 970.

(** An exact result whose conversion to float overflows. *)
Definition too_large (q : Q) : bool := Qle_bool (inject_Z float_limit) (Qabs q).

(** [a < b], [a <= b] and [a == b]: every comparison with [nan] is false. *)
Definition flt (a b : pyfloat) : bool :=
  match a, b with
  | Float x, Float y => Qlt_bool x y
  | Float _, PosInf | NegInf, Float _ | NegInf, PosInf => true
  | _, _ => false
  end.

Definition fle (a b : pyfloat) : bool :=
  match a, b with
  | Float x, Float y => Qle_bool x y
  | Float _, PosInf | NegInf, Float _ | NegInf, PosInf => true
  | PosInf, PosInf | NegInf, NegInf => true
  | _, _ => false
  end.

Definition feq (a b : pyfloat) : bool :=
  match a, b with
  | Float x, Float y => Qeq_bool x y
  | PosInf, PosInf | NegInf, NegInf => true
  | _, _ => false
  end.

(** [-a], [a + b], [a - b], [a * b]. *)
Definition fneg (a : pyfloat) : pyfloat :=
  match a with
  | Float x => Float (- x)
  | PosInf => NegInf
  | NegInf => PosInf
  | NaN => NaN
  end.

Definition fadd (a b : pyfloat) : pyfloat :=
  match a, b with
  | NaN, _ | _, NaN => NaN
  | Float x, Float y => Float (x + y)
  | PosInf, NegInf | NegInf, PosInf => NaN
  | PosInf, _ | _, PosInf => PosInf
  | NegInf, _ | _, NegInf => NegInf
  end.

Definition fsub (a b : pyfloat) : pyfloat := fadd a (fneg b).

(** The product of the finite float [x] and [inf]. *)
Definition times_inf (x : Q) : pyfloat :=
  if Qeq_bool x 0 then NaN else if Qlt_bool 0 x then PosInf else NegInf.

Definition fmul (a b : pyfloat) : pyfloat :=
  match a, b with
  | NaN, _ | _, NaN => NaN
  | Float x, Float y => Float (x * y)
  | Float x, PosInf | PosInf, Float x => times_inf x
  | Float x, NegInf | NegInf, Float x => fneg (times_inf x)
  | PosInf, PosInf | NegInf, NegInf => PosInf
  | PosInf, NegInf | NegInf, PosInf => NegInf
  end.

(** [a / k] for a finite [k] that is not zero (the source divides by the
    constants 75 and 100 only). *)
Definition fdiv (a : pyfloat) (k : Q) : pyfloat :=
  match a with
  | Float x => Float (x / k)
  | PosInf => if Qlt_bool 0 k then PosInf else NegInf
  | NegInf => if Qlt_bool 0 k then NegInf else PosInf
  | NaN => NaN
  end.

(** Python's [max(a, b)] and [min(a, b)]: the first argument unless the
    second is greater, resp. smaller; so [max(0, nan)] is [0] and
    [max(nan, 0)] is [nan]. *)
Definition fmax (a b : pyfloat) : pyfloat := if flt a b then b else a.

Definition fmin (a b : pyfloat) : pyfloat := if flt b a then b else a.

(** [round(a, 3)]: with a number of digits, [round] returns a float that is
    not finite as it is. *)
Definition fround3 (a : pyfloat) : pyfloat :=
  match a with
  | Float x => Float (round3 x)
  | _ => a
  end.

(** ** Values and exceptions *)

(** The values a field can hold: those of [pyval], with every float. *)
Inductive pyval_x : Type :=
| XInt (z : Z)
| XFloat (x : pyfloat)
| XStr (s : string)
| XNone
| XObject (type_name : string).

(** The three places where the methods can raise [OverflowError]. *)
Inductive overflow : Type :=
| IntTooLarge          (* float(n) on an int *)
| DivisionTooLarge     (* n / k on two ints *)
| InfinityToInt.       (* int(x) on an infinite float *)

Inductive exn_x : Type :=
| ValueError_x (c : conv) (v : pyval_x)
| TypeError_x (c : conv) (v : pyval_x)
| OverflowError (o : overflow).

(** The exceptions that [except (ValueError, TypeError)] catches. *)
Definition caught (e : exn_x) : bool :=
  match e with
  | ValueError_x _ _ | TypeError_x _ _ => true
  | OverflowError _ => false
  end.

(** [a / b] on two ints, [b] not zero: the quotient as a float, or
    [OverflowError] when it is too large for one. *)
Definition int_truediv (a b : Z) : exn_x + Q :=
  let q := inject_Z a / inject_Z b in
  if too_large q then inl (OverflowError DivisionTooLarge) else inr q.

(** ** Component risks *)

(** [calculate_attendance_risk] *)
Definition calculate_attendance_risk_x (attendance_percent : pyfloat) : pyfloat :=
  if fle (Float 75) attendance_percent then Float 0
  else fmax (Float 0) (fdiv (fsub (Float 75) attendance_percent) 75).

(** [calculate_score_trend_risk] *)
Definition calculate_score_trend_risk_x (previous_avg current_avg : pyfloat) : pyfloat :=
  if feq previous_avg (Float 0) || feq current_avg (Float 0) then Float 0
  else
    let score_drop := fsub previous_avg current_avg in
    if fle score_drop (Float 0) then Float 0
    else fmin (fmax (fdiv score_drop 100) (Float 0)) (Float 1).

(** [calculate_fee_risk]; its argument is an [int], the result of [int()],
    and its result is finite when it returns. *)
Definition calculate_fee_risk_x (fees_due_days : Z) : exn_x + Q :=
  match int_truediv fees_due_days 90 with
  | inl e => inl e
  | inr q => inr (py_min q 1)
  end.

(** [calculate_attempts_risk] *)
Definition calculate_attempts_risk_x (attempts : Z) : exn_x + Q :=
  if (attempts <=? 1)%Z then inr 0
  else
    match int_truediv (attempts - 1) 4 with
    | inl e => inl e
    | inr q => inr (py_min q 1)
    end.

(** ** Results *)

Module SummaryX.
Record t : Type := {
  risk_score : pyfloat;
  risk_level : level;
  risk_color : string;
  error : option string
}.
End SummaryX.

Inductive factor_value_x : Type :=
| PercentBelow75_x (attendance : pyfloat)
| DroppedByPoints_x (score_drop : pyfloat)
| DaysOverdue_x (fees_due : Z)
| AttemptsMade_x (attempts : Z).

Module RiskFactorX.
Record t : Type := {
  factor : string;
  value : factor_value_x;
  risk_contribution : pyfloat;
  severity : level
}.
End RiskFactorX.

Module ComponentsX.
Record t : Type := {
  attendance_risk : pyfloat;
  score_trend_risk : pyfloat;
  fee_risk : pyfloat;
  attempts_risk : pyfloat
}.
End ComponentsX.

Module WeightedComponentsX.
Record t : Type := {
  attendance_weighted : pyfloat;
  score_trend_weighted : pyfloat;
  fee_weighted : pyfloat;
  attempts_weighted : pyfloat
}.
End WeightedComponentsX.

Module DetailedX.
Record t : Type := {
  risk_score : pyfloat;
  risk_level : level;
  risk_color : string;
  risk_components : option ComponentsX.t;
  weighted_components : option WeightedComponentsX.t;
  risk_factors : list RiskFactorX.t;
  top_reasons : list RiskFactorX.t;
  recommendations : list string;
  error : option string
}.
End DetailedX.

(** ** State and exceptions *)

Definition Mx (A : Type) : Type := RiskCalculator -> (exn_x + A) * RiskCalculator.

#[export] Instance Mx_ret : MRet Mx := fun A a self => (inr a, self).

#[export] Instance Mx_bind : MBind Mx := fun A B k m self =>
  match m self with
  | (inl e, self') => (inl e, self')
  | (inr a, self') => k a self'
  end.

Definition lift_x {A : Type} (r : exn_x + A) : Mx A := fun self => (r, self).

Definition attr_x {A : Type} (f : RiskCalculator -> A) : Mx A :=
  fun self => (inr (f self), self).

(** [try: body except (ValueError, TypeError) as e: handler]; an
    [OverflowError] passes through. *)
Definition try_except_x {A : Type} (body : Mx A) (handler : exn_x -> Mx A) : Mx A :=
  fun self =>
    match body self with
    | (inl (ValueError_x c v), self') => handler (ValueError_x c v) self'
    | (inl (TypeError_x c v), self') => handler (TypeError_x c v) self'
    | (inl (OverflowError o), self') => (inl (OverflowError o), self')
    | (inr a, self') => (inr a, self')
    end.

(** [l.sort(key=key, reverse=True)] on float keys.  When no key is [nan]
    the keys are totally ordered and the stable sort is determined by
    them.  With a [nan] key the comparisons are not an order; what
    CPython's sort returns then depends on its merging strategy, which
    this function does not follow, and the statements about the order of
    a sorted list assume that no key is [nan]. *)
Fixpoint insert_desc_x {A : Type} (key : A -> pyfloat) (x : A) (l : list A) : list A :=
  match l with
  | [] => [x]
  | y :: ys =>
      if fle (key y) (key x) then x :: y :: ys
      else y :: insert_desc_x key x ys
  end.

Definition sort_desc_x {A : Type} (key : A -> pyfloat) (l : list A) : list A :=
  fold_right (insert_desc_x key) [] l.

(** [d.get(k, default)] *)
Definition dict_get_x (d : gmap string pyval_x) (k : string) (dflt : pyval_x) : pyval_x :=
  match d !! k with
  | Some v => v
  | None => dflt
  end.

(** ** The methods *)

(** [float(s)] and [int(s)] on a string, and [str(e)]; [float(s)] can give
    a float that is not finite ([float('nan')], [float('1e999')]). *)
Class BuiltinsX : Type := {
  float_of_str_x : string -> option pyfloat;
  int_of_str_x : string -> option Z;
  str_exn_x : exn_x -> string
}.

Section EngineX.

Context {builtins_x : BuiltinsX}.

(** [float(v)] *)
Definition py_float_x (v : pyval_x) : exn_x + pyfloat :=
  match v with
  | XInt z =>
      if too_large (inject_Z z) then inl (OverflowError IntTooLarge)
      else inr (Float (inject_Z z))
  | XFloat x => inr x
  | XStr s =>
      match float_of_str_x s with
      | Some x => inr x
      | None => inl (ValueError_x ToFloat v)
      end
  | XNone | XObject _ => inl (TypeError_x ToFloat v)
  end.

(** [int(v)] *)
Definition py_int_x (v : pyval_x) : exn_x + Z :=
  match v with
  | XInt z => inr z
  | XFloat (Float q) => inr (trunc q)
  | XFloat NaN => inl (ValueError_x ToInt v)
  | XFloat PosInf | XFloat NegInf => inl (OverflowError InfinityToInt)
  | XStr s =>
      match int_of_str_x s with
      | Some z => inr z
      | None => inl (ValueError_x ToInt v)
      end
  | XNone | XObject _ => inl (TypeError_x ToInt v)
  end.

Definition self_weight_x (key : Weights -> Q) : Mx pyfloat :=
  attr_x (fun self => Float (key (weights self))).

Definition self_threshold_x (key : Thresholds -> Q) : Mx pyfloat :=
  attr_x (fun self => Float (key (thresholds self))).

Definition self_color_x (key : level) : Mx string :=
  attr_x (fun self => colors_get (colors self) key).

(** The [if]/[elif]/[else] that determines the risk level. *)
Definition determine_risk_level_x (risk_score : pyfloat) : Mx level :=
  high ← self_threshold_x t_high;
  if fle high risk_score then mret High
  else
    medium ← self_threshold_x t_medium;
    if fle medium risk_score then mret Medium
    else mret Low.

(** The weighted sum. *)
Definition weighted_risk_score_x
    (attendance_risk score_risk fee_risk attempts_risk : pyfloat) : Mx pyfloat :=
  wa ← self_weight_x w_attendance;
  ws ← self_weight_x w_score_trend;
  wf ← self_weight_x w_fees;
  wt ← self_weight_x w_attempts;
  mret (fadd (fadd (fadd (fmul wa attendance_risk) (fmul ws score_risk))
                   (fmul wf fee_risk))
             (fmul wt attempts_risk)).

(** [calculate_risk] *)
Definition calculate_risk_x (student_data : gmap string pyval_x) : Mx SummaryX.t :=
  try_except_x
    (attendance ← lift_x (py_float_x (dict_get_x student_data "attendance_percent" (XInt 0)));
     fees_due ← lift_x (py_int_x (dict_get_x student_data "fees_due_days" (XInt 0)));
     attempts ← lift_x (py_int_x (dict_get_x student_data "attempts_in_subject_X" (XInt 1)));
     previous_avg ←
       lift_x (py_float_x (dict_get_x student_data "previous_3_tests_avg" (XInt 0)));
     current_avg ←
       lift_x (py_float_x (dict_get_x student_data "last_3_tests_avg" (XInt 0)));
     let attendance_risk := calculate_attendance_risk_x attendance in
     let score_risk := calculate_score_trend_risk_x previous_avg current_avg in
     fee_risk ← lift_x (calculate_fee_risk_x fees_due);
     attempts_risk ← lift_x (calculate_attempts_risk_x attempts);
     risk_score ←
       weighted_risk_score_x attendance_risk score_risk (Float fee_risk)
         (Float attempts_risk);
     risk_level ← determine_risk_level_x risk_score;
     color ← self_color_x risk_level;
     mret {| SummaryX.risk_score := risk_score;
             SummaryX.risk_level := risk_level;
             SummaryX.risk_color := color;
             SummaryX.error := None |})
    (fun e =>
       color ← self_color_x Low;
       mret {| SummaryX.risk_score := Float 0.0;
               SummaryX.risk_level := Low;
               SummaryX.risk_color := color;
               SummaryX.error := Some ("Data processing error: " ++ str_exn_x e) |}).

(** [generate_recommendations] *)
Definition generate_recommendations_x (student_data : gmap string pyval_x)
    (risk_factors : list RiskFactorX.t) : Mx (list string) :=
  let recommendations : list string := [] in
  let primary_risks :=
    List.map RiskFactorX.factor
      (List.filter (fun f => level_in (RiskFactorX.severity f) [High; Medium])
         risk_factors) in
  recommendations ←
    (if str_in "Attendance" primary_risks then
       attendance ←
         lift_x (py_float_x (dict_get_x student_data "attendance_percent" (XInt 0)));
       if flt attendance (Float 50) then
         mret (recommendations ++
           ["URGENT: Schedule immediate parent-teacher meeting and attendance counseling"])%list
       else if flt attendance (Float 65) then
         mret (recommendations ++
           ["Schedule one-on-one attendance counseling session"])%list
       else
         mret (recommendations ++
           ["Monitor attendance closely and provide gentle reminders"])%list
     else mret recommendations);
  recommendations ←
    (if str_in "Test Score Trend" primary_risks then
       previous_avg ←
         lift_x (py_float_x (dict_get_x student_data "previous_3_tests_avg" (XInt 0)));
       current_avg ←
         lift_x (py_float_x (dict_get_x student_data "last_3_tests_avg" (XInt 0)));
       let score_drop := fsub previous_avg current_avg in
       if flt (Float 15) score_drop then
         mret (recommendations ++
           ["Arrange remedial classes and peer tutoring support"])%list
       else if flt (Float 8) score_drop then
         mret (recommendations ++
           ["Provide additional study materials and practice sessions"])%list
       else
         mret (recommendations ++
           ["Regular check-ins on study habits and academic support"])%list
     else mret recommendations);
  recommendations ←
    (if str_in "Fee Payment" primary_risks then
       fees_due ← lift_x (py_int_x (dict_get_x student_data "fees_due_days" (XInt 0)));
       if (90 <? fees_due)%Z then
         mret (recommendations ++
           ["Connect with financial aid office for payment plan options"])%list
       else
         mret (recommendations ++
           ["Send fee payment reminder and discuss any financial difficulties"])%list
     else mret recommendations);
  recommendations ←
    (if str_in "Subject Attempts" primary_risks then
       attempts ←
         lift_x (py_int_x (dict_get_x student_data "attempts_in_subject_X" (XInt 1)));
       if (4 <=? attempts)%Z then
         mret (recommendations ++
           ["Consider alternative learning methods or course modification"])%list
       else
         mret (recommendations ++
           ["Provide focused support for challenging subject areas"])%list
     else mret recommendations);
  let overall_risk :=
    length (List.filter (fun f => level_eqb (RiskFactorX.severity f) High) risk_factors) in
  let recommendations :=
    if (2 <=? overall_risk)%nat then
      (recommendations ++
         ["Schedule weekly mentor meetings and create comprehensive support plan"])%list
    else if (1 <=? overall_risk)%nat then
      (recommendations ++
         ["Bi-weekly check-ins and targeted intervention strategy"])%list
    else recommendations in
  mret (firstn 3 recommendations).

(** [calculate_detailed_risk] *)
Definition calculate_detailed_risk_x (student_data : gmap string pyval_x)
    : Mx DetailedX.t :=
  try_except_x
    (attendance ← lift_x (py_float_x (dict_get_x student_data "attendance_percent" (XInt 0)));
     fees_due ← lift_x (py_int_x (dict_get_x student_data "fees_due_days" (XInt 0)));
     attempts ← lift_x (py_int_x (dict_get_x student_data "attempts_in_subject_X" (XInt 1)));
     previous_avg ←
       lift_x (py_float_x (dict_get_x student_data "previous_3_tests_avg" (XInt 0)));
     current_avg ←
       lift_x (py_float_x (dict_get_x student_data "last_3_tests_avg" (XInt 0)));
     let attendance_risk := calculate_attendance_risk_x attendance in
     let score_risk := calculate_score_trend_risk_x previous_avg current_avg in
     fee_risk ← lift_x (calculate_fee_risk_x fees_due);
     attempts_risk ← lift_x (calculate_attempts_risk_x attempts);
     let fee_risk := Float fee_risk in
     let attempts_risk := Float attempts_risk in
     risk_score ← weighted_risk_score_x attendance_risk score_risk fee_risk attempts_risk;
     risk_level ← determine_risk_level_x risk_score;
     let risk_factors : list RiskFactorX.t := [] in
     risk_factors ←
       (if flt (Float 0) attendance_risk then
          wa ← self_weight_x w_attendance;
          mret (risk_factors ++
            [{| RiskFactorX.factor := "Attendance";
                RiskFactorX.value := PercentBelow75_x attendance;
                RiskFactorX.risk_contribution := fmul attendance_risk wa;
                RiskFactorX.severity :=
                  if flt attendance (Float 50) then High
                  else if flt attendance (Float 65) then Medium
                  else Low |}])%list
        else mret risk_factors);
     risk_factors ←
       (if flt (Float 0) score_risk then
          let score_drop := fsub previous_avg current_avg in
          ws ← self_weight_x w_score_trend;
          mret (risk_factors ++
            [{| RiskFactorX.factor := "Test Score Trend";
                RiskFactorX.value := DroppedByPoints_x score_drop;
                RiskFactorX.risk_contribution := fmul score_risk ws;
                RiskFactorX.severity :=
                  if flt (Float 15) score_drop then High
                  else if flt (Float 8) score_drop then Medium
                  else Low |}])%list
        else mret risk_factors);
     risk_factors ←
       (if flt (Float 0) fee_risk then
          wf ← self_weight_x w_fees;
          mret (risk_factors ++
            [{| RiskFactorX.factor := "Fee Payment";
                RiskFactorX.value := DaysOverdue_x fees_due;
                RiskFactorX.risk_contribution := fmul fee_risk wf;
                RiskFactorX.severity :=
                  if (90 <? fees_due)%Z then High
                  else if (30 <? fees_due)%Z then Medium
                  else Low |}])%list
        else mret risk_factors);
     risk_factors ←
       (if flt (Float 0) attempts_risk then
          wt ← self_weight_x w_attempts;
          mret (risk_factors ++
            [{| RiskFactorX.factor := "Subject Attempts";
                RiskFactorX.value := AttemptsMade_x attempts;
                RiskFactorX.risk_contribution := fmul attempts_risk wt;
                RiskFactorX.severity :=
                  if (4 <=? attempts)%Z then High
                  else if (3 <=? attempts)%Z then Medium
                  else Low |}])%list
        else mret risk_factors);
     let risk_factors := sort_desc_x RiskFactorX.risk_contribution risk_factors in
     let top_reasons :=
       if (2 <=? length risk_factors)%nat then firstn 2 risk_factors
       else risk_factors in
     recommendations ← generate_recommendations_x student_data risk_factors;
     color ← self_color_x risk_level;
     wa ← self_weight_x w_attendance;
     ws ← self_weight_x w_score_trend;
     wf ← self_weight_x w_fees;
     wt ← self_weight_x w_attempts;
     mret {| DetailedX.risk_score := fround3 risk_score;
             DetailedX.risk_level := risk_level;
             DetailedX.risk_color := color;
             DetailedX.risk_components := Some
               {| ComponentsX.attendance_risk := fround3 attendance_risk;
                  ComponentsX.score_trend_risk := fround3 score_risk;
                  ComponentsX.fee_risk := fround3 fee_risk;
                  ComponentsX.attempts_risk := fround3 attempts_risk |};
             DetailedX.weighted_components := Some
               {| WeightedComponentsX.attendance_weighted :=
                    fround3 (fmul attendance_risk wa);
                  WeightedComponentsX.score_trend_weighted :=
                    fround3 (fmul score_risk ws);
                  WeightedComponentsX.fee_weighted := fround3 (fmul fee_risk wf);
                  WeightedComponentsX.attempts_weighted :=
                    fround3 (fmul attempts_risk wt) |};
             DetailedX.risk_factors := risk_factors;
             DetailedX.top_reasons := top_reasons;
             DetailedX.recommendations := recommendations;
             DetailedX.error := None |})
    (fun e =>
       color ← self_color_x Low;
       mret {| DetailedX.risk_score := Float 0.0;
               DetailedX.risk_level := Low;
               DetailedX.risk_color := color;
               DetailedX.risk_components := None;
               DetailedX.weighted_components := None;
               DetailedX.risk_factors := [];
               DetailedX.top_reasons := [];
               DetailedX.recommendations := [];
               DetailedX.error := Some ("Detailed analysis error: " ++ str_exn_x e) |}).

(** ** What a call computes *)

Record FieldsX : Type := {
  x_attendance : pyfloat;
  x_fees_due : Z;
  x_attempts : Z;
  x_previous_avg : pyfloat;
  x_current_avg : pyfloat
}.

(** The five conversions, in the order of the source. *)
Definition convert_x (student_data : gmap string pyval_x) : exn_x + FieldsX :=
  match py_float_x (dict_get_x student_data "attendance_percent" (XInt 0)) with
  | inl e => inl e
  | inr a =>
  match py_int_x (dict_get_x student_data "fees_due_days" (XInt 0)) with
  | inl e => inl e
  | inr d =>
  match py_int_x (dict_get_x student_data "attempts_in_subject_X" (XInt 1)) with
  | inl e => inl e
  | inr n =>
  match py_float_x (dict_get_x student_data "previous_3_tests_avg" (XInt 0)) with
  | inl e => inl e
  | inr p =>
  match py_float_x (dict_get_x student_data "last_3_tests_avg" (XInt 0)) with
  | inl e => inl e
  | inr c =>
      inr {| x_attendance := a; x_fees_due := d; x_attempts := n;
             x_previous_avg := p; x_current_avg := c |}
  end end end end end.

(** The weighted sum of the four component risks. *)
Definition risk_score_x (self : RiskCalculator) (f : FieldsX) (fee_risk attempts_risk : Q)
    : pyfloat :=
  fadd (fadd (fadd (fmul (Float (w_attendance (weights self)))
                         (calculate_attendance_risk_x (x_attendance f)))
                   (fmul (Float (w_score_trend (weights self)))
                         (calculate_score_trend_risk_x (x_previous_avg f)
                            (x_current_avg f))))
             (fmul (Float (w_fees (weights self))) (Float fee_risk)))
       (fmul (Float (w_attempts (weights self))) (Float attempts_risk)).

Definition level_of_x (self : RiskCalculator) (risk_score : pyfloat) : level :=
  if fle (Float (t_high (thresholds self))) risk_score then High
  else if fle (Float (t_medium (thresholds self))) risk_score then Medium
  else Low.

Definition summary_ok_x (self : RiskCalculator) (f : FieldsX)
    (fee_risk attempts_risk : Q) : SummaryX.t :=
  let risk_score := risk_score_x self f fee_risk attempts_risk in
  {| SummaryX.risk_score := risk_score;
     SummaryX.risk_level := level_of_x self risk_score;
     SummaryX.risk_color := colors_get (colors self) (level_of_x self risk_score);
     SummaryX.error := None |}.

Definition summary_failed_x (self : RiskCalculator) (e : exn_x) : SummaryX.t :=
  {| SummaryX.risk_score := Float 0.0;
     SummaryX.risk_level := Low;
     SummaryX.risk_color := colors_get (colors self) Low;
     SummaryX.error := Some ("Data processing error: " ++ str_exn_x e) |}.

Definition detailed_failed_x (self : RiskCalculator) (e : exn_x) : DetailedX.t :=
  {| DetailedX.risk_score := Float 0.0;
     DetailedX.risk_level := Low;
     DetailedX.risk_color := colors_get (colors self) Low;
     DetailedX.risk_components := None;
     DetailedX.weighted_components := None;
     DetailedX.risk_factors := [];
     DetailedX.top_reasons := [];
     DetailedX.recommendations := [];
     DetailedX.error := Some ("Detailed analysis error: " ++ str_exn_x e) |}.

(** The outcome of [try: body except (ValueError, TypeError) as e: failed],
    from the outcome of the body. *)
Definition handled {A : Type} (failed : exn_x -> A) (body : exn_x + A) : exn_x + A :=
  match body with
  | inl e => if caught e then inr (failed e) else inl e
  | inr a => inr a
  end.

(** What [calculate_risk] returns or raises. *)
Definition summary_of_x (self : RiskCalculator) (student_data : gmap string pyval_x)
    : exn_x + SummaryX.t :=
  handled (summary_failed_x self)
    match convert_x student_data with
    | inl e => inl e
    | inr f =>
        match calculate_fee_risk_x (x_fees_due f) with
        | inl e => inl e
        | inr fee_risk =>
            match calculate_attempts_risk_x (x_attempts f) with
            | inl e => inl e
            | inr attempts_risk => inr (summary_ok_x self f fee_risk attempts_risk)
            end
        end
    end.

End EngineX.

(** ** An instance of the built-ins *)

Definition type_name_x (v : pyval_x) : string :=
  match v with
  | XInt _ => "int"
  | XFloat _ => "float"
  | XStr _ => "str"
  | XNone => "NoneType"
  | XObject tp => tp
  end.

(** [float(s)] on the plain decimal literals of [dec_float_of_str], where a
    literal too large for a float is read as an infinity, and on the
    literals of the floats that are not finite, in either case. *)
Definition dec_float_of_str_x (s : string) : option pyfloat :=
  match dec_float_of_str s with
  | Some q =>
      Some (if too_large q then (if Qlt_bool q 0 then NegInf else PosInf) else Float q)
  | None =>
      let t := map_string ascii_lower s in
      if str_in t ["inf"; "+inf"; "infinity"; "+infinity"] then Some PosInf
      else if str_in t ["-inf"; "-infinity"] then Some NegInf
      else if str_in t ["nan"; "+nan"; "-nan"] then Some NaN
      else None
  end.

(** The messages CPython gives these exceptions. *)
Definition py_str_exn_x (e : exn_x) : string :=
  match e with
  | ValueError_x ToFloat (XStr s) => "could not convert string to float: '" ++ s ++ "'"
  | ValueError_x ToInt (XStr s) => "invalid literal for int() with base 10: '" ++ s ++ "'"
  | ValueError_x ToInt (XFloat _) => "cannot convert float NaN to integer"
  | ValueError_x _ v => "invalid value of type " ++ type_name_x v
  | TypeError_x ToFloat v =>
      "float() argument must be a string or a real number, not '" ++ type_name_x v ++ "'"
  | TypeError_x ToInt v =>
      "int() argument must be a string, a bytes-like object or a real number, not '"
        ++ type_name_x v ++ "'"
  | OverflowError IntTooLarge => "int too large to convert to float"
  | OverflowError DivisionTooLarge => "integer division result too large for a float"
  | OverflowError InfinityToInt => "cannot convert float infinity to integer"
  end.

Definition decimal_builtins_x : BuiltinsX := {|
  float_of_str_x := dec_float_of_str_x;
  int_of_str_x := dec_int_of_str;
  str_exn_x := py_str_exn_x
|}.

(** The two public methods with these built-ins. *)
Definition score_x : gmap string pyval_x -> Mx SummaryX.t :=
  @calculate_risk_x decimal_builtins_x.
Definition explain_x : gmap string pyval_x -> Mx DetailedX.t :=
  @calculate_detailed_risk_x decimal_builtins_x.

(** ** Vocabulary of the properties on every float *)

(** The least fee delay whose division by 90 overflows, and the least
    number of attempts for which the division of [attempts - 1] by 4
    overflows. *)
Definition fee_overflow_from : Z := 90 * float_limit.

Definition attempts_overflow_from : Z := 4 * float_limit + 1.

(** A finite float in the closed unit interval. *)
Definition in_unit_x (x : pyfloat) : Prop := exists q, x = Float q /\ in_unit q.

(** A valid record as the specification describes it, after conversion:
    attendance is a percentage, the fee delay is not negative, there is at
    least one attempt. *)
Definition valid_record_x (f : FieldsX) : Prop :=
  (exists a, x_attendance f = Float a /\ 0 <= a <= 100) /\
  (0 <= x_fees_due f)%Z /\ (1 <= x_attempts f)%Z.

(** The test averages are finite. *)
Definition finite_averages (f : FieldsX) : Prop :=
  exists p c, x_previous_avg f = Float p /\ x_current_avg f = Float c.

(** The fee delay and the number of attempts are below the values from
    which the divisions overflow. *)
Definition in_division_range (f : FieldsX) : Prop :=
  (x_fees_due f < fee_overflow_from)%Z /\ (x_attempts f < attempts_overflow_from)%Z.

(** The end-to-end record of the specification, a valid record with a fee
    delay of [10^400] days, and a valid record whose previous test average
    is [nan]. *)
Definition example_record_x : gmap string pyval_x :=
  <["attendance_percent" := XInt 40]>
  (<["fees_due_days" := XInt 100]>
  (<["attempts_in_subject_X" := XInt 5]>
  (<["previous_3_tests_avg" := XInt 80]>
  (<["last_3_tests_avg" := XInt 55]> ∅)))).

Definition example_fields_x : FieldsX :=
  {| x_attendance := Float (inject_Z 40); x_fees_due := 100; x_attempts := 5;
     x_previous_avg := Float (inject_Z 80); x_current_avg := Float (inject_Z 55) |}.

Definition record_huge_fees : gmap string pyval_x :=
  <["attendance_percent" := XInt 80]>
  (<["fees_due_days" := XInt (10 ^ 400)]> ∅).

Definition fields_huge_fees : FieldsX :=
  {| x_attendance := Float (inject_Z 80); x_fees_due := 10 ^ 400; x_attempts := 1;
     x_previous_avg := Float (inject_Z 0); x_current_avg := Float (inject_Z 0) |}.

Definition record_nan_average : gmap string pyval_x :=
  <["attendance_percent" := XInt 80]>
  (<["previous_3_tests_avg" := XFloat NaN]>
  (<["last_3_tests_avg" := XFloat (Float 60)]> ∅)).

(** The value the conversion of field [k] is applied to, with the default
    of the source for an absent field. *)
Definition field_x (d : gmap string pyval_x) (k : string) : pyval_x :=
  dict_get_x d k (if String.eqb k "attempts_in_subject_X" then XInt 1 else XInt 0).

(** The keys that are converted before key [k]. *)
Fixpoint keys_until (k : string) (keys : list string) : list string :=
  match keys with
  | [] => []
  | x :: rest => if String.eqb x k then [] else x :: keys_until k rest
  end.

Definition converted_before (k : string) : list string := keys_until k record_keys.

(** A value on which the conversion of field [k] raises [ValueError] or
    [TypeError]: [None], an object of another type, a string the
    conversion does not parse, and for [int()] the float [nan]. *)
Definition rejected_x {builtins_x : BuiltinsX} (k : string) (v : pyval_x) : Prop :=
  match v with
  | XNone | XObject _ => True
  | XStr s => if int_key k then int_of_str_x s = None else float_of_str_x s = None
  | XFloat NaN => int_key k = true
  | XInt _ | XFloat _ => False
  end.

(** A value on which the conversion of field [k] raises [OverflowError]:
    for [float()] an [int] too large for a float, for [int()] an infinite
    float. *)
Definition overflowing (k : string) (v : pyval_x) : Prop :=
  match v with
  | XInt z => int_key k = false /\ too_large (inject_Z z) = true
  | XFloat PosInf | XFloat NegInf => int_key k = true
  | _ => False
  end.

(** A record with ten per cent attendance whose fee delay is missing, and
    one whose attendance, read before the missing fee delay, is an [int]
    too large for a float. *)
Definition record_none_fees_x : gmap string pyval_x :=
  <["attendance_percent" := XInt 10]>
  (<["fees_due_days" := XNone]> ∅).

Definition record_huge_attendance : gmap string pyval_x :=
  <["attendance_percent" := XInt (10 ^ 400)]>
  (<["fees_due_days" := XNone]> ∅).

(** * The handlers on every float

    [get_students], [get_summary] and [upload_csv] as above, on data whose
    cells can hold every float, with the calculator of this part: an
    [OverflowError] of the calculator reaches the [except Exception]
    clause of the handler. *)

Inductive app_exn_x : Type :=
| KeyError_x (key : string)
| ZeroDivisionError_x
| Raised_x (e : exn_x).

Record DataFrameX : Type := {
  columns_x : list string;
  rows_x : list (gmap string pyval_x)
}.

Record AppX : Type := {
  session_x : gmap string string;
  students_data_x : option DataFrameX;
  notes_file_x : option (gmap string (list Note));
  risk_calc_x : RiskCalculator
}.

Definition Hx (A : Type) : Type := RiskCalculator -> (app_exn_x + A) * RiskCalculator.

#[export] Instance Hx_ret : MRet Hx := fun A a calc => (inr a, calc).

#[export] Instance Hx_bind : MBind Hx := fun A B k m calc =>
  match m calc with
  | (inl e, calc') => (inl e, calc')
  | (inr a, calc') => k a calc'
  end.

Definition raise_x {A : Type} (e : app_exn_x) : Hx A := fun calc => (inl e, calc).

(** A call of a method of [risk_calc]. *)
Definition call_x {A : Type} (m : Mx A) : Hx A :=
  fun calc =>
    match m calc with
    | (inl e, calc') => (inl (Raised_x e), calc')
    | (inr a, calc') => (inr a, calc')
    end.

(** [row[key]] *)
Definition getitem_x (row : gmap string pyval_x) (key : string) : Hx pyval_x :=
  match row !! key with
  | Some v => mret v
  | None => raise_x (KeyError_x key)
  end.

Fixpoint for_each_x {A B : Type} (body : A -> Hx B) (l : list A) : Hx (list B) :=
  match l with
  | [] => mret []
  | x :: rest =>
      y ← body x;
      ys ← for_each_x body rest;
      mret (y :: ys)
  end.

Fixpoint for_loop_x {A S : Type} (body : S -> A -> Hx S) (l : list A) (acc : S) : Hx S :=
  match l with
  | [] => mret acc
  | x :: rest =>
      acc ← body acc x;
      for_loop_x body rest acc
  end.

(** [a / b] on two ints. *)
Definition py_truediv_x (a b : Z) : Hx Q :=
  if (b =? 0)%Z then raise_x ZeroDivisionError_x
  else
    match int_truediv a b with
    | inl e => raise_x (Raised_x e)
    | inr q => mret q
    end.

Module StudentInfoX.
Record t : Type := {
  student_id : pyval_x;
  first_name : pyval_x;
  last_name : pyval_x;
  class_ : pyval_x;
  roll_no : pyval_x;
  attendance_percent : pyval_x;
  fees_due_days : pyval_x;
  last_3_tests_avg : pyval_x;
  risk_score : pyfloat;
  risk_level : level;
  risk_color : string
}.
End StudentInfoX.

Module StudentListX.
Record t : Type := {
  students : list StudentInfoX.t;
  total_count : nat
}.
End StudentListX.

Module AttendanceStatX.
Record t : Type := {
  student_id : pyval_x;
  attendance : pyval_x
}.
End AttendanceStatX.

Module ScoreTrendX.
Record t : Type := {
  student_id : pyval_x;
  previous_avg : pyval_x;
  current_avg : pyval_x
}.
End ScoreTrendX.

Module SummaryStatsX.
Record t : Type := {
  total_students : nat;
  risk_distribution : RiskCounts;
  attendance_stats : list AttendanceStatX.t;
  score_trends : list ScoreTrendX.t;
  high_risk_percentage : Q
}.
End SummaryStatsX.

Record UploadX : Type := {
  filename_x : string;
  content_x : string + DataFrameX
}.

(** [str(e)] for the exceptions of a handler body. *)
Definition str_app_exn_x {builtins_x : BuiltinsX} (e : app_exn_x) : string :=
  match e with
  | KeyError_x key => "'" ++ key ++ "'"
  | ZeroDivisionError_x => "division by zero"
  | Raised_x e => str_exn_x e
  end.

Definition set_risk_calc_x (app : AppX) (calc : RiskCalculator) : AppX :=
  {| session_x := session_x app; students_data_x := students_data_x app;
     notes_file_x := notes_file_x app; risk_calc_x := calc |}.

Definition set_students_data_x (app : AppX) (df : DataFrameX) : AppX :=
  {| session_x := session_x app; students_data_x := Some df;
     notes_file_x := notes_file_x app; risk_calc_x := risk_calc_x app |}.

Section HandlersX.

Context {builtins_x : BuiltinsX} {str_builtins : StrBuiltins}.

(** The body of the loop of [get_students]. *)
Definition student_info_of_x (row : gmap string pyval_x) : Hx StudentInfoX.t :=
  risk_result ← call_x (calculate_risk_x row);
  student_id ← getitem_x row "student_id";
  first_name ← getitem_x row "first_name";
  last_name ← getitem_x row "last_name";
  let class_ := dict_get_x row "class" (XStr "N/A") in
  let roll_no := dict_get_x row "roll_no" (XStr "N/A") in
  attendance_percent ← getitem_x row "attendance_percent";
  fees_due_days ← getitem_x row "fees_due_days";
  last_3_tests_avg ← getitem_x row "last_3_tests_avg";
  mret {| StudentInfoX.student_id := student_id;
          StudentInfoX.first_name := first_name;
          StudentInfoX.last_name := last_name;
          StudentInfoX.class_ := class_;
          StudentInfoX.roll_no := roll_no;
          StudentInfoX.attendance_percent := attendance_percent;
          StudentInfoX.fees_due_days := fees_due_days;
          StudentInfoX.last_3_tests_avg := last_3_tests_avg;
          StudentInfoX.risk_score := fround3 (SummaryX.risk_score risk_result);
          StudentInfoX.risk_level := SummaryX.risk_level risk_result;
          StudentInfoX.risk_color := SummaryX.risk_color risk_result |}.

(** The [try] block of [get_students]. *)
Definition get_students_body_x (df : DataFrameX) : Hx StudentListX.t :=
  students_with_risk ← for_each_x student_info_of_x (rows_x df);
  let students_with_risk := sort_desc_x StudentInfoX.risk_score students_with_risk in
  mret {| StudentListX.students := students_with_risk;
          StudentListX.total_count := length students_with_risk |}.

(** [get_students] *)
Definition get_students_x (app : AppX) : response StudentListX.t * AppX :=
  match session_x app !! "user_id" with
  | None => (Failed 401 "Unauthorized", app)
  | Some _ =>
      match students_data_x app with
      | None => (Failed 400 "No student data loaded", app)
      | Some df =>
          match get_students_body_x df (risk_calc_x app) with
          | (inr body, calc) => (Ok body, set_risk_calc_x app calc)
          | (inl e, calc) =>
              (Failed 500 ("Error calculating risks: " ++ str_app_exn_x e),
               set_risk_calc_x app calc)
          end
      end
  end.

(** The body of the loop of [get_summary]. *)
Definition summary_step_x
    (acc : RiskCounts * list AttendanceStatX.t * list ScoreTrendX.t)
    (row : gmap string pyval_x)
    : Hx (RiskCounts * list AttendanceStatX.t * list ScoreTrendX.t) :=
  let '(risk_counts, attendance_stats, score_trends) := acc in
  risk_result ← call_x (calculate_risk_x row);
  let risk_counts := counts_incr risk_counts (SummaryX.risk_level risk_result) in
  student_id ← getitem_x row "student_id";
  attendance ← getitem_x row "attendance_percent";
  let attendance_stats :=
    (attendance_stats ++
      [{| AttendanceStatX.student_id := student_id;
          AttendanceStatX.attendance := attendance |}])%list in
  student_id ← getitem_x row "student_id";
  previous_avg ← getitem_x row "previous_3_tests_avg";
  current_avg ← getitem_x row "last_3_tests_avg";
  let score_trends :=
    (score_trends ++
      [{| ScoreTrendX.student_id := student_id;
          ScoreTrendX.previous_avg := previous_avg;
          ScoreTrendX.current_avg := current_avg |}])%list in
  mret (risk_counts, attendance_stats, score_trends).

(** The [try] block of [get_summary]. *)
Definition get_summary_body_x (df : DataFrameX) : Hx SummaryStatsX.t :=
  let risk_counts := {| count_Low := 0; count_Medium := 0; count_High := 0 |} in
  '(risk_counts, attendance_stats, score_trends) ←
    for_loop_x summary_step_x (rows_x df) (risk_counts, [], []);
  ratio ← py_truediv_x (Z.of_nat (counts_get risk_counts High))
                       (Z.of_nat (length (rows_x df)));
  mret {| SummaryStatsX.total_students := length (rows_x df);
          SummaryStatsX.risk_distribution := risk_counts;
          SummaryStatsX.attendance_stats := attendance_stats;
          SummaryStatsX.score_trends := score_trends;
          SummaryStatsX.high_risk_percentage := round1 (ratio * 100) |}.

(** [get_summary] *)
Definition get_summary_x (app : AppX) : response SummaryStatsX.t * AppX :=
  match session_x app !! "user_id" with
  | None => (Failed 401 "Unauthorized", app)
  | Some _ =>
      match students_data_x app with
      | None => (Failed 400 "No student data loaded", app)
      | Some df =>
          match get_summary_body_x df (risk_calc_x app) with
          | (inr body, calc) => (Ok body, set_risk_calc_x app calc)
          | (inl e, calc) =>
              (Failed 500 ("Error generating summary: " ++ str_app_exn_x e),
               set_risk_calc_x app calc)
          end
      end
  end.

(** [upload_csv] *)
Definition upload_csv_x (app : AppX) (file : option UploadX) : response Uploaded * AppX :=
  match session_x app !! "user_id" with
  | None => (Failed 401 "Unauthorized", app)
  | Some _ =>
      match file with
      | None => (Failed 400 "No file provided", app)
      | Some file =>
          if String.eqb (filename_x file) EmptyString then
            (Failed 400 "No file selected", app)
          else if endswith (lower (filename_x file)) ".csv" then
            match content_x file with
            | inl msg => (Failed 400 ("Error processing CSV: " ++ msg), app)
            | inr df =>
                let app := set_students_data_x app df in
                let missing_cols :=
                  List.filter (fun col => negb (str_in col (columns_x df)))
                    required_cols in
                match missing_cols with
                | _ :: _ =>
                    (Failed 400 ("Missing columns: " ++ join ", " missing_cols), app)
                | [] =>
                    (Ok {| up_message := "CSV uploaded successfully";
                           up_student_count := length (rows_x df);
                           up_columns := columns_x df |}, app)
                end
            end
          else
            (Failed 400 "Invalid file format. Please upload a CSV file.", app)
      end
  end.

End HandlersX.

(** ** Vocabulary of the properties of these handlers *)

Definition row_has_x (row : gmap string pyval_x) (key : string) : bool :=
  match row !! key with
  | Some _ => true
  | None => false
  end.

Definition has_keys_x (keys : list string) (row : gmap string pyval_x) : bool :=
  forallb (row_has_x row) keys.

(** A data frame as pandas makes it: every row has a value for every
    column. *)
Definition frame_ok_x (df : DataFrameX) : Prop :=
  forall row key,
    In row (rows_x df) -> (row_has_x row key = true <-> In key (columns_x df)).

(** [calculate_risk] raises on the row. *)
Definition raises_on {builtins_x : BuiltinsX} (calc : RiskCalculator)
    (row : gmap string pyval_x) : bool :=
  match fst (calculate_risk_x row calc) with
  | inl _ => true
  | inr _ => false
  end.

(** A row that [get_students], resp. [get_summary], gets through: the
    calculator returns on it and it has the columns the handler reads. *)
Definition listable {builtins_x : BuiltinsX} (calc : RiskCalculator)
    (row : gmap string pyval_x) : bool :=
  negb (raises_on calc row) && has_keys_x list_keys row.

Definition summable {builtins_x : BuiltinsX} (calc : RiskCalculator)
    (row : gmap string pyval_x) : bool :=
  negb (raises_on calc row) && has_keys_x summary_keys row.

(** The entry of the student list that belongs to a row, given what
    [calculate_risk] returns for the row. *)
Definition listed_for_x {builtins_x : BuiltinsX} (calc : RiskCalculator)
    (row : gmap string pyval_x) (e : StudentInfoX.t) : Prop :=
  exists r,
    calculate_risk_x row calc = (inr r, calc) /\
    row !! "student_id" = Some (StudentInfoX.student_id e) /\
    row !! "first_name" = Some (StudentInfoX.first_name e) /\
    row !! "last_name" = Some (StudentInfoX.last_name e) /\
    StudentInfoX.class_ e = dict_get_x row "class" (XStr "N/A") /\
    StudentInfoX.roll_no e = dict_get_x row "roll_no" (XStr "N/A") /\
    row !! "attendance_percent" = Some (StudentInfoX.attendance_percent e) /\
    row !! "fees_due_days" = Some (StudentInfoX.fees_due_days e) /\
    row !! "last_3_tests_avg" = Some (StudentInfoX.last_3_tests_avg e) /\
    StudentInfoX.risk_score e = fround3 (SummaryX.risk_score r) /\
    StudentInfoX.risk_level e = SummaryX.risk_level r /\
    StudentInfoX.risk_color e = SummaryX.risk_color r.

(** The rows that [calculate_risk] rates at a level. *)
Definition row_at_x {builtins_x : BuiltinsX} (calc : RiskCalculator) (l : level)
    (row : gmap string pyval_x) : bool :=
  match fst (calculate_risk_x row calc) with
  | inr r => level_eqb (SummaryX.risk_level r) l
  | inl _ => false
  end.

(** An entry whose score is a number, and the entries with a given
    score. *)
Definition score_is_number (e : StudentInfoX.t) : Prop :=
  StudentInfoX.risk_score e <> NaN.

Definition scored_x (x : pyfloat) (e : StudentInfoX.t) : bool :=
  feq (StudentInfoX.risk_score e) x.

(** [b <= a] on floats, as a proposition. *)
Definition fge (a b : pyfloat) : Prop := fle b a = true.

Definition attendance_stat_for_x (row : gmap string pyval_x) (x : AttendanceStatX.t)
    : Prop :=
  row !! "student_id" = Some (AttendanceStatX.student_id x) /\
  row !! "attendance_percent" = Some (AttendanceStatX.attendance x).

Definition score_trend_for_x (row : gmap string pyval_x) (x : ScoreTrendX.t) : Prop :=
  row !! "student_id" = Some (ScoreTrendX.student_id x) /\
  row !! "previous_3_tests_avg" = Some (ScoreTrendX.previous_avg x) /\
  row !! "last_3_tests_avg" = Some (ScoreTrendX.current_avg x).

(** A row with the eight required columns. *)
Definition student_row_x (id first last : string) (attendance : pyval_x)
    (fees attempts : pyval_x) (last_avg previous_avg : pyval_x) : gmap string pyval_x :=
  <["student_id" := XStr id]>
  (<["first_name" := XStr first]>
  (<["last_name" := XStr last]>
  (<["attendance_percent" := attendance]>
  (<["fees_due_days" := fees]>
  (<["attempts_in_subject_X" := attempts]>
  (<["last_3_tests_avg" := last_avg]>
  (<["previous_3_tests_avg" := previous_avg]> ∅))))))).

(** Four students: one at no risk, one rated High, one whose attendance
    cannot be read, and one whose cell for the fee delay is blank, which
    pandas reads as [nan]. *)
Definition sample_frame_x : DataFrameX :=
  {| columns_x := required_cols;
     rows_x :=
       [ student_row_x "S001" "Asha" "Rao" (XFloat (Float 92)) (XInt 0) (XInt 1)
           (XFloat (Float 78)) (XFloat (Float 80));
         student_row_x "S002" "Ravi" "Kumar" (XFloat (Float 10)) (XInt 120) (XInt 5)
           (XFloat (Float 40)) (XFloat (Float 85));
         student_row_x "S003" "Meera" "Shah" (XStr "N/A") (XInt 0) (XInt 1)
           (XFloat (Float 0)) (XFloat (Float 0));
         student_row_x "S004" "Tara" "Iyer" (XFloat (Float 60)) (XFloat NaN) (XInt 2)
           (XFloat (Float 70)) (XFloat (Float 75)) ] |}.

(** The same students, the first with an infinite fee delay. *)
Definition frame_with_infinity : DataFrameX :=
  {| columns_x := required_cols;
     rows_x :=
       student_row_x "S001" "Asha" "Rao" (XFloat (Float 92)) (XFloat PosInf) (XInt 1)
         (XFloat (Float 78)) (XFloat (Float 80))
       :: List.tl (rows_x sample_frame_x) |}.

Definition sample_app_x : AppX :=
  {| session_x := {[ "user_id" := "mentor" ]};
     students_data_x := Some sample_frame_x;
     notes_file_x := None;
     risk_calc_x := init |}.

Definition fresh_app_x : AppX :=
  {| session_x := {[ "user_id" := "mentor" ]};
     students_data_x := None;
     notes_file_x := None;
     risk_calc_x := init |}.

Definition upload_sample_x : UploadX :=
  {| filename_x := "students.csv"; content_x := inr sample_frame_x |}.

Definition upload_with_infinity : UploadX :=
  {| filename_x := "students.csv"; content_x := inr frame_with_infinity |}.

(** * Theorems *)

(** ** Comparisons, [min] and [max] *)

Lemma Qlt_bool_true (a b : Q) : Qlt_bool a b = true <-> a < b.
Proof.
  unfold Qlt_bool. rewrite negb_true_iff.
  destruct (Qle_bool b a) eqn:E.
  - apply Qle_bool_iff in E. split; [discriminate | intros; exfalso; lra].
  - split; [intros _ | reflexivity].
    apply Qnot_le_lt. intros Hle. apply Qle_bool_iff in Hle. congruence.
Qed.

Lemma Qlt_bool_false (a b : Q) : Qlt_bool a b = false <-> b <= a.
Proof.
  unfold Qlt_bool. rewrite negb_false_iff. apply Qle_bool_iff.
Qed.

Lemma Qle_bool_false (a b : Q) : Qle_bool a b = false <-> b < a.
Proof.
  rewrite <- Qlt_bool_true. unfold Qlt_bool.
  destruct (Qle_bool a b); simpl; split; congruence.
Qed.

Lemma Qeq_bool_false (a b : Q) : Qeq_bool a b = false <-> ~ a == b.
Proof.
  split.
  - intros E Heq. apply Qeq_bool_iff in Heq. congruence.
  - intros Hne. destruct (Qeq_bool a b) eqn:E; [|reflexivity].
    apply Qeq_bool_iff in E. contradiction.
Qed.

(** Case analysis on every comparison of the goal, each case with the
    order fact it stands for. *)
Ltac split_comparisons :=
  repeat match goal with
  | |- context [Qlt_bool ?a ?b] =>
      let E := fresh "E" in
      destruct (Qlt_bool a b) eqn:E;
      [apply Qlt_bool_true in E | apply Qlt_bool_false in E]
  | |- context [Qle_bool ?a ?b] =>
      let E := fresh "E" in
      destruct (Qle_bool a b) eqn:E;
      [apply Qle_bool_iff in E | apply Qle_bool_false in E]
  | |- context [Qeq_bool ?a ?b] =>
      let E := fresh "E" in
      destruct (Qeq_bool a b) eqn:E;
      [apply Qeq_bool_iff in E | apply Qeq_bool_false in E]
  end.

(** Linear arithmetic after the divisions by the constants of the source
    have been turned into multiplications. *)
Ltac lraq :=
  unfold Qdiv in *;
  change (/ 75) with (1 # 75) in *;
  change (/ 100) with (1 # 100) in *;
  change (/ 90) with (1 # 90) in *;
  change (/ 4) with (1 # 4) in *;
  change (/ 1000) with (1 # 1000) in *;
  lra.

Lemma py_max_spec (a b : Q) :
  (a < b /\ py_max a b = b) \/ (b <= a /\ py_max a b = a).
Proof. unfold py_max. split_comparisons; auto. Qed.

Lemma py_min_spec (a b : Q) :
  (b < a /\ py_min a b = b) \/ (a <= b /\ py_min a b = a).
Proof. unfold py_min. split_comparisons; auto. Qed.

Lemma inject_Z_nonneg (z : Z) : (0 <= z)%Z -> 0 <= inject_Z z.
Proof. intros Hz. change 0 with (inject_Z 0). rewrite <- Zle_Qle. exact Hz. Qed.

(** ** The component risks *)

Lemma calculate_attendance_risk_unit (attendance_percent : Q) :
  0 <= attendance_percent -> in_unit (calculate_attendance_risk attendance_percent).
Proof.
  intros H0. unfold in_unit, calculate_attendance_risk, py_max.
  split_comparisons; lraq.
Qed.

Lemma calculate_score_trend_risk_unit (previous_avg current_avg : Q) :
  in_unit (calculate_score_trend_risk previous_avg current_avg).
Proof.
  unfold in_unit, calculate_score_trend_risk, py_min, py_max.
  destruct (Qeq_bool previous_avg 0 || Qeq_bool current_avg 0); [lra|].
  cbv zeta. split_comparisons; lraq.
Qed.

Lemma calculate_fee_risk_min (fees_due_days : Z) :
  calculate_fee_risk fees_due_days == Qmin (inject_Z fees_due_days / 90) 1.
Proof.
  unfold calculate_fee_risk, py_min. split_comparisons.
  - rewrite Q.min_r; lraq.
  - rewrite Q.min_l; lraq.
Qed.

Lemma calculate_fee_risk_unit (fees_due_days : Z) :
  (0 <= fees_due_days)%Z -> in_unit (calculate_fee_risk fees_due_days).
Proof.
  intros H0. apply inject_Z_nonneg in H0.
  unfold in_unit, calculate_fee_risk, py_min. split_comparisons; lraq.
Qed.

Lemma calculate_attempts_risk_unit (attempts : Z) :
  in_unit (calculate_attempts_risk attempts).
Proof.
  unfold in_unit, calculate_attempts_risk, py_min.
  destruct (attempts <=? 1)%Z eqn:E; [lra|].
  apply Z.leb_gt in E.
  assert (H1 : 0 <= inject_Z (attempts - 1)) by (apply inject_Z_nonneg; lia).
  split_comparisons; lraq.
Qed.

(** ** Rounding *)

Lemma round3_rounded3 (x : Q) : rounded3 (round3 x).
Proof. exists (round_half_even (x * 1000)). reflexivity. Qed.

(** ** Sorting *)

Section Sort.

Context {A : Type} (key : A -> Q).

Lemma insert_desc_In (x y : A) (l : list A) :
  In y (insert_desc key x l) <-> y = x \/ In y l.
Proof.
  induction l as [|z l IH]; cbn.
  - intuition.
  - destruct (Qle_bool (key z) (key x)); cbn; [intuition|].
    rewrite IH. intuition.
Qed.

Lemma sort_desc_In (y : A) (l : list A) : In y (sort_desc key l) <-> In y l.
Proof.
  induction l as [|x l IH]; cbn; [tauto|].
  rewrite insert_desc_In, IH. intuition.
Qed.

Lemma insert_desc_perm (x : A) (l : list A) : Permutation (x :: l) (insert_desc key x l).
Proof.
  induction l as [|z l IH]; cbn; [reflexivity|].
  destruct (Qle_bool (key z) (key x)); [reflexivity|].
  rewrite perm_swap. apply perm_skip, IH.
Qed.

Lemma sort_desc_perm (l : list A) : Permutation l (sort_desc key l).
Proof.
  induction l as [|x l IH]; cbn; [reflexivity|].
  rewrite <- insert_desc_perm. apply perm_skip, IH.
Qed.

(** The original order, as a rank. *)
Context (rk : A -> nat).

Lemma before_key_le (x y : A) : before key rk x y -> key y <= key x.
Proof. intros [Hlt|[Heq _]]; lra. Qed.

(** Inserting an element that precedes, in the original order, everything
    already sorted keeps the list sorted with ties in the original order. *)
Lemma insert_desc_sorted (x : A) (l : list A) :
  StronglySorted (before key rk) l ->
  Forall (fun y => (rk x < rk y)%nat) l ->
  StronglySorted (before key rk) (insert_desc key x l).
Proof.
  induction l as [|z l IH]; intros Hs Hr; cbn.
  - repeat constructor.
  - apply StronglySorted_inv in Hs as [Hs Hz].
    apply Forall_cons_iff in Hr as [Hxz Hr].
    destruct (Qle_bool (key z) (key x)) eqn:E.
    + apply Qle_bool_iff in E.
      constructor; [constructor; assumption|].
      assert (Hall : Forall (fun y => key y <= key x /\ (rk x < rk y)%nat) (z :: l)).
      { constructor; [auto|].
        rewrite List.Forall_forall in *. intros y Hy. split; [|auto].
        specialize (Hz y Hy). apply before_key_le in Hz. lra. }
      rewrite List.Forall_forall in *. intros y Hy.
      destruct (Hall y Hy) as [Hle Hlt].
      destruct (Qlt_le_dec (key y) (key x)) as [Hl|Hg]; [left; exact Hl|].
      right. split; [lra | exact Hlt].
    + apply Qle_bool_false in E.
      constructor; [apply IH; assumption|].
      rewrite List.Forall_forall in *. intros y Hy.
      apply insert_desc_In in Hy as [->|Hy]; [left; exact E | auto].
Qed.

(** [sort_desc] is a stable descending sort. *)
Lemma sort_desc_sorted (l : list A) :
  StronglySorted (fun x y => (rk x < rk y)%nat) l ->
  StronglySorted (before key rk) (sort_desc key l).
Proof.
  induction l as [|x l IH]; intros Hs; cbn; [constructor|].
  apply StronglySorted_inv in Hs as [Hs Hx].
  apply insert_desc_sorted; [apply IH, Hs|].
  rewrite List.Forall_forall in *. intros y Hy. apply Hx, sort_desc_In, Hy.
Qed.

End Sort.

Lemma firstn_incl {A : Type} (n : nat) (l : list A) : incl (firstn n l) l.
Proof.
  intros x Hx. rewrite <- (firstn_skipn n l). apply in_or_app. left. exact Hx.
Qed.

Lemma top2_firstn (l : list RiskFactor) : top2 l = firstn 2 l.
Proof.
  unfold top2. destruct (2 <=? length l)%nat eqn:E; [reflexivity|].
  apply Nat.leb_gt in E. symmetry. apply firstn_all2. lia.
Qed.

(** ** The monad *)

Lemma bind_inr {A B : Type} (m : M A) (k : A -> M B) (self self' : RiskCalculator) (a : A) :
  m self = (inr a, self') -> (m ≫= k) self = k a self'.
Proof. intros H. unfold mbind, M_bind. rewrite H. reflexivity. Qed.

Lemma bind_inl {A B : Type} (m : M A) (k : A -> M B) (self self' : RiskCalculator) (e : exn) :
  m self = (inl e, self') -> (m ≫= k) self = (inl e, self').
Proof. intros H. unfold mbind, M_bind. rewrite H. reflexivity. Qed.

Lemma attr_run {A : Type} (f : RiskCalculator -> A) (self : RiskCalculator) :
  attr f self = (inr (f self), self).
Proof. reflexivity. Qed.

Section EngineFacts.

Context {builtins : Builtins}.

(** *** The methods compute these values and hand [self] back unchanged *)

Lemma convert_inr (d : gmap string pyval) (f : Fields) :
  convert d = inr f ->
  py_float (dict_get d "attendance_percent" (PyInt 0)) = inr (f_attendance f) /\
  py_int (dict_get d "fees_due_days" (PyInt 0)) = inr (f_fees_due f) /\
  py_int (dict_get d "attempts_in_subject_X" (PyInt 1)) = inr (f_attempts f) /\
  py_float (dict_get d "previous_3_tests_avg" (PyInt 0)) = inr (f_previous_avg f) /\
  py_float (dict_get d "last_3_tests_avg" (PyInt 0)) = inr (f_current_avg f).
Proof.
  unfold convert.
  destruct (py_float (dict_get d "attendance_percent" _)); [discriminate|].
  destruct (py_int (dict_get d "fees_due_days" _)); [discriminate|].
  destruct (py_int (dict_get d "attempts_in_subject_X" _)); [discriminate|].
  destruct (py_float (dict_get d "previous_3_tests_avg" _)); [discriminate|].
  destruct (py_float (dict_get d "last_3_tests_avg" _)); [discriminate|].
  intros [= <-]. cbn. auto.
Qed.

Lemma determine_risk_level_run (risk_score : Q) (self : RiskCalculator) :
  determine_risk_level risk_score self = (inr (level_of self risk_score), self).
Proof.
  unfold determine_risk_level, level_of, self_threshold, attr, mbind, M_bind, mret, M_ret.
  destruct (Qle_bool (t_high (thresholds self)) risk_score); [reflexivity|].
  destruct (Qle_bool (t_medium (thresholds self)) risk_score); reflexivity.
Qed.

Lemma weighted_risk_score_run (a s f t : Q) (self : RiskCalculator) :
  weighted_risk_score a s f t self =
    (inr (w_attendance (weights self) * a + w_score_trend (weights self) * s +
          w_fees (weights self) * f + w_attempts (weights self) * t), self).
Proof. reflexivity. Qed.

Lemma calculate_risk_run (d : gmap string pyval) (self : RiskCalculator) :
  calculate_risk d self =
    (inr (match convert d with
          | inr f => summary_ok self f
          | inl e => summary_failed self e
          end), self).
Proof.
  unfold calculate_risk, convert, try_except.
  unfold mbind at 1 2 3 4 5. unfold M_bind, lift.
  destruct (py_float (dict_get d "attendance_percent" _)) as [[]|a]; [reflexivity..|].
  destruct (py_int (dict_get d "fees_due_days" _)) as [[]|n]; [reflexivity..|].
  destruct (py_int (dict_get d "attempts_in_subject_X" _)) as [[]|k]; [reflexivity..|].
  destruct (py_float (dict_get d "previous_3_tests_avg" _)) as [[]|p]; [reflexivity..|].
  destruct (py_float (dict_get d "last_3_tests_avg" _)) as [[]|c]; [reflexivity..|].
  cbv beta zeta.
  erewrite bind_inr by apply weighted_risk_score_run.
  erewrite bind_inr by apply determine_risk_level_run.
  reflexivity.
Qed.

Lemma generate_recommendations_run (d : gmap string pyval) (f : Fields)
    (l : list RiskFactor) (self : RiskCalculator) :
  convert d = inr f ->
  generate_recommendations d l self = (inr (recommendations_of f l), self).
Proof.
  intros Hc. destruct (convert_inr d f Hc) as (H1 & H2 & H3 & H4 & H5).
  unfold generate_recommendations, recommendations_of.
  rewrite H1, H2, H3, H4, H5. cbv zeta.
  fold (primary_risks_of l). set (pr := primary_risks_of l).
  rewrite (bind_inr _ _ self self (attendance_advice f pr [])).
  2:{ unfold attendance_advice. destruct (str_in "Attendance" pr); [|reflexivity].
      unfold mbind, M_bind, lift.
      destruct (Qlt_bool (f_attendance f) 50); [reflexivity|].
      destruct (Qlt_bool (f_attendance f) 65); reflexivity. }
  rewrite (bind_inr _ _ self self (score_advice f pr (attendance_advice f pr []))).
  2:{ unfold score_advice. destruct (str_in "Test Score Trend" pr); [|reflexivity].
      unfold mbind, M_bind, lift.
      destruct (Qlt_bool 15 (f_previous_avg f - f_current_avg f)); [reflexivity|].
      destruct (Qlt_bool 8 (f_previous_avg f - f_current_avg f)); reflexivity. }
  rewrite (bind_inr _ _ self self
             (fee_advice f pr (score_advice f pr (attendance_advice f pr [])))).
  2:{ unfold fee_advice. destruct (str_in "Fee Payment" pr); [|reflexivity].
      unfold mbind, M_bind, lift.
      destruct (90 <? f_fees_due f)%Z; reflexivity. }
  rewrite (bind_inr _ _ self self
             (attempts_advice f pr
                (fee_advice f pr (score_advice f pr (attendance_advice f pr []))))).
  2:{ unfold attempts_advice. destruct (str_in "Subject Attempts" pr); [|reflexivity].
      unfold mbind, M_bind, lift.
      destruct (4 <=? f_attempts f)%Z; reflexivity. }
  reflexivity.
Qed.

Lemma calculate_detailed_risk_run (d : gmap string pyval) (self : RiskCalculator) :
  calculate_detailed_risk d self =
    (inr (match convert d with
          | inr f => detailed_ok self f
          | inl e => detailed_failed self e
          end), self).
Proof.
  destruct (convert d) as [e|f] eqn:Hc.
  - unfold calculate_detailed_risk, try_except.
    unfold convert in Hc. unfold mbind at 1 2 3 4 5. unfold M_bind, lift.
    destruct (py_float (dict_get d "attendance_percent" _)) as [x|a];
      [injection Hc as ->; destruct e; reflexivity|].
    destruct (py_int (dict_get d "fees_due_days" _)) as [x|n];
      [injection Hc as ->; destruct e; reflexivity|].
    destruct (py_int (dict_get d "attempts_in_subject_X" _)) as [x|k];
      [injection Hc as ->; destruct e; reflexivity|].
    destruct (py_float (dict_get d "previous_3_tests_avg" _)) as [x|p];
      [injection Hc as ->; destruct e; reflexivity|].
    destruct (py_float (dict_get d "last_3_tests_avg" _)) as [x|c];
      [injection Hc as ->; destruct e; reflexivity|].
    discriminate.
  - destruct (convert_inr d f Hc) as (H1 & H2 & H3 & H4 & H5).
    unfold calculate_detailed_risk, try_except.
    rewrite H1, H2, H3, H4, H5.
    unfold mbind at 1 2 3 4 5. unfold M_bind at 1 2 3 4 5. unfold lift.
    cbv beta iota zeta.
    erewrite bind_inr by apply weighted_risk_score_run.
    erewrite bind_inr by apply determine_risk_level_run.
    fold (attendance_risk_of f) (score_risk_of f) (fee_risk_of f) (attempts_risk_of f).
    fold (score_of self f).
    pose proof (fun l => generate_recommendations_run d f l self Hc) as Hg.
    unfold detailed_ok, appended.
    destruct (Qlt_bool 0 (attendance_risk_of f));
      destruct (Qlt_bool 0 (score_risk_of f));
      destruct (Qlt_bool 0 (fee_risk_of f));
      destruct (Qlt_bool 0 (attempts_risk_of f));
      unfold mbind, M_bind, self_weight, self_color, attr, mret, M_ret;
      cbv beta iota zeta; rewrite Hg; reflexivity.
Qed.

(** ** Fee risk *)

(** On the exact quotient, the minimum with 1 is the clamp of the
    specification when the fee delay is not negative. *)
Lemma calculate_fee_risk_clamp (fees_due_days : Z) :
  (0 <= fees_due_days)%Z ->
  calculate_fee_risk fees_due_days == clamp (inject_Z fees_due_days / 90) 0 1 /\
  0 <= calculate_fee_risk fees_due_days.
Proof.
  intros H0. apply inject_Z_nonneg in H0. split.
  - unfold calculate_fee_risk, py_min, clamp. split_comparisons; lraq.
  - unfold calculate_fee_risk, py_min. split_comparisons; lraq.
Qed.

(** ** Consistency of the two methods *)

(** C1 (amended): for every input mapping, [calculate_risk] and
    [calculate_detailed_risk] agree on [risk_level] and [risk_color], and
    the [risk_score] of the detailed assessment is the [risk_score] of the
    summary rounded to 3 decimal places. *)
Theorem C1_summary_and_detail_agree (d : gmap string pyval) (self : RiskCalculator) :
  exists rs rd,
    calculate_risk d self = (inr rs, self) /\
    calculate_detailed_risk d self = (inr rd, self) /\
    Detailed.risk_level rd = Summary.risk_level rs /\
    Detailed.risk_color rd = Summary.risk_color rs /\
    Detailed.risk_score rd == round3 (Summary.risk_score rs).
Proof.
  rewrite calculate_risk_run, calculate_detailed_risk_run.
  do 2 eexists. split; [reflexivity|]. split; [reflexivity|].
  destruct (convert d) as [e|f]; cbn -[round3 Qeq]; repeat split; reflexivity.
Qed.

(** ** Malformed input *)


(** ** Risk level *)

Lemma level_of_init (x : Q) :
  (0.70 <= x -> level_of init x = High) /\
  (0.40 <= x < 0.70 -> level_of init x = Medium) /\
  (x < 0.40 -> level_of init x = Low).
Proof.
  unfold level_of. cbn [thresholds init t_high t_medium].
  split_comparisons; repeat split; intros; try reflexivity; exfalso; lra.
Qed.

Lemma level_of_init_mono (x y : Q) :
  x <= y -> (level_rank (level_of init x) <= level_rank (level_of init y))%nat.
Proof.
  intros Hxy. unfold level_of. cbn [thresholds init t_high t_medium].
  split_comparisons; cbn; try lia; exfalso; lra.
Qed.

(** C7: [risk_level] is a non-decreasing step function of [risk_score]
    with inclusive boundaries: a score of at least 0.70 gives High, a score
    from 0.40 up to but excluding 0.70 gives Medium, a smaller score gives
    Low; [risk_color] is the image of [risk_level] under the fixed map. *)
Theorem C7_level_is_step_function (d d' : gmap string pyval) :
  exists r r',
    calculate_risk d init = (inr r, init) /\
    calculate_risk d' init = (inr r', init) /\
    (0.70 <= Summary.risk_score r -> Summary.risk_level r = High) /\
    (0.40 <= Summary.risk_score r < 0.70 -> Summary.risk_level r = Medium) /\
    (Summary.risk_score r < 0.40 -> Summary.risk_level r = Low) /\
    Summary.risk_color r = color_map (Summary.risk_level r) /\
    (Summary.risk_score r <= Summary.risk_score r' ->
     (level_rank (Summary.risk_level r) <= level_rank (Summary.risk_level r'))%nat).
Proof.
  rewrite !calculate_risk_run. do 2 eexists.
  split; [reflexivity|]. split; [reflexivity|].
  destruct (convert d) as [e|f]; destruct (convert d') as [e'|f'];
    cbn [summary_ok summary_failed Summary.risk_score Summary.risk_level
         Summary.risk_color];
    try change Low with (level_of init 0.0);
    (split; [apply level_of_init|]);
    (split; [apply level_of_init|]);
    (split; [apply level_of_init|]);
    (split; [|apply level_of_init_mono]).
  all: match goal with |- context [level_of init ?x] => destruct (level_of init x) end;
    reflexivity.
Qed.

(** ** Purity *)

(** C9: a call of [calculate_risk] or [calculate_detailed_risk] returns a
    value and leaves the calculator as it was; two calls on the same input,
    one after the other, return the same value. *)
Theorem C9_calls_are_pure (d : gmap string pyval) (self : RiskCalculator) :
  (exists r, calculate_risk d self = (inr r, self)) /\
  (exists r, calculate_detailed_risk d self = (inr r, self)) /\
  (exists r,
     (r1 ← calculate_risk d; r2 ← calculate_risk d; mret (r1, r2)) self
       = (inr (r, r), self)) /\
  (exists r,
     (r1 ← calculate_detailed_risk d; r2 ← calculate_detailed_risk d; mret (r1, r2)) self
       = (inr (r, r), self)).
Proof.
  repeat split; eexists.
  - apply calculate_risk_run.
  - apply calculate_detailed_risk_run.
  - erewrite bind_inr by apply calculate_risk_run.
    erewrite bind_inr by apply calculate_risk_run. reflexivity.
  - erewrite bind_inr by apply calculate_detailed_risk_run.
    erewrite bind_inr by apply calculate_detailed_risk_run. reflexivity.
Qed.

(** ** Absent fields *)

Lemma dict_get_insert_default (d : gmap string pyval) (k k' : string) (v dflt : pyval) :
  d !! k = None ->
  (k' = k -> dflt = v) ->
  dict_get (<[k := v]> d) k' dflt = dict_get d k' dflt.
Proof.
  intros Hk Hd. unfold dict_get.
  destruct (decide (k = k')) as [<-|Hne].
  - rewrite lookup_insert_eq, Hk. symmetry. apply Hd. reflexivity.
  - rewrite lookup_insert_ne by exact Hne. reflexivity.
Qed.

Lemma convert_insert_default (d : gmap string pyval) (k : string) (v : pyval) :
  d !! k = None ->
  In (k, v) [("attendance_percent", PyInt 0); ("fees_due_days", PyInt 0);
             ("attempts_in_subject_X", PyInt 1); ("previous_3_tests_avg", PyInt 0);
             ("last_3_tests_avg", PyInt 0)] ->
  convert (<[k := v]> d) = convert d.
Proof.
  intros Hk Hin. unfold convert.
  rewrite !(dict_get_insert_default d k _ v _ Hk); [reflexivity|..];
    intros <-; cbn in Hin; intuition congruence.
Qed.

(** C10: an absent field is read as its default (attendance 0, fee delay 0,
    attempts 1, both test averages 0): the result is that of the mapping
    with the default written in.  The empty mapping is scored without an
    error, with attendance risk 1, the other component risks 0, score 0.5,
    level Medium. *)
Theorem C10_absent_fields_default (d : gmap string pyval) (self : RiskCalculator) :
  (d !! "attendance_percent" = None ->
   calculate_risk d self = calculate_risk (<["attendance_percent" := PyInt 0]> d) self) /\
  (d !! "fees_due_days" = None ->
   calculate_risk d self = calculate_risk (<["fees_due_days" := PyInt 0]> d) self) /\
  (d !! "attempts_in_subject_X" = None ->
   calculate_risk d self = calculate_risk (<["attempts_in_subject_X" := PyInt 1]> d) self) /\
  (d !! "previous_3_tests_avg" = None ->
   calculate_risk d self = calculate_risk (<["previous_3_tests_avg" := PyInt 0]> d) self) /\
  (d !! "last_3_tests_avg" = None ->
   calculate_risk d self = calculate_risk (<["last_3_tests_avg" := PyInt 0]> d) self) /\
  (exists f,
     convert ∅ = inr f /\
     calculate_attendance_risk (f_attendance f) == 1 /\
     calculate_score_trend_risk (f_previous_avg f) (f_current_avg f) == 0 /\
     calculate_fee_risk (f_fees_due f) == 0 /\
     calculate_attempts_risk (f_attempts f) == 0) /\
  (exists r,
     calculate_risk ∅ init = (inr r, init) /\
     Summary.error r = None /\
     Summary.risk_score r == 0.5 /\
     Summary.risk_level r = Medium /\
     Summary.risk_color r = "warning").
Proof.
  repeat split.
  1-5: intros Hk; rewrite !calculate_risk_run, convert_insert_default;
    [reflexivity | exact Hk | cbn; tauto].
  - eexists. split; [reflexivity|]. repeat split; reflexivity.
  - eexists. split; [apply calculate_risk_run|]. repeat split; reflexivity.
Qed.

(** ** Risk factors *)

Lemma appended_In (self : RiskCalculator) (f : Fields) (x : RiskFactor) :
  In x (appended self f) <->
  (0 < attendance_risk_of f /\ x = attendance_factor self f) \/
  (0 < score_risk_of f /\ x = score_factor self f) \/
  (0 < fee_risk_of f /\ x = fee_factor self f) \/
  (0 < attempts_risk_of f /\ x = attempts_factor self f).
Proof.
  unfold appended.
  destruct (Qlt_bool 0 (attendance_risk_of f)) eqn:E1;
    [apply Qlt_bool_true in E1 | apply Qlt_bool_false in E1];
  (destruct (Qlt_bool 0 (score_risk_of f)) eqn:E2;
    [apply Qlt_bool_true in E2 | apply Qlt_bool_false in E2]);
  (destruct (Qlt_bool 0 (fee_risk_of f)) eqn:E3;
    [apply Qlt_bool_true in E3 | apply Qlt_bool_false in E3]);
  (destruct (Qlt_bool 0 (attempts_risk_of f)) eqn:E4;
    [apply Qlt_bool_true in E4 | apply Qlt_bool_false in E4]);
  cbn [app In]; intuition (try congruence; try (exfalso; lra); auto).
Qed.

Lemma appended_in_order (self : RiskCalculator) (f : Fields) :
  StronglySorted (fun x y => (eval_rank x < eval_rank y)%nat) (appended self f).
Proof.
  unfold appended.
  destruct (Qlt_bool 0 (attendance_risk_of f));
    destruct (Qlt_bool 0 (score_risk_of f));
    destruct (Qlt_bool 0 (fee_risk_of f));
    destruct (Qlt_bool 0 (attempts_risk_of f));
    cbn [app]; repeat constructor; vm_compute; lia.
Qed.

Lemma risk_factors_In (self : RiskCalculator) (f : Fields) (x : RiskFactor) :
  In x (Detailed.risk_factors (detailed_ok self f)) <->
  (0 < attendance_risk_of f /\ x = attendance_factor self f) \/
  (0 < score_risk_of f /\ x = score_factor self f) \/
  (0 < fee_risk_of f /\ x = fee_factor self f) \/
  (0 < attempts_risk_of f /\ x = attempts_factor self f).
Proof.
  cbn [detailed_ok Detailed.risk_factors]. rewrite sort_desc_In. apply appended_In.
Qed.

(** C8: in every result of [calculate_detailed_risk], [risk_factors] is
    sorted by descending [risk_contribution] with ties in the order of
    evaluation; [top_reasons] is its first two entries, so it has at most
    two entries and all of them are in [risk_factors]; and when the
    conversions succeed, [risk_factors] holds exactly the factors of the
    components whose risk is positive. *)
Theorem C8_risk_factors_sorted (d : gmap string pyval) (self : RiskCalculator) :
  exists r,
    calculate_detailed_risk d self = (inr r, self) /\
    StronglySorted factor_before (Detailed.risk_factors r) /\
    Detailed.top_reasons r = firstn 2 (Detailed.risk_factors r) /\
    (length (Detailed.top_reasons r) <= 2)%nat /\
    incl (Detailed.top_reasons r) (Detailed.risk_factors r) /\
    (forall f, convert d = inr f ->
       Permutation (appended self f) (Detailed.risk_factors r) /\
       forall x, In x (Detailed.risk_factors r) <->
         (0 < calculate_attendance_risk (f_attendance f) /\
            x = attendance_factor self f) \/
         (0 < calculate_score_trend_risk (f_previous_avg f) (f_current_avg f) /\
            x = score_factor self f) \/
         (0 < calculate_fee_risk (f_fees_due f) /\ x = fee_factor self f) \/
         (0 < calculate_attempts_risk (f_attempts f) /\ x = attempts_factor self f)).
Proof.
  rewrite calculate_detailed_risk_run. eexists. split; [reflexivity|].
  destruct (convert d) as [e|f].
  - cbn. repeat split; try constructor; try lia; try discriminate.
    intros x Hx; exact Hx.
  - assert (Ht : Detailed.top_reasons (detailed_ok self f)
                 = firstn 2 (Detailed.risk_factors (detailed_ok self f)))
      by apply top2_firstn.
    split; [apply sort_desc_sorted, appended_in_order|].
    split; [exact Ht|]. rewrite Ht.
    split; [apply firstn_le_length|].
    split; [apply firstn_incl|].
    intros f' [= <-]. split; [apply sort_desc_perm|].
    intros x. apply risk_factors_In.
Qed.

(** ** Rounding of the detailed assessment *)

(** C4 (amended): in every result of [calculate_detailed_risk],
    [risk_score] and every entry of [risk_components] and
    [weighted_components] have at most three decimal places; the
    [risk_contribution] of an element of [risk_factors] or [top_reasons] is
    the product of the component risk and its weight, as computed. *)
Theorem C4_rounded_fields (d : gmap string pyval) (self : RiskCalculator) :
  exists r,
    calculate_detailed_risk d self = (inr r, self) /\
    rounded3 (Detailed.risk_score r) /\
    (forall c, Detailed.risk_components r = Some c ->
       rounded3 (attendance_risk c) /\ rounded3 (score_trend_risk c) /\
       rounded3 (fee_risk c) /\ rounded3 (attempts_risk c)) /\
    (forall w, Detailed.weighted_components r = Some w ->
       rounded3 (attendance_weighted w) /\ rounded3 (score_trend_weighted w) /\
       rounded3 (fee_weighted w) /\ rounded3 (attempts_weighted w)) /\
    (forall f x, convert d = inr f ->
       In x (Detailed.risk_factors r) \/ In x (Detailed.top_reasons r) ->
       risk_contribution x =
         calculate_attendance_risk (f_attendance f) * w_attendance (weights self) \/
       risk_contribution x =
         calculate_score_trend_risk (f_previous_avg f) (f_current_avg f)
           * w_score_trend (weights self) \/
       risk_contribution x =
         calculate_fee_risk (f_fees_due f) * w_fees (weights self) \/
       risk_contribution x =
         calculate_attempts_risk (f_attempts f) * w_attempts (weights self)).
Proof.
  rewrite calculate_detailed_risk_run. eexists. split; [reflexivity|].
  destruct (convert d) as [e|f].
  - cbn [detailed_failed Detailed.risk_score Detailed.risk_components
         Detailed.weighted_components].
    split; [exists 0%Z; reflexivity|]. repeat split; discriminate.
  - split; [apply round3_rounded3|].
    split; [intros c [= <-]; cbn; repeat split; apply round3_rounded3|].
    split; [intros w [= <-]; cbn; repeat split; apply round3_rounded3|].
    intros f' x [= <-] Hx.
    assert (Hin : In x (Detailed.risk_factors (detailed_ok self f))).
    { destruct Hx as [Hx|Hx]; [exact Hx|].
      cbn [detailed_ok Detailed.top_reasons] in Hx. rewrite top2_firstn in Hx.
      apply firstn_incl in Hx. exact Hx. }
    apply risk_factors_In in Hin.
    destruct Hin as [[_ ->]|[[_ ->]|[[_ ->]|[_ ->]]]]; cbn; auto.
Qed.

(** ** The advice for attendance from 65 up to 75 *)

Lemma attendance_advice_monitor (f : Fields) (pr acc : list string) :
  In monitor_advice (attendance_advice f pr acc) ->
  In monitor_advice acc \/ (str_in "Attendance" pr = true /\ 65 <= f_attendance f).
Proof.
  unfold attendance_advice.
  destruct (str_in "Attendance" pr); [|auto].
  destruct (Qlt_bool (f_attendance f) 50) eqn:E1;
    [|destruct (Qlt_bool (f_attendance f) 65) eqn:E2].
  - intros Hin. apply in_app_or in Hin as [Hin|[Hin|[]]]; [auto | discriminate].
  - intros Hin. apply in_app_or in Hin as [Hin|[Hin|[]]]; [auto | discriminate].
  - intros _. right. split; [reflexivity|]. apply Qlt_bool_false in E2. exact E2.
Qed.

Lemma other_advice_monitor (f : Fields) (l : list RiskFactor) (pr acc : list string) :
  (In monitor_advice (score_advice f pr acc) -> In monitor_advice acc) /\
  (In monitor_advice (fee_advice f pr acc) -> In monitor_advice acc) /\
  (In monitor_advice (attempts_advice f pr acc) -> In monitor_advice acc) /\
  (In monitor_advice (escalation l acc) -> In monitor_advice acc).
Proof.
  unfold score_advice, fee_advice, attempts_advice, escalation.
  repeat split;
    repeat match goal with
           | |- context [if ?b then _ else _] => destruct b
           end;
    intros Hin; try exact Hin;
    apply in_app_or in Hin as [Hin|[Hin|[]]]; solve [auto | discriminate].
Qed.

Lemma primary_attendance (self : RiskCalculator) (f : Fields) :
  str_in "Attendance" (primary_risks_of (sort_desc risk_contribution (appended self f)))
    = true ->
  f_attendance f < 65.
Proof.
  unfold str_in, primary_risks_of. rewrite existsb_exists.
  intros (name & Hin & Heq). apply String.eqb_eq in Heq. subst name.
  apply in_map_iff in Hin as (x & Hname & Hin).
  apply filter_In in Hin as [Hin Hsev].
  apply sort_desc_In, appended_In in Hin.
  destruct Hin as [[_ ->]|[[_ ->]|[[_ ->]|[_ ->]]]]; try discriminate.
  cbn [attendance_factor severity] in Hsev.
  destruct (Qlt_bool (f_attendance f) 50) eqn:E1;
    [apply Qlt_bool_true in E1; lra|].
  destruct (Qlt_bool (f_attendance f) 65) eqn:E2;
    [apply Qlt_bool_true in E2; exact E2 | discriminate].
Qed.

(** The branch that would give the advice is never taken: no call returns
    the sentence, whatever the input. *)
Lemma monitor_advice_never_given (d : gmap string pyval) (self : RiskCalculator) :
  exists r,
    calculate_detailed_risk d self = (inr r, self) /\
    ~ In monitor_advice (Detailed.recommendations r).
Proof.
  rewrite calculate_detailed_risk_run. eexists. split; [reflexivity|].
  destruct (convert d) as [e|f]; [intros []|].
  cbn [detailed_ok Detailed.recommendations]. unfold recommendations_of.
  intros Hin. apply firstn_incl in Hin.
  set (l := sort_desc risk_contribution (appended self f)) in *.
  apply (proj2 (proj2 (proj2 (other_advice_monitor f l (primary_risks_of l) _)))) in Hin.
  apply (proj1 (proj2 (proj2 (other_advice_monitor f l (primary_risks_of l) _)))) in Hin.
  apply (proj1 (proj2 (other_advice_monitor f l (primary_risks_of l) _))) in Hin.
  apply (proj1 (other_advice_monitor f l (primary_risks_of l) _)) in Hin.
  apply attendance_advice_monitor in Hin as [[]|[Hpr Hge]].
  apply primary_attendance in Hpr. lra.
Qed.

End EngineFacts.

(** * Closed runs *)

(** The record of the specification's end-to-end example, given as numbers
    and given as text. *)
Example example_record_scored :
  exists r, score example_record init = (inr r, init) /\
            Summary.risk_score r == 61 # 120 /\
            Summary.risk_level r = Medium /\
            Summary.risk_color r = "warning" /\
            Summary.error r = None.
Proof. eexists. split; [vm_compute; reflexivity|]. repeat split. Qed.

Example example_record_text_scored :
  exists r, score example_record_text init = (inr r, init) /\
            Summary.risk_score r == 61 # 120 /\
            Summary.risk_level r = Medium /\
            Summary.risk_color r = "warning" /\
            Summary.error r = None.
Proof. eexists. split; [vm_compute; reflexivity|]. repeat split. Qed.

(** Three equal contributions stay in the order of evaluation. *)
Example ties_keep_evaluation_order :
  exists r, explain record_with_ties init = (inr r, init) /\
            List.map factor (Detailed.risk_factors r)
              = ["Attendance"; "Test Score Trend"; "Fee Payment"] /\
            Forall (fun x => risk_contribution x == 0.15) (Detailed.risk_factors r) /\
            List.map factor (Detailed.top_reasons r)
              = ["Attendance"; "Test Score Trend"].
Proof.
  eexists. split; [vm_compute; reflexivity|].
  split; [reflexivity|]. split; [|reflexivity].
  repeat constructor.
Qed.

(** The detailed assessment takes the level from the score before it is
    rounded: a score of 0.6998 is reported as 0.7 with level Medium. *)
Example rounded_score_keeps_unrounded_level :
  exists rs rd,
    score record_near_high init = (inr rs, init) /\
    explain record_near_high init = (inr rd, init) /\
    Summary.risk_score rs == 0.6998 /\
    Detailed.risk_score rd == 0.7 /\
    Summary.risk_level rs = Medium /\
    Detailed.risk_level rd = Medium.
Proof.
  do 2 eexists. split; [vm_compute; reflexivity|]. split; [vm_compute; reflexivity|].
  repeat split.
Qed.

(** ** C1 *)

(** C1 as stated fails: on the example record [calculate_risk] returns the
    score 61/120 and [calculate_detailed_risk] returns 0.508. *)
Lemma C1_counterexample :
  exists rs rd,
    score example_record init = (inr rs, init) /\
    explain example_record init = (inr rd, init) /\
    ~ Summary.risk_score rs == Detailed.risk_score rd.
Proof.
  do 2 eexists. split; [vm_compute; reflexivity|]. split; [vm_compute; reflexivity|].
  cbn [Summary.risk_score Detailed.risk_score]. intros Heq.
  vm_compute in Heq. discriminate.
Qed.

(** ** C3 *)


(** ** C4 *)

(** C4 as stated fails: on the example record the first risk factor, which
    is also the first top reason, has the contribution 7/30. *)
Lemma C4_counterexample :
  exists r x,
    explain example_record init = (inr r, init) /\
    In x (Detailed.risk_factors r) /\
    In x (Detailed.top_reasons r) /\
    ~ rounded3 (risk_contribution x).
Proof.
  do 2 eexists. split; [vm_compute; reflexivity|].
  split; [left; reflexivity|]. split; [left; reflexivity|].
  intros [k Hk]. unfold Qeq in Hk. simpl in Hk. lia.
Qed.

(** ** C6 *)

(** C6: on a record with attendance 70 and no other risk, the attendance
    factor is reported, with severity Low and a positive contribution, and
    no recommendation is returned; the sentence of the rule table is
    missing. *)
Theorem C6_monitor_advice_missing :
  exists r,
    explain record_attendance_70 init = (inr r, init) /\
    (exists x, Detailed.risk_factors r = [x] /\
               factor x = "Attendance" /\
               severity x = Low /\
               0 < risk_contribution x) /\
    Detailed.recommendations r = [] /\
    ~ In monitor_advice (Detailed.recommendations r).
Proof.
  eexists. split; [vm_compute; reflexivity|].
  split; [eexists; repeat split|].
  split; [reflexivity|]. intros [].
Qed.

(** ** C7 *)

Lemma C7_witness :
  exists r r',
    score record_at_medium init = (inr r, init) /\
    score record_at_high init = (inr r', init) /\
    Summary.risk_score r == 0.40 /\ Summary.risk_level r = Medium /\
    Summary.risk_score r' == 0.70 /\ Summary.risk_level r' = High /\
    (level_rank (Summary.risk_level r) <= level_rank (Summary.risk_level r'))%nat.
Proof.
  destruct (@C7_level_is_step_function decimal_builtins record_at_medium record_at_high)
    as (r & r' & H1 & H2 & _ & Hm & _ & _ & Hmono).
  destruct (@C7_level_is_step_function decimal_builtins record_at_high record_at_medium)
    as (r2 & _ & H3 & _ & Hh & _).
  assert (E : r2 = r') by congruence. subst r2.
  exists r, r'. split; [exact H1|]. split; [exact H2|].
  assert (S1 : Summary.risk_score r == 0.40).
  { vm_compute in H1. injection H1 as <-. reflexivity. }
  assert (S2 : Summary.risk_score r' == 0.70).
  { vm_compute in H2. injection H2 as <-. reflexivity. }
  split; [exact S1|]. split; [apply Hm; lra|].
  split; [exact S2|]. split; [apply Hh; lra|].
  apply Hmono. lra.
Defined.

(** ** C8 *)

Lemma C8_witness :
  exists r,
    explain example_record init = (inr r, init) /\
    StronglySorted factor_before (Detailed.risk_factors r) /\
    Permutation (appended init example_fields) (Detailed.risk_factors r) /\
    (length (Detailed.top_reasons r) <= 2)%nat.
Proof.
  destruct (@C8_risk_factors_sorted decimal_builtins example_record init)
    as (r & Hr & Hs & _ & Hl & _ & Hf).
  exists r. split; [exact Hr|]. split; [exact Hs|].
  split; [apply (Hf example_fields); reflexivity | exact Hl].
Defined.

(** ** C10 *)

Lemma C10_witness :
  score ∅ init = score (<["attendance_percent" := PyInt 0]> ∅) init /\
  exists r,
    score ∅ init = (inr r, init) /\
    Summary.error r = None /\
    Summary.risk_score r == 0.5 /\
    Summary.risk_level r = Medium /\
    Summary.risk_color r = "warning".
Proof.
  destruct (@C10_absent_fields_default decimal_builtins ∅ init)
    as (Ha & _ & _ & _ & _ & _ & Hr).
  split; [apply Ha; reflexivity | exact Hr].
Defined.

(** * Further properties of the calculator *)

(** ** The shape of the component risks *)

Lemma inject_Z_le (a b : Z) : (a <= b)%Z <-> inject_Z a <= inject_Z b.
Proof. rewrite Zle_Qle. reflexivity. Qed.

Lemma inject_Z_lt (a b : Z) : (a < b)%Z <-> inject_Z a < inject_Z b.
Proof. rewrite Zlt_Qlt. reflexivity. Qed.

(** X1: the attendance risk is positive exactly below 75 per cent, exceeds 1
    exactly for a negative attendance, and never grows when the attendance
    grows. *)
Theorem X1_attendance_risk_shape (a : Q) :
  (0 < calculate_attendance_risk a <-> a < 75) /\
  (1 < calculate_attendance_risk a <-> a < 0) /\
  (forall b, a <= b -> calculate_attendance_risk b <= calculate_attendance_risk a).
Proof.
  unfold calculate_attendance_risk, py_max. repeat split.
  - split_comparisons; intros; lraq.
  - split_comparisons; intros; lraq.
  - split_comparisons; intros; lraq.
  - split_comparisons; intros; lraq.
  - intros b Hab. split_comparisons; lraq.
Qed.

(** X2: the score-trend risk is positive exactly when both averages are
    non-zero and the current one is below the previous one; it is then the
    drop over 100, capped at 1; a zero average on either side gives risk 0
    whatever the other is. *)
Theorem X2_score_trend_risk_shape (p c : Q) :
  (0 < calculate_score_trend_risk p c <-> ~ p == 0 /\ ~ c == 0 /\ c < p) /\
  (~ p == 0 -> ~ c == 0 -> c < p ->
   calculate_score_trend_risk p c == Qmin ((p - c) / 100) 1) /\
  calculate_score_trend_risk p 0 == 0 /\
  calculate_score_trend_risk 0 c == 0.
Proof.
  unfold calculate_score_trend_risk, py_min, py_max.
  split; [split|split; [|split]].
  - destruct (Qeq_bool p 0) eqn:Ep; [cbn [orb]; intros; exfalso; lra|].
    destruct (Qeq_bool c 0) eqn:Ec; [cbn [orb]; intros; exfalso; lra|].
    apply Qeq_bool_false in Ep. apply Qeq_bool_false in Ec.
    cbn [orb]. cbv zeta.
    destruct (Qle_bool (p - c) 0) eqn:E; [intros; exfalso; lra|].
    apply Qle_bool_false in E. intros _. repeat split; try assumption. lra.
  - intros (Hp & Hc & Hlt).
    apply Qeq_bool_false in Hp. apply Qeq_bool_false in Hc. rewrite Hp, Hc.
    cbn [orb]. cbv zeta.
    destruct (Qlt_bool ((p - c) / 100) 0) eqn:Ei;
      [apply Qlt_bool_true in Ei | apply Qlt_bool_false in Ei].
    { exfalso. lraq. }
    split_comparisons; lraq.
  - intros Hp Hc Hlt.
    apply Qeq_bool_false in Hp. apply Qeq_bool_false in Hc. rewrite Hp, Hc.
    cbn [orb]. cbv zeta.
    destruct (Qlt_bool ((p - c) / 100) 0) eqn:Ei;
      [apply Qlt_bool_true in Ei | apply Qlt_bool_false in Ei].
    { exfalso. lraq. }
    split_comparisons; try lraq.
    + rewrite Q.min_r; lraq.
    + rewrite Q.min_l; lraq.
  - destruct (Qeq_bool p 0); reflexivity.
  - reflexivity.
Qed.

Lemma X2_witness :
  ~ 80 == 0 /\ ~ 60 == 0 /\ 60 < 80 /\
  calculate_score_trend_risk 80 60 == Qmin ((80 - 60) / 100) 1.
Proof.
  assert (H1 : ~ 80 == 0) by (intros H; vm_compute in H; discriminate).
  assert (H2 : ~ 60 == 0) by (intros H; vm_compute in H; discriminate).
  assert (H3 : 60 < 80) by reflexivity.
  split; [exact H1|]. split; [exact H2|]. split; [exact H3|].
  exact (proj1 (proj2 (X2_score_trend_risk_shape 80 60)) H1 H2 H3).
Defined.

(** The minimum of the exact quotient and 1: at most 1, equal to 1 exactly
    from 90 days, negative exactly for a negative number of days, and
    monotone. *)
Lemma calculate_fee_risk_shape (n : Z) :
  calculate_fee_risk n <= 1 /\
  (calculate_fee_risk n == 1 <-> (90 <= n)%Z) /\
  (calculate_fee_risk n < 0 <-> (n < 0)%Z) /\
  (forall m, (n <= m)%Z -> calculate_fee_risk n <= calculate_fee_risk m).
Proof.
  unfold calculate_fee_risk, py_min.
  rewrite (inject_Z_le 90 n), (inject_Z_lt n 0).
  change (inject_Z 90) with 90. change (inject_Z 0) with 0.
  repeat split.
  - split_comparisons; lraq.
  - split_comparisons; intros; lraq.
  - split_comparisons; intros; lraq.
  - split_comparisons; intros; lraq.
  - split_comparisons; intros; lraq.
  - intros m Hm. apply inject_Z_le in Hm. split_comparisons; lraq.
Qed.

(** The same for the attempts: in [0,1], positive exactly from the second
    attempt, equal to 1 exactly from the fifth, and monotone. *)
Lemma calculate_attempts_risk_shape (n : Z) :
  in_unit (calculate_attempts_risk n) /\
  (0 < calculate_attempts_risk n <-> (2 <= n)%Z) /\
  (calculate_attempts_risk n == 1 <-> (5 <= n)%Z) /\
  (forall m, (n <= m)%Z -> calculate_attempts_risk n <= calculate_attempts_risk m).
Proof.
  split; [apply calculate_attempts_risk_unit|].
  assert (Hsub : forall k, inject_Z (k - 1) == inject_Z k - 1).
  { intros k. unfold Z.sub. rewrite inject_Z_plus, inject_Z_opp. reflexivity. }
  unfold calculate_attempts_risk, py_min.
  repeat split.
  - destruct (n <=? 1)%Z eqn:E; [intros; lra|]. apply Z.leb_gt in E. lia.
  - intros Hn. destruct (n <=? 1)%Z eqn:E; [apply Z.leb_le in E; lia|].
    apply inject_Z_le in Hn. change (inject_Z 2) with 2 in Hn.
    pose proof (Hsub n). split_comparisons; lraq.
  - destruct (n <=? 1)%Z eqn:E; [intros; lra|]. apply Z.leb_gt in E.
    rewrite (inject_Z_le 5 n). change (inject_Z 5) with 5.
    pose proof (Hsub n). split_comparisons; intros; lraq.
  - intros Hn. destruct (n <=? 1)%Z eqn:E; [apply Z.leb_le in E; lia|].
    apply inject_Z_le in Hn. change (inject_Z 5) with 5 in Hn.
    pose proof (Hsub n). split_comparisons; lraq.
  - intros m Hm.
    destruct (n <=? 1)%Z eqn:En; destruct (m <=? 1)%Z eqn:Em;
      try apply Z.leb_le in En; try apply Z.leb_gt in En;
      try apply Z.leb_le in Em; try apply Z.leb_gt in Em; try lia.
    + lra.
    + apply inject_Z_lt in Em. change (inject_Z 1) with 1 in Em.
      pose proof (Hsub m). split_comparisons; lraq.
    + apply inject_Z_le in Hm. pose proof (Hsub m). pose proof (Hsub n).
      split_comparisons; lraq.
Qed.

(** ** Bounds that need no assumption on the other fields *)








Section CalculatorFacts.

Context {builtins : Builtins}.



End CalculatorFacts.



(** ** What the input mapping contributes *)

Lemma dict_get_insert_ne (d : gmap string pyval) (k k' : string) (v dflt : pyval) :
  k <> k' -> dict_get (<[k := v]> d) k' dflt = dict_get d k' dflt.
Proof. intros Hne. unfold dict_get. rewrite lookup_insert_ne by exact Hne. reflexivity. Qed.

(** ** Rounding error *)



(** ** Sums of contributions *)





Section InputFacts.

Context {builtins : Builtins}.

Lemma convert_insert_other (d : gmap string pyval) (k : string) (v : pyval) :
  ~ In k record_keys -> convert (<[k := v]> d) = convert d.
Proof.
  intros Hk. unfold convert, record_keys in *. cbn [In] in Hk.
  rewrite !dict_get_insert_ne by (intros ->; tauto). reflexivity.
Qed.

(** X7: a key other than the five the calculator reads has no effect on
    either result, whatever value it holds. *)
Theorem X7_other_keys_ignored (d : gmap string pyval) (k : string) (v : pyval)
    (self : RiskCalculator) :
  ~ In k record_keys ->
  calculate_risk (<[k := v]> d) self = calculate_risk d self /\
  calculate_detailed_risk (<[k := v]> d) self = calculate_detailed_risk d self.
Proof.
  intros Hk.
  rewrite !calculate_risk_run, !calculate_detailed_risk_run, convert_insert_other
    by exact Hk.
  split; reflexivity.
Qed.



End InputFacts.

Lemma X7_witness :
  score (<["class" := PyStr "10-A"]> example_record) init = score example_record init /\
  explain (<["class" := PyStr "10-A"]> example_record) init = explain example_record init.
Proof.
  apply (@X7_other_keys_ignored decimal_builtins).
  unfold record_keys. cbn [In]. intros H.
  repeat (destruct H as [H|H]; [discriminate H|]). exact H.
Defined.


(** ** Recommendations *)

Lemma filter_length_perm {A : Type} (P : A -> bool) (l l' : list A) :
  Permutation l l' -> length (List.filter P l) = length (List.filter P l').
Proof.
  induction 1 as [|x l l' _ IH|x y l|l l' l'' _ IH1 _ IH2]; cbn [List.filter].
  - reflexivity.
  - destruct (P x); cbn [length]; congruence.
  - destruct (P x); destruct (P y); reflexivity.
  - congruence.
Qed.

Lemma in_firstn_snoc {A : Type} (x : A) (l : list A) (n : nat) :
  ~ In x l -> (In x (firstn n (l ++ [x])) <-> (length l < n)%nat).
Proof.
  intros Hx. rewrite firstn_app, in_app_iff. split.
  - intros [Hin|Hin]; [apply firstn_incl in Hin; contradiction|].
    destruct (n - length l)%nat eqn:E; [destruct Hin | lia].
  - intros Hlt. right. destruct (n - length l)%nat eqn:E; [lia|].
    left. reflexivity.
Qed.

Lemma attendance_advice_app (f : Fields) (pr acc : list string) :
  exists s, attendance_advice f pr acc = (acc ++ s)%list /\
            length s = Nat.b2n (str_in "Attendance" pr) /\
            ~ In weekly_advice s /\ ~ In biweekly_advice s.
Proof.
  unfold attendance_advice. destruct (str_in "Attendance" pr).
  - destruct (Qlt_bool (f_attendance f) 50); [|destruct (Qlt_bool (f_attendance f) 65)];
      eexists; (split; [reflexivity|]); (split; [reflexivity|]);
      split; intros [H|[]]; discriminate H.
  - exists []. rewrite app_nil_r. repeat split; intros [].
Qed.

Lemma score_advice_app (f : Fields) (pr acc : list string) :
  exists s, score_advice f pr acc = (acc ++ s)%list /\
            length s = Nat.b2n (str_in "Test Score Trend" pr) /\
            ~ In weekly_advice s /\ ~ In biweekly_advice s.
Proof.
  unfold score_advice. destruct (str_in "Test Score Trend" pr).
  - destruct (Qlt_bool 15 (f_previous_avg f - f_current_avg f));
      [|destruct (Qlt_bool 8 (f_previous_avg f - f_current_avg f))];
      eexists; (split; [reflexivity|]); (split; [reflexivity|]);
      split; intros [H|[]]; discriminate H.
  - exists []. rewrite app_nil_r. repeat split; intros [].
Qed.

Lemma fee_advice_app (f : Fields) (pr acc : list string) :
  exists s, fee_advice f pr acc = (acc ++ s)%list /\
            length s = Nat.b2n (str_in "Fee Payment" pr) /\
            ~ In weekly_advice s /\ ~ In biweekly_advice s.
Proof.
  unfold fee_advice. destruct (str_in "Fee Payment" pr).
  - destruct (90 <? f_fees_due f)%Z;
      eexists; (split; [reflexivity|]); (split; [reflexivity|]);
      split; intros [H|[]]; discriminate H.
  - exists []. rewrite app_nil_r. repeat split; intros [].
Qed.

Lemma attempts_advice_app (f : Fields) (pr acc : list string) :
  exists s, attempts_advice f pr acc = (acc ++ s)%list /\
            length s = Nat.b2n (str_in "Subject Attempts" pr) /\
            ~ In weekly_advice s /\ ~ In biweekly_advice s.
Proof.
  unfold attempts_advice. destruct (str_in "Subject Attempts" pr).
  - destruct (4 <=? f_attempts f)%Z;
      eexists; (split; [reflexivity|]); (split; [reflexivity|]);
      split; intros [H|[]]; discriminate H.
  - exists []. rewrite app_nil_r. repeat split; intros [].
Qed.

(** The four factor sentences, before the escalation sentence and the cut
    to three: one per primary risk, none of them an escalation sentence. *)
Lemma factor_advice_shape (f : Fields) (pr : list string) :
  exists s,
    attempts_advice f pr (fee_advice f pr (score_advice f pr (attendance_advice f pr [])))
      = s /\
    length s =
      (Nat.b2n (str_in "Attendance" pr) + Nat.b2n (str_in "Test Score Trend" pr) +
       Nat.b2n (str_in "Fee Payment" pr) + Nat.b2n (str_in "Subject Attempts" pr))%nat /\
    ~ In weekly_advice s /\ ~ In biweekly_advice s.
Proof.
  destruct (attendance_advice_app f pr []) as (s1 & -> & L1 & W1 & B1).
  destruct (score_advice_app f pr ([] ++ s1)) as (s2 & -> & L2 & W2 & B2).
  destruct (fee_advice_app f pr (([] ++ s1) ++ s2)) as (s3 & -> & L3 & W3 & B3).
  destruct (attempts_advice_app f pr ((([] ++ s1) ++ s2) ++ s3)) as (s4 & -> & L4 & W4 & B4).
  eexists. split; [reflexivity|].
  rewrite !length_app, L1, L2, L3, L4. cbn [length].
  split; [lia|].
  split; intros Hin; repeat (apply in_app_or in Hin as [Hin|Hin]); tauto.
Qed.

Lemma str_in_true (x : string) (l : list string) : str_in x l = true <-> In x l.
Proof.
  unfold str_in. rewrite existsb_exists. split.
  - intros (y & Hy & E). apply String.eqb_eq in E. subst y. exact Hy.
  - intros Hx. exists x. split; [exact Hx | apply String.eqb_refl].
Qed.

Lemma primary_risks_of_In (l : list RiskFactor) (name : string) :
  In name (primary_risks_of l) <->
  exists x, In x l /\ is_primary x = true /\ factor x = name.
Proof.
  unfold primary_risks_of. rewrite in_map_iff. split.
  - intros (x & Hn & Hin). apply filter_In in Hin as [Hin Hp]. eauto.
  - intros (x & Hin & Hp & Hn). exists x. split; [exact Hn|].
    apply filter_In. split; assumption.
Qed.

Lemma str_in_primary (self : RiskCalculator) (f : Fields) :
  let pr := primary_risks_of (sort_desc risk_contribution (appended self f)) in
  str_in "Attendance" pr
    = Qlt_bool 0 (attendance_risk_of f) && is_primary (attendance_factor self f) /\
  str_in "Test Score Trend" pr
    = Qlt_bool 0 (score_risk_of f) && is_primary (score_factor self f) /\
  str_in "Fee Payment" pr
    = Qlt_bool 0 (fee_risk_of f) && is_primary (fee_factor self f) /\
  str_in "Subject Attempts" pr
    = Qlt_bool 0 (attempts_risk_of f) && is_primary (attempts_factor self f).
Proof.
  cbv zeta. repeat split; apply eq_iff_eq_true;
    rewrite str_in_true, primary_risks_of_In, andb_true_iff, Qlt_bool_true;
    (split;
     [ intros (x & Hin & Hp & Hn); apply sort_desc_In, appended_In in Hin;
       destruct Hin as [[H0 ->]|[[H0 ->]|[[H0 ->]|[H0 ->]]]];
       try discriminate Hn; split; assumption
     | intros [H0 Hp]; eexists; split;
       [apply sort_desc_In, appended_In; eauto 6 | split; [exact Hp | reflexivity]] ]).
Qed.

Lemma primary_count (self : RiskCalculator) (f : Fields) :
  length (List.filter is_primary (sort_desc risk_contribution (appended self f))) =
  (Nat.b2n (Qlt_bool 0 (attendance_risk_of f) && is_primary (attendance_factor self f)) +
   Nat.b2n (Qlt_bool 0 (score_risk_of f) && is_primary (score_factor self f)) +
   Nat.b2n (Qlt_bool 0 (fee_risk_of f) && is_primary (fee_factor self f)) +
   Nat.b2n (Qlt_bool 0 (attempts_risk_of f) && is_primary (attempts_factor self f)))%nat.
Proof.
  rewrite <- (filter_length_perm _ _ _ (sort_desc_perm risk_contribution _)).
  unfold appended. rewrite !List.filter_app, !length_app.
  destruct (Qlt_bool 0 (attendance_risk_of f));
    destruct (Qlt_bool 0 (score_risk_of f));
    destruct (Qlt_bool 0 (fee_risk_of f));
    destruct (Qlt_bool 0 (attempts_risk_of f));
    cbn [List.filter andb];
    repeat match goal with
           | |- context [is_primary ?x] => destruct (is_primary x)
           end; reflexivity.
Qed.

Lemma escalation_app (l : list RiskFactor) (acc : list string) :
  escalation l acc =
    (acc ++ (if (2 <=? length (List.filter is_high l))%nat then [weekly_advice]
             else if (1 <=? length (List.filter is_high l))%nat then [biweekly_advice]
             else []))%list.
Proof.
  unfold escalation. cbv zeta. fold is_high.
  destruct (2 <=? length (List.filter is_high l))%nat; [reflexivity|].
  destruct (1 <=? length (List.filter is_high l))%nat; [reflexivity|].
  symmetry. apply app_nil_r.
Qed.

(** The recommendations of the success path, by the number of primary and
    of High factors. *)
Lemma recommendations_of_shape (self : RiskCalculator) (f : Fields) :
  let l := sort_desc risk_contribution (appended self f) in
  let nP := length (List.filter is_primary l) in
  let nH := length (List.filter is_high l) in
  length (recommendations_of f l) = Nat.min 3 (nP + Nat.b2n (1 <=? nH)%nat) /\
  (In weekly_advice (recommendations_of f l) <-> (2 <= nH)%nat /\ (nP <= 2)%nat) /\
  (In biweekly_advice (recommendations_of f l) <-> nH = 1%nat /\ (nP <= 2)%nat).
Proof.
  cbv zeta. set (l := sort_desc risk_contribution (appended self f)).
  unfold recommendations_of. cbv zeta.
  destruct (factor_advice_shape f (primary_risks_of l)) as (s & -> & Ls & Ws & Bs).
  assert (Hs : length s = length (List.filter is_primary l)).
  { rewrite Ls. unfold l. destruct (str_in_primary self f) as (-> & -> & -> & ->).
    symmetry. apply primary_count. }
  rewrite escalation_app, <- Hs.
  destruct (2 <=? length (List.filter is_high l))%nat eqn:E2;
    [apply Nat.leb_le in E2 | apply Nat.leb_gt in E2].
  - assert (E1 : (1 <=? length (List.filter is_high l))%nat = true)
      by (apply Nat.leb_le; lia).
    rewrite E1. split; [rewrite length_firstn, length_app; cbn [Nat.b2n length]; lia|].
    split.
    + rewrite (in_firstn_snoc _ _ _ Ws). lia.
    + split; [|lia]. intros Hin. apply firstn_incl in Hin.
      apply in_app_or in Hin as [Hin|[Hin|[]]]; [contradiction | discriminate Hin].
  - destruct (1 <=? length (List.filter is_high l))%nat eqn:E1;
      [apply Nat.leb_le in E1 | apply Nat.leb_gt in E1].
    + split; [rewrite length_firstn, length_app; cbn [Nat.b2n length]; lia|].
      split.
      * split; [|lia]. intros Hin. apply firstn_incl in Hin.
        apply in_app_or in Hin as [Hin|[Hin|[]]]; [contradiction | discriminate Hin].
      * rewrite (in_firstn_snoc _ _ _ Bs). lia.
    + rewrite app_nil_r.
      split; [rewrite length_firstn; cbn [Nat.b2n length]; lia|].
      split; (split; [|lia]); intros Hin; apply firstn_incl in Hin; contradiction.
Qed.

Lemma attendance_not_primary (self : RiskCalculator) (f : Fields) :
  Qlt_bool 0 (attendance_risk_of f) && is_primary (attendance_factor self f) = false ->
  attendance_risk_of f <= 2 # 15.
Proof.
  unfold attendance_risk_of, is_primary, attendance_factor, severity.
  destruct (Qlt_bool 0 (calculate_attendance_risk (f_attendance f))) eqn:E0;
    [apply Qlt_bool_true in E0 | apply Qlt_bool_false in E0; intros _; lra].
  cbn [andb].
  destruct (Qlt_bool (f_attendance f) 50) eqn:E1; [discriminate|].
  destruct (Qlt_bool (f_attendance f) 65) eqn:E2; [discriminate|].
  apply Qlt_bool_false in E2. intros _.
  unfold calculate_attendance_risk, py_max. split_comparisons; lraq.
Qed.

Lemma score_not_primary (self : RiskCalculator) (f : Fields) :
  Qlt_bool 0 (score_risk_of f) && is_primary (score_factor self f) = false ->
  score_risk_of f <= 8 # 100.
Proof.
  unfold score_risk_of, is_primary, score_factor, severity.
  destruct (Qlt_bool 0 (calculate_score_trend_risk (f_previous_avg f) (f_current_avg f)))
    eqn:E0; [apply Qlt_bool_true in E0 | apply Qlt_bool_false in E0; intros _; lra].
  cbn [andb].
  destruct (Qlt_bool 15 (f_previous_avg f - f_current_avg f)) eqn:E1; [discriminate|].
  destruct (Qlt_bool 8 (f_previous_avg f - f_current_avg f)) eqn:E2; [discriminate|].
  apply Qlt_bool_false in E2. intros _.
  unfold calculate_score_trend_risk, py_min, py_max.
  destruct (Qeq_bool (f_previous_avg f) 0 || Qeq_bool (f_current_avg f) 0); [lra|].
  cbv zeta.
  destruct (Qlt_bool ((f_previous_avg f - f_current_avg f) / 100) 0) eqn:Ei;
    [apply Qlt_bool_true in Ei | apply Qlt_bool_false in Ei];
    split_comparisons; lraq.
Qed.

Lemma fee_not_primary (self : RiskCalculator) (f : Fields) :
  Qlt_bool 0 (fee_risk_of f) && is_primary (fee_factor self f) = false ->
  fee_risk_of f <= 1 # 3.
Proof.
  unfold fee_risk_of, is_primary, fee_factor, severity.
  destruct (Qlt_bool 0 (calculate_fee_risk (f_fees_due f))) eqn:E0;
    [apply Qlt_bool_true in E0 | apply Qlt_bool_false in E0; intros _; lra].
  cbn [andb].
  destruct (90 <? f_fees_due f)%Z eqn:E1; [discriminate|].
  destruct (30 <? f_fees_due f)%Z eqn:E2; [discriminate|].
  apply Z.ltb_ge, inject_Z_le in E2. change (inject_Z 30) with 30 in E2. intros _.
  unfold calculate_fee_risk, py_min. split_comparisons; lraq.
Qed.

Lemma attempts_not_primary (self : RiskCalculator) (f : Fields) :
  Qlt_bool 0 (attempts_risk_of f) && is_primary (attempts_factor self f) = false ->
  attempts_risk_of f <= 1 # 4.
Proof.
  unfold attempts_risk_of, is_primary, attempts_factor, severity.
  destruct (Qlt_bool 0 (calculate_attempts_risk (f_attempts f))) eqn:E0;
    [apply Qlt_bool_true in E0 | apply Qlt_bool_false in E0; intros _; lra].
  cbn [andb].
  destruct (4 <=? f_attempts f)%Z eqn:E1; [discriminate|].
  destruct (3 <=? f_attempts f)%Z eqn:E2; [discriminate|].
  apply Z.leb_gt in E2. intros _.
  assert (H2 : inject_Z (f_attempts f - 1) <= 1).
  { change 1 with (inject_Z 1). apply (proj1 (inject_Z_le _ _)). lia. }
  unfold calculate_attempts_risk, py_min.
  destruct (f_attempts f <=? 1)%Z; [lra|]. split_comparisons; lraq.
Qed.

Lemma score_advice_check_ins (f : Fields) (pr acc : list string) :
  In check_ins_advice (score_advice f pr acc) ->
  In check_ins_advice acc \/
  (str_in "Test Score Trend" pr = true /\ f_previous_avg f - f_current_avg f <= 8).
Proof.
  unfold score_advice.
  destruct (str_in "Test Score Trend" pr); [|auto].
  destruct (Qlt_bool 15 (f_previous_avg f - f_current_avg f)) eqn:E1;
    [|destruct (Qlt_bool 8 (f_previous_avg f - f_current_avg f)) eqn:E2].
  - intros Hin. apply in_app_or in Hin as [Hin|[Hin|[]]]; [auto | discriminate].
  - intros Hin. apply in_app_or in Hin as [Hin|[Hin|[]]]; [auto | discriminate].
  - intros _. right. split; [reflexivity|]. apply Qlt_bool_false in E2. exact E2.
Qed.

Lemma other_advice_check_ins (f : Fields) (l : list RiskFactor) (pr acc : list string) :
  (In check_ins_advice (attendance_advice f pr acc) -> In check_ins_advice acc) /\
  (In check_ins_advice (fee_advice f pr acc) -> In check_ins_advice acc) /\
  (In check_ins_advice (attempts_advice f pr acc) -> In check_ins_advice acc) /\
  (In check_ins_advice (escalation l acc) -> In check_ins_advice acc).
Proof.
  unfold attendance_advice, fee_advice, attempts_advice, escalation.
  repeat split;
    repeat match goal with
           | |- context [if ?b then _ else _] => destruct b
           end;
    intros Hin; try exact Hin;
    apply in_app_or in Hin as [Hin|[Hin|[]]]; solve [auto | discriminate].
Qed.

Section AdviceFacts.

Context {builtins : Builtins}.

(** X11: the number of recommendations is the number of factors of
    severity Medium or High, plus one when a factor is High, capped at
    three.  The weekly-meetings sentence is returned exactly when at least
    two factors are High and at most two are Medium or High; the bi-weekly
    sentence exactly when one factor is High and at most two are Medium or
    High. *)
Theorem X11_recommendation_count_and_escalation (d : gmap string pyval)
    (self : RiskCalculator) :
  exists r,
    calculate_detailed_risk d self = (inr r, self) /\
    let nP := length (List.filter is_primary (Detailed.risk_factors r)) in
    let nH := length (List.filter is_high (Detailed.risk_factors r)) in
    length (Detailed.recommendations r) = Nat.min 3 (nP + Nat.b2n (1 <=? nH)%nat) /\
    (In weekly_advice (Detailed.recommendations r) <-> (2 <= nH)%nat /\ (nP <= 2)%nat) /\
    (In biweekly_advice (Detailed.recommendations r) <-> nH = 1%nat /\ (nP <= 2)%nat).
Proof.
  rewrite calculate_detailed_risk_run. eexists. split; [reflexivity|].
  destruct (convert d) as [e|f].
  - cbn. repeat split; try tauto; try lia; intros [? ?]; lia.
  - apply recommendations_of_shape.
Qed.

(** X12: a detailed assessment whose level is Medium or High always carries
    at least one recommendation. *)
Theorem X12_at_risk_gets_advice (d : gmap string pyval) :
  exists r,
    calculate_detailed_risk d init = (inr r, init) /\
    (Detailed.risk_level r <> Low -> Detailed.recommendations r <> []).
Proof.
  rewrite calculate_detailed_risk_run. eexists. split; [reflexivity|].
  destruct (convert d) as [e|f]; [cbn; congruence|].
  cbn [detailed_ok Detailed.risk_level Detailed.recommendations].
  intros Hlevel Hnil. apply Hlevel. clear Hlevel.
  destruct (recommendations_of_shape init f) as (Hlen & _).
  cbv zeta in Hlen. rewrite Hnil in Hlen. cbn [length] in Hlen.
  assert (HnP : length (List.filter is_primary
                          (sort_desc risk_contribution (appended init f))) = 0%nat)
    by lia.
  rewrite primary_count in HnP.
  assert (Ha : Qlt_bool 0 (attendance_risk_of f) && is_primary (attendance_factor init f)
               = false) by (destruct (_ && _); [cbn in HnP; lia | reflexivity]).
  assert (Hs : Qlt_bool 0 (score_risk_of f) && is_primary (score_factor init f)
               = false) by (destruct (_ && is_primary (score_factor init f));
                            [cbn in HnP; lia | reflexivity]).
  assert (Hf : Qlt_bool 0 (fee_risk_of f) && is_primary (fee_factor init f)
               = false) by (destruct (_ && is_primary (fee_factor init f));
                            [cbn in HnP; lia | reflexivity]).
  assert (Hn : Qlt_bool 0 (attempts_risk_of f) && is_primary (attempts_factor init f)
               = false) by (destruct (_ && is_primary (attempts_factor init f));
                            [cbn in HnP; lia | reflexivity]).
  apply attendance_not_primary in Ha. apply score_not_primary in Hs.
  apply fee_not_primary in Hf. apply attempts_not_primary in Hn.
  apply level_of_init. unfold score_of.
  cbn [weights init w_attendance w_score_trend w_fees w_attempts]. lra.
Qed.

(** X13: two sentences of [generate_recommendations] are never returned,
    whatever the input: the one for attendance from 65 per cent and the one
    for a score drop of at most 8 points. *)
Theorem X13_two_sentences_never_returned (d : gmap string pyval)
    (self : RiskCalculator) :
  exists r,
    calculate_detailed_risk d self = (inr r, self) /\
    ~ In monitor_advice (Detailed.recommendations r) /\
    ~ In check_ins_advice (Detailed.recommendations r).
Proof.
  destruct (monitor_advice_never_given d self) as (r & Hr & Hm).
  exists r. split; [exact Hr|]. split; [exact Hm|].
  rewrite calculate_detailed_risk_run in Hr. injection Hr as <-.
  destruct (convert d) as [e|f]; [intros []|].
  cbn [detailed_ok Detailed.recommendations]. unfold recommendations_of.
  intros Hin. apply firstn_incl in Hin.
  set (l := sort_desc risk_contribution (appended self f)) in *.
  apply (proj2 (proj2 (proj2 (other_advice_check_ins f l (primary_risks_of l) _)))) in Hin.
  apply (proj1 (proj2 (proj2 (other_advice_check_ins f l (primary_risks_of l) _)))) in Hin.
  apply (proj1 (proj2 (other_advice_check_ins f l (primary_risks_of l) _))) in Hin.
  apply score_advice_check_ins in Hin as [Hin|[Hpr Hle]].
  - apply (proj1 (other_advice_check_ins f l (primary_risks_of l) _)) in Hin.
    destruct Hin.
  - unfold l in Hpr. destruct (str_in_primary self f) as (_ & Hs & _).
    cbv zeta in Hs. rewrite Hs in Hpr. apply andb_true_iff in Hpr as [_ Hp].
    unfold is_primary, score_factor, severity in Hp.
    destruct (Qlt_bool 15 (f_previous_avg f - f_current_avg f)) eqn:E1;
      [apply Qlt_bool_true in E1; lra|].
    destruct (Qlt_bool 8 (f_previous_avg f - f_current_avg f)) eqn:E2;
      [apply Qlt_bool_true in E2; lra | discriminate].
Qed.

End AdviceFacts.

(** * Properties of the handlers *)

(** ** Sorting, without reference to an original order *)

Section SortMore.

Context {A : Type} (key : A -> Q).

Lemma sort_desc_length (l : list A) : length (sort_desc key l) = length l.
Proof. symmetry. apply Permutation_length, sort_desc_perm. Qed.

End SortMore.

(** ** Rounding to an integer stays between integer bounds *)

Lemma round_half_even_between (a b : Z) (x : Q) :
  inject_Z a <= x <= inject_Z b -> (a <= round_half_even x <= b)%Z.
Proof.
  intros [Ha Hb].
  pose proof (Qfloor_le x) as Hlo.
  assert (Haf : (a <= Qfloor x)%Z).
  { rewrite <- (Qfloor_Z a). apply Qfloor_resp_le, Ha. }
  assert (Hfb : (Qfloor x <= b)%Z) by (apply inject_Z_le; lra).
  unfold round_half_even. cbv zeta.
  destruct (Qlt_bool (x - inject_Z (Qfloor x)) (1 # 2)) eqn:E1; [lia|].
  apply Qlt_bool_false in E1.
  assert (Hlt : (Qfloor x < b)%Z) by (apply inject_Z_lt; lra).
  destruct (Qlt_bool (1 # 2) (x - inject_Z (Qfloor x))); [lia|].
  destruct (Z.even (Qfloor x)); lia.
Qed.

(** ** The handler monad *)

Lemma H_bind_inr {A B : Type} (m : H A) (k : A -> H B) (calc calc' : RiskCalculator)
    (a : A) :
  m calc = (inr a, calc') -> (m ≫= k) calc = k a calc'.
Proof. intros Hm. unfold mbind, H_bind. rewrite Hm. reflexivity. Qed.

Lemma H_bind_inl {A B : Type} (m : H A) (k : A -> H B) (calc calc' : RiskCalculator)
    (e : app_exn) :
  m calc = (inl e, calc') -> (m ≫= k) calc = (inl e, calc').
Proof. intros Hm. unfold mbind, H_bind. rewrite Hm. reflexivity. Qed.

Lemma filter_cons_length {A : Type} (P : A -> bool) (x : A) (l : list A) :
  length (List.filter P (x :: l)) = (Nat.b2n (P x) + length (List.filter P l))%nat.
Proof. cbn [List.filter]. destruct (P x); reflexivity. Qed.

Lemma set_risk_calc_same (app : App) : set_risk_calc app (risk_calc app) = app.
Proof. destruct app. reflexivity. Qed.

Lemma has_keys_true (keys : list string) (row : gmap string pyval) :
  has_keys keys row = true <-> forall k, In k keys -> row_has row k = true.
Proof. unfold has_keys. rewrite forallb_forall. reflexivity. Qed.

Lemma row_has_true (row : gmap string pyval) (k : string) :
  row_has row k = true <-> exists v, row !! k = Some v.
Proof.
  unfold row_has. destruct (row !! k) as [v|]; split; try discriminate; eauto.
  intros [v Hv]. discriminate.
Qed.

Section HandlerFacts.

Context {builtins : Builtins} {str_builtins : StrBuiltins}.

Lemma call_calculate_risk (row : gmap string pyval) (calc : RiskCalculator) :
  call (calculate_risk row) calc = (inr (summary_of calc row), calc).
Proof. unfold call. rewrite calculate_risk_run. reflexivity. Qed.


Lemma getitem_some (row : gmap string pyval) (k : string) (v : pyval)
    (calc : RiskCalculator) :
  row !! k = Some v -> getitem row k calc = (inr v, calc).
Proof. intros Hk. unfold getitem. rewrite Hk. reflexivity. Qed.

Lemma getitem_none (row : gmap string pyval) (k : string) (calc : RiskCalculator) :
  row !! k = None -> getitem row k calc = (inl (KeyError k), calc).
Proof. intros Hk. unfold getitem. rewrite Hk. reflexivity. Qed.

(** One pass of the loop of [get_students]. *)
Lemma student_info_of_ok (row : gmap string pyval) (calc : RiskCalculator) :
  has_keys list_keys row = true ->
  exists e, student_info_of row calc = (inr e, calc) /\ listed_for calc row e.
Proof.
  intros Hk. rewrite has_keys_true in Hk.
  assert (Hv : forall k, In k list_keys -> exists v, row !! k = Some v)
    by (intros k Hin; apply row_has_true, Hk, Hin).
  destruct (Hv "student_id") as [v1 E1]; [cbn; tauto|].
  destruct (Hv "first_name") as [v2 E2]; [cbn; tauto|].
  destruct (Hv "last_name") as [v3 E3]; [cbn; tauto|].
  destruct (Hv "attendance_percent") as [v4 E4]; [cbn; tauto|].
  destruct (Hv "fees_due_days") as [v5 E5]; [cbn; tauto|].
  destruct (Hv "last_3_tests_avg") as [v6 E6]; [cbn; tauto|].
  eexists. split.
  - unfold student_info_of.
    erewrite H_bind_inr by apply call_calculate_risk.
    erewrite H_bind_inr by (apply getitem_some; exact E1).
    erewrite H_bind_inr by (apply getitem_some; exact E2).
    erewrite H_bind_inr by (apply getitem_some; exact E3).
    cbv zeta.
    erewrite H_bind_inr by (apply getitem_some; exact E4).
    erewrite H_bind_inr by (apply getitem_some; exact E5).
    erewrite H_bind_inr by (apply getitem_some; exact E6).
    reflexivity.
  - unfold listed_for. cbn. repeat split; assumption.
Qed.

Lemma student_info_of_fail (row : gmap string pyval) (calc : RiskCalculator) :
  has_keys list_keys row = false ->
  exists k, In k list_keys /\ student_info_of row calc = (inl (KeyError k), calc).
Proof.
  intros Hk. unfold student_info_of.
  erewrite H_bind_inr by apply call_calculate_risk.
  destruct (row !! "student_id") as [v1|] eqn:E1;
    [erewrite H_bind_inr by (apply getitem_some; exact E1)
    |eexists; split; [|erewrite H_bind_inl by (apply getitem_none; exact E1); reflexivity];
     cbn; tauto].
  destruct (row !! "first_name") as [v2|] eqn:E2;
    [erewrite H_bind_inr by (apply getitem_some; exact E2)
    |eexists; split; [|erewrite H_bind_inl by (apply getitem_none; exact E2); reflexivity];
     cbn; tauto].
  destruct (row !! "last_name") as [v3|] eqn:E3;
    [erewrite H_bind_inr by (apply getitem_some; exact E3)
    |eexists; split; [|erewrite H_bind_inl by (apply getitem_none; exact E3); reflexivity];
     cbn; tauto].
  cbv zeta.
  destruct (row !! "attendance_percent") as [v4|] eqn:E4;
    [erewrite H_bind_inr by (apply getitem_some; exact E4)
    |eexists; split; [|erewrite H_bind_inl by (apply getitem_none; exact E4); reflexivity];
     cbn; tauto].
  destruct (row !! "fees_due_days") as [v5|] eqn:E5;
    [erewrite H_bind_inr by (apply getitem_some; exact E5)
    |eexists; split; [|erewrite H_bind_inl by (apply getitem_none; exact E5); reflexivity];
     cbn; tauto].
  destruct (row !! "last_3_tests_avg") as [v6|] eqn:E6;
    [|eexists; split; [|erewrite H_bind_inl by (apply getitem_none; exact E6); reflexivity];
     cbn; tauto].
  exfalso. unfold has_keys, list_keys, row_has in Hk. cbn [forallb] in Hk.
  rewrite E1, E2, E3, E4, E5, E6 in Hk. discriminate.
Qed.

Lemma for_each_student_info_ok (l : list (gmap string pyval)) (calc : RiskCalculator) :
  Forall (fun row => has_keys list_keys row = true) l ->
  exists infos,
    for_each student_info_of l calc = (inr infos, calc) /\
    Forall2 (listed_for calc) l infos.
Proof.
  induction 1 as [|row l Hrow _ IH].
  - exists []. split; [reflexivity | constructor].
  - destruct (student_info_of_ok row calc Hrow) as (e & He & Hl).
    destruct IH as (infos & Hi & Hf).
    exists (e :: infos). split; [|constructor; assumption].
    cbn [for_each].
    erewrite H_bind_inr by exact He.
    erewrite H_bind_inr by exact Hi. reflexivity.
Qed.

Lemma for_each_student_info_fail (l : list (gmap string pyval)) (calc : RiskCalculator) :
  Exists (fun row => has_keys list_keys row = false) l ->
  exists k, In k list_keys /\
            for_each student_info_of l calc = (inl (KeyError k), calc).
Proof.
  induction l as [|row l IH]; intros Hex; [inversion Hex|].
  cbn [for_each].
  destruct (has_keys list_keys row) eqn:Hrow.
  - destruct (student_info_of_ok row calc Hrow) as (e & He & _).
    erewrite H_bind_inr by exact He.
    destruct IH as (k & Hk & Hf).
    { inversion Hex; subst; [congruence | assumption]. }
    exists k. split; [exact Hk|]. erewrite H_bind_inl by exact Hf. reflexivity.
  - destruct (student_info_of_fail row calc Hrow) as (k & Hk & Hf).
    exists k. split; [exact Hk|]. erewrite H_bind_inl by exact Hf. reflexivity.
Qed.

(** What [get_students] does on data that has the columns it reads. *)
Lemma get_students_run (app : App) (user : string) (df : DataFrame) :
  session app !! "user_id" = Some user ->
  students_data app = Some df ->
  Forall (fun row => has_keys list_keys row = true) (rows df) ->
  exists infos,
    get_students app =
      (Ok {| students := sort_desc StudentInfo.risk_score infos;
             total_count := length (sort_desc StudentInfo.risk_score infos) |}, app) /\
    Forall2 (listed_for (risk_calc app)) (rows df) infos.
Proof.
  intros Hs Hd Hk. unfold get_students. rewrite Hs, Hd.
  destruct (for_each_student_info_ok (rows df) (risk_calc app) Hk) as (infos & Hi & Hf).
  unfold get_students_body.
  erewrite H_bind_inr by exact Hi. cbn [mret H_ret]. rewrite set_risk_calc_same.
  exists infos. split; [reflexivity | exact Hf].
Qed.

(** One pass of the loop of [get_summary]. *)
Lemma summary_step_ok (c : RiskCounts) (a : list AttendanceStat) (t : list ScoreTrend)
    (row : gmap string pyval) (calc : RiskCalculator) :
  has_keys summary_keys row = true ->
  exists x y,
    summary_step (c, a, t) row calc =
      (inr (counts_incr c (Summary.risk_level (summary_of calc row)),
            (a ++ [x])%list, (t ++ [y])%list), calc) /\
    attendance_stat_for row x /\ score_trend_for row y.
Proof.
  intros Hk. rewrite has_keys_true in Hk.
  assert (Hv : forall k, In k summary_keys -> exists v, row !! k = Some v)
    by (intros k Hin; apply row_has_true, Hk, Hin).
  destruct (Hv "student_id") as [v1 E1]; [cbn; tauto|].
  destruct (Hv "attendance_percent") as [v2 E2]; [cbn; tauto|].
  destruct (Hv "previous_3_tests_avg") as [v3 E3]; [cbn; tauto|].
  destruct (Hv "last_3_tests_avg") as [v4 E4]; [cbn; tauto|].
  do 2 eexists. split.
  - unfold summary_step.
    erewrite H_bind_inr by apply call_calculate_risk. cbv zeta.
    erewrite H_bind_inr by (apply getitem_some; exact E1).
    erewrite H_bind_inr by (apply getitem_some; exact E2).
    erewrite H_bind_inr by (apply getitem_some; exact E1).
    erewrite H_bind_inr by (apply getitem_some; exact E3).
    erewrite H_bind_inr by (apply getitem_some; exact E4).
    reflexivity.
  - split; [split; assumption | repeat split; assumption].
Qed.

Lemma counts_get_incr (c : RiskCounts) (l l' : level) :
  counts_get (counts_incr c l) l' =
    (counts_get c l' + Nat.b2n (level_eqb l l'))%nat.
Proof. destruct l, l'; cbn; lia. Qed.

Lemma for_loop_summary_ok (l : list (gmap string pyval)) (calc : RiskCalculator) :
  Forall (fun row => has_keys summary_keys row = true) l ->
  forall (c : RiskCounts) (a : list AttendanceStat) (t : list ScoreTrend),
  exists c' xs ys,
    for_loop summary_step l (c, a, t) calc =
      (inr (c', (a ++ xs)%list, (t ++ ys)%list), calc) /\
    (forall lv, counts_get c' lv =
       (counts_get c lv + length (List.filter (row_at calc lv) l))%nat) /\
    Forall2 attendance_stat_for l xs /\
    Forall2 score_trend_for l ys.
Proof.
  induction 1 as [|row l Hrow _ IH]; intros c a t.
  - exists c, [], []. rewrite !app_nil_r. split; [reflexivity|].
    split; [intros lv; cbn; lia|]. split; constructor.
  - destruct (summary_step_ok c a t row calc Hrow) as (x & y & Hstep & Hx & Hy).
    destruct (IH (counts_incr c (Summary.risk_level (summary_of calc row)))
                 (a ++ [x])%list (t ++ [y])%list)
      as (c' & xs & ys & Hloop & Hc & Hxs & Hys).
    exists c', (x :: xs), (y :: ys). split.
    + cbn [for_loop]. erewrite H_bind_inr by exact Hstep.
      rewrite Hloop, <- !app_assoc. reflexivity.
    + split; [|split; constructor; assumption].
      intros lv. rewrite Hc, counts_get_incr, filter_cons_length.
      unfold row_at. lia.
Qed.

Lemma percentage_bounds (h n : nat) :
  (h <= n)%nat -> (0 < n)%nat ->
  0 <= round1 (inject_Z (Z.of_nat h) / inject_Z (Z.of_nat n) * 100) <= 100.
Proof.
  intros Hh Hn.
  assert (H0 : 0 <= inject_Z (Z.of_nat h)) by (apply inject_Z_nonneg; lia).
  assert (Hpos : 0 < inject_Z (Z.of_nat n)).
  { change 0 with (inject_Z 0). apply (proj1 (inject_Z_lt _ _)). lia. }
  assert (Hle : inject_Z (Z.of_nat h) <= inject_Z (Z.of_nat n))
    by (apply (proj1 (inject_Z_le _ _)); lia).
  assert (Hr0 : 0 <= inject_Z (Z.of_nat h) / inject_Z (Z.of_nat n)).
  { apply Qle_shift_div_l; [exact Hpos | lra]. }
  assert (Hr1 : inject_Z (Z.of_nat h) / inject_Z (Z.of_nat n) <= 1).
  { apply Qle_shift_div_r; [exact Hpos | lra]. }
  set (ratio := inject_Z (Z.of_nat h) / inject_Z (Z.of_nat n)) in *.
  destruct (round_half_even_between 0 1000 (ratio * 100 * 10)) as [Hlo Hhi].
  { change (inject_Z 0) with 0. change (inject_Z 1000) with 1000. lra. }
  apply (proj1 (inject_Z_le _ _)) in Hlo. apply (proj1 (inject_Z_le _ _)) in Hhi.
  change (inject_Z 0) with 0 in Hlo. change (inject_Z 1000) with 1000 in Hhi.
  unfold round1. unfold Qdiv. change (/ 10) with (1 # 10). lra.
Qed.

(** What [get_summary] does on data that has the columns it reads. *)
Lemma get_summary_run (app : App) (user : string) (df : DataFrame) :
  session app !! "user_id" = Some user ->
  students_data app = Some df ->
  rows df <> [] ->
  Forall (fun row => has_keys summary_keys row = true) (rows df) ->
  exists c xs ys,
    get_summary app =
      (Ok {| total_students := length (rows df);
             risk_distribution := c;
             attendance_stats := xs;
             score_trends := ys;
             high_risk_percentage :=
               round1 (inject_Z (Z.of_nat (counts_get c High))
                         / inject_Z (Z.of_nat (length (rows df))) * 100) |}, app) /\
    (forall lv, counts_get c lv =
       length (List.filter (row_at (risk_calc app) lv) (rows df))) /\
    Forall2 attendance_stat_for (rows df) xs /\
    Forall2 score_trend_for (rows df) ys.
Proof.
  intros Hs Hd Hne Hk. unfold get_summary. rewrite Hs, Hd.
  destruct (for_loop_summary_ok (rows df) (risk_calc app) Hk
              {| count_Low := 0; count_Medium := 0; count_High := 0 |} [] [])
    as (c & xs & ys & Hloop & Hc & Hxs & Hys).
  unfold get_summary_body. cbv zeta.
  erewrite H_bind_inr by exact Hloop. cbn [List.app].
  unfold py_truediv.
  destruct (Z.of_nat (length (rows df)) =? 0)%Z eqn:E.
  { apply Z.eqb_eq in E. destruct (rows df); [congruence | cbn in E; lia]. }
  unfold mbind, H_bind, mret, H_ret. rewrite set_risk_calc_same.
  exists c, xs, ys. split; [reflexivity|].
  split; [|split; assumption].
  intros lv. rewrite Hc. destruct lv; reflexivity.
Qed.

Lemma get_students_missing (app : App) (user : string) (df : DataFrame) :
  session app !! "user_id" = Some user ->
  students_data app = Some df ->
  Exists (fun row => has_keys list_keys row = false) (rows df) ->
  exists msg, get_students app = (Failed 500 msg, app).
Proof.
  intros Hs Hd Hex. unfold get_students. rewrite Hs, Hd.
  destruct (for_each_student_info_fail (rows df) (risk_calc app) Hex) as (k & _ & Hf).
  unfold get_students_body. erewrite H_bind_inl by exact Hf.
  rewrite set_risk_calc_same. eexists. reflexivity.
Qed.

(** X17: for a logged-in user and loaded data without rows, [get_summary]
    answers with status 500, from the division by the number of rows,
    while [get_students] answers with the empty list; neither changes the
    state. *)
Theorem X17_summary_of_no_rows_fails (app : App) (user : string) (df : DataFrame) :
  session app !! "user_id" = Some user ->
  students_data app = Some df ->
  rows df = [] ->
  get_summary app = (Failed 500 "Error generating summary: division by zero", app) /\
  get_students app = (Ok {| students := []; total_count := 0 |}, app).
Proof.
  intros Hs Hd Hr. unfold get_summary, get_students. rewrite Hs, Hd.
  unfold get_summary_body, get_students_body. rewrite Hr.
  destruct app. split; reflexivity.
Qed.

Lemma listed_at_count (calc : RiskCalculator) (lv : level)
    (l : list (gmap string pyval)) (infos : list StudentInfo.t) :
  Forall2 (listed_for calc) l infos ->
  length (List.filter (listed_at lv) infos) = length (List.filter (row_at calc lv) l).
Proof.
  induction 1 as [|row e l infos Hl _ IH]; [reflexivity|].
  rewrite !filter_cons_length, IH. f_equal. unfold listed_at, row_at.
  destruct Hl as (_ & _ & _ & _ & _ & _ & _ & _ & _ & -> & _). reflexivity.
Qed.

(** X18: on data for which both handlers answer, the summary and the
    student list agree: the number the summary gives for a level is the
    number of entries of the list at that level. *)
Theorem X18_summary_agrees_with_list (app : App) (user : string) (df : DataFrame) :
  session app !! "user_id" = Some user ->
  students_data app = Some df ->
  rows df <> [] ->
  Forall (fun row => has_keys list_keys row = true) (rows df) ->
  Forall (fun row => has_keys summary_keys row = true) (rows df) ->
  exists stats listing,
    get_summary app = (Ok stats, app) /\
    get_students app = (Ok listing, app) /\
    total_students stats = total_count listing /\
    forall lv, counts_get (risk_distribution stats) lv =
               length (List.filter (listed_at lv) (students listing)).
Proof.
  intros Hs Hd Hne Hkl Hks.
  destruct (get_summary_run app user df Hs Hd Hne Hks) as (c & xs & ys & Hrun & Hc & _).
  destruct (get_students_run app user df Hs Hd Hkl) as (infos & Hlist & Hf).
  do 2 eexists. split; [exact Hrun|]. split; [exact Hlist|].
  cbn [total_students total_count risk_distribution students].
  split.
  - rewrite sort_desc_length. eapply Forall2_length. exact Hf.
  - intros lv. rewrite Hc.
    rewrite <- (filter_length_perm _ _ _ (sort_desc_perm StudentInfo.risk_score infos)).
    symmetry. apply listed_at_count, Hf.
Qed.

(** ** Notes *)

(** The state after a note was added. *)
Lemma add_student_note_run (app : App) (user student_id : string)
    (body_note : option string) (now : string) :
  let text := strip (match body_note with Some t => t | None => EmptyString end) in
  let new_note := {| timestamp := now; mentor_id := user; note := text |} in
  let old := match load_student_notes app !! student_id with
             | Some l => l
             | None => []
             end in
  session app !! "user_id" = Some user ->
  text <> EmptyString ->
  add_student_note app student_id body_note now =
    (Ok {| na_message := "Note added successfully"; na_note := new_note |},
     set_notes_file app (<[student_id := (old ++ [new_note])%list]>
                           (load_student_notes app))).
Proof.
  cbv zeta. intros Hs Ht. unfold add_student_note. rewrite Hs.
  destruct (String.eqb _ EmptyString) eqn:E; [apply String.eqb_eq in E; contradiction|].
  unfold save_student_notes.
  destruct (load_student_notes app !! student_id) as [l|] eqn:El.
  - rewrite El. reflexivity.
  - rewrite lookup_insert_eq, insert_insert_eq. reflexivity.
Qed.

(** X19: for a logged-in user, a note that is not blank is appended at the
    end of the notes of that student in the notes file, stripped, with the
    given time and the user of the session; the earlier notes of the
    student and the notes of every other student are kept; the session,
    the data and the calculator are not changed.  The student need not
    exist in the data. *)
Theorem X19_note_is_appended (app : App) (user student_id : string)
    (body_note : option string) (now : string) :
  let text := strip (match body_note with Some t => t | None => EmptyString end) in
  let new_note := {| timestamp := now; mentor_id := user; note := text |} in
  let old := match load_student_notes app !! student_id with
             | Some l => l
             | None => []
             end in
  session app !! "user_id" = Some user ->
  text <> EmptyString ->
  exists app',
    add_student_note app student_id body_note now =
      (Ok {| na_message := "Note added successfully"; na_note := new_note |}, app') /\
    load_student_notes app' !! student_id = Some (old ++ [new_note])%list /\
    (forall other, other <> student_id ->
       load_student_notes app' !! other = load_student_notes app !! other) /\
    session app' = session app /\
    students_data app' = students_data app /\
    risk_calc app' = risk_calc app.
Proof.
  cbv zeta. intros Hs Ht.
  rewrite (add_student_note_run app user student_id body_note now Hs Ht).
  eexists. split; [reflexivity|].
  unfold load_student_notes at 1 3. cbn [set_notes_file notes_file].
  split; [apply lookup_insert_eq|].
  split; [intros other Hne; apply lookup_insert_ne; congruence|].
  cbn. auto.
Qed.






(** ** Uploads *)

Lemma missing_cols_nil (cols : list string) :
  List.filter (fun col => negb (str_in col cols)) required_cols = [] <->
  forall c, In c required_cols -> In c cols.
Proof.
  split.
  - intros Hnil c Hc. apply str_in_true.
    destruct (str_in c cols) eqn:E; [reflexivity|].
    assert (Hin : In c (List.filter (fun col => negb (str_in col cols)) required_cols)).
    { apply filter_In. split; [exact Hc | rewrite E; reflexivity]. }
    rewrite Hnil in Hin. destruct Hin.
  - intros Hall.
    destruct (List.filter (fun col => negb (str_in col cols)) required_cols)
      as [|c l] eqn:E; [reflexivity|].
    assert (Hin : In c (List.filter (fun col => negb (str_in col cols)) required_cols))
      by (rewrite E; left; reflexivity).
    apply filter_In in Hin as [Hc Hneg].
    apply Hall, str_in_true in Hc. rewrite Hc in Hneg. discriminate.
Qed.

Lemma upload_csv_missing (app : App) (user : string) (file : Upload) (df : DataFrame)
    (c : string) :
  session app !! "user_id" = Some user ->
  filename file <> EmptyString ->
  endswith (lower (filename file)) ".csv" = true ->
  content file = inr df ->
  In c required_cols -> ~ In c (columns df) ->
  exists msg, upload_csv app (Some file) = (Failed 400 msg, set_students_data app df).
Proof.
  intros Hs Hn He Hc Hin Hnot. unfold upload_csv. rewrite Hs.
  destruct (String.eqb (filename file) EmptyString) eqn:E;
    [apply String.eqb_eq in E; contradiction|].
  rewrite He, Hc. cbv zeta.
  destruct (List.filter (fun col => negb (str_in col (columns df))) required_cols)
    as [|c' l] eqn:Em; [|eexists; reflexivity].
  exfalso. apply Hnot. apply (proj1 (missing_cols_nil (columns df)) Em), Hin.
Qed.

(** X22: for a logged-in user and a file with a name ending in [.csv] that
    [pd.read_csv] can read, the data of the file replaces the loaded data
    whether or not the upload is accepted; it is accepted exactly when the
    file has the eight required columns, and answered with status 400
    otherwise. *)
Theorem X22_upload_replaces_data_before_validation (app : App) (user : string)
    (file : Upload) (df : DataFrame) :
  session app !! "user_id" = Some user ->
  filename file <> EmptyString ->
  endswith (lower (filename file)) ".csv" = true ->
  content file = inr df ->
  snd (upload_csv app (Some file)) = set_students_data app df /\
  ((exists u, fst (upload_csv app (Some file)) = Ok u) <->
   (forall c, In c required_cols -> In c (columns df))) /\
  ((exists msg, fst (upload_csv app (Some file)) = Failed 400 msg) <->
   (exists c, In c required_cols /\ ~ In c (columns df))).
Proof.
  intros Hs Hn He Hc. unfold upload_csv. rewrite Hs.
  destruct (String.eqb (filename file) EmptyString) eqn:E;
    [apply String.eqb_eq in E; contradiction|].
  rewrite He, Hc. cbv zeta.
  pose proof (missing_cols_nil (columns df)) as Hnil.
  destruct (List.filter (fun col => negb (str_in col (columns df))) required_cols)
    as [|c l] eqn:Em; cbn [fst snd].
  - split; [reflexivity|]. split.
    + split; [intros _; apply Hnil; reflexivity | intros _; eexists; reflexivity].
    + split; [intros [msg Hm]; discriminate|].
      intros (c & Hc1 & Hc2). exfalso. apply Hc2, Hnil; [reflexivity | exact Hc1].
  - split; [reflexivity|]. split.
    + split; [intros [u Hu]; discriminate|].
      intros Hall. apply Hnil in Hall. discriminate.
    + split; [|intros _; eexists; reflexivity].
      intros _. exists c.
      assert (Hin : In c (List.filter (fun col => negb (str_in col (columns df)))
                            required_cols)) by (rewrite Em; left; reflexivity).
      apply filter_In in Hin as [Hc1 Hc2]. split; [exact Hc1|].
      intros Hc3. apply str_in_true in Hc3. rewrite Hc3 in Hc2. discriminate.
Qed.

(** X24: an upload that was rejected for a missing column is in use all
    the same: when the frame is as pandas makes it, has a row, and lacks
    one of the columns [get_students] reads, the upload is answered with
    status 400 and [get_students] afterwards with status 500. *)
Theorem X24_rejected_upload_breaks_the_list (app : App) (user : string)
    (file : Upload) (df : DataFrame) (c : string) :
  session app !! "user_id" = Some user ->
  filename file <> EmptyString ->
  endswith (lower (filename file)) ".csv" = true ->
  content file = inr df ->
  frame_ok df ->
  rows df <> [] ->
  In c list_keys ->
  ~ In c (columns df) ->
  exists msg msg' app',
    upload_csv app (Some file) = (Failed 400 msg, app') /\
    students_data app' = Some df /\
    get_students app' = (Failed 500 msg', app').
Proof.
  intros Hs Hn He Hc Hok Hne Hin Hnot.
  destruct (upload_csv_missing app user file df c Hs Hn He Hc) as [msg Hmsg];
    [unfold list_keys in Hin; unfold required_cols; cbn [In] in *; tauto | exact Hnot |].
  set (app' := set_students_data app df) in *.
  assert (Hs' : session app' !! "user_id" = Some user) by exact Hs.
  assert (Hd' : students_data app' = Some df) by reflexivity.
  destruct (get_students_missing app' user df Hs' Hd') as [msg' Hmsg'].
  { destruct (rows df) as [|row l] eqn:Er; [congruence|].
    apply Exists_cons_hd.
    destruct (has_keys list_keys row) eqn:Ek; [|reflexivity].
    exfalso. apply Hnot. apply (Hok row c); [rewrite Er; left; reflexivity|].
    rewrite has_keys_true in Ek. apply Ek, Hin. }
  exists msg, msg', app'. split; [exact Hmsg|]. split; [reflexivity | exact Hmsg'].
Qed.

(** ** Access *)

(** Without a [user_id] in the session, as after [logout], each of the five
    handlers answers with status 401 whatever its arguments and the loaded
    data, and leaves the data, the notes file and the calculator as they
    are. *)
Lemma no_access_without_login (app : App) (student_id : string)
    (body_note : option string) (now : string) (file : option Upload) :
  session app !! "user_id" = None ->
  get_students app = (Failed 401 "Unauthorized", app) /\
  get_summary app = (Failed 401 "Unauthorized", app) /\
  get_student_detail app student_id = (Failed 401 "Unauthorized", app) /\
  add_student_note app student_id body_note now = (Failed 401 "Unauthorized", app) /\
  upload_csv app file = (Failed 401 "Unauthorized", app) /\
  session (logout app) !! "user_id" = None /\
  students_data (logout app) = students_data app /\
  notes_file (logout app) = notes_file app.
Proof.
  intros Hs.
  unfold get_students, get_summary, get_student_detail, add_student_note, upload_csv.
  rewrite Hs. repeat split.
Qed.

End HandlerFacts.

(** ** Closed runs of the handlers *)

(** The sample data listed: the student rated High first, then the two
    with score 0.006 and 0. *)
Example sample_listing :
  exists body,
    @get_students decimal_builtins sample_app = (Ok body, sample_app) /\
    List.map StudentInfo.student_id (students body)
      = [PyStr "S002"; PyStr "S001"; PyStr "S003"] /\
    List.map StudentInfo.risk_level (students body) = [High; Low; Low] /\
    total_count body = 3%nat.
Proof. eexists. split; [vm_compute; reflexivity|]. repeat split. Qed.

Lemma sample_rows_have_list_keys :
  Forall (fun row => has_keys list_keys row = true) (rows sample_frame).
Proof. repeat constructor. Qed.

Lemma sample_rows_have_summary_keys :
  Forall (fun row => has_keys summary_keys row = true) (rows sample_frame).
Proof. repeat constructor. Qed.

Ltac frame_rows :=
  let row := fresh "row" in
  let key := fresh "key" in
  let Hin := fresh "Hin" in
  intros row key Hin; cbn in Hin;
  repeat (destruct Hin as [<-|Hin]; [|]); try contradiction;
  unfold row_has, student_row;
  rewrite ?lookup_delete, ?lookup_insert, ?lookup_empty;
  repeat case_decide; subst; cbn; split; intros Hx;
  try reflexivity; try discriminate; try tauto;
  repeat (destruct Hx as [Hx|Hx]; [congruence|]); try contradiction.

Lemma frame_without_fees_ok : frame_ok frame_without_fees.
Proof. frame_rows. Qed.

Lemma X17_witness :
  @get_summary decimal_builtins empty_app
    = (Failed 500 "Error generating summary: division by zero", empty_app) /\
  @get_students decimal_builtins empty_app
    = (Ok {| students := []; total_count := 0 |}, empty_app).
Proof.
  exact (@X17_summary_of_no_rows_fails decimal_builtins empty_app "mentor"
           {| columns := required_cols; rows := [] |} eq_refl eq_refl eq_refl).
Defined.

Lemma X18_witness :
  exists stats listing,
    @get_summary decimal_builtins sample_app = (Ok stats, sample_app) /\
    @get_students decimal_builtins sample_app = (Ok listing, sample_app) /\
    total_students stats = total_count listing /\
    forall lv, counts_get (risk_distribution stats) lv =
               length (List.filter (listed_at lv) (students listing)).
Proof.
  exact (@X18_summary_agrees_with_list decimal_builtins sample_app "mentor" sample_frame
           eq_refl eq_refl ltac:(discriminate) sample_rows_have_list_keys
           sample_rows_have_summary_keys).
Defined.

Lemma X19_witness :
  exists app',
    @add_student_note ascii_str_builtins sample_app "S002" (Some "  Called the parents ")
      "2024-09-01T10:00:00"
      = (Ok {| na_message := "Note added successfully";
               na_note := {| timestamp := "2024-09-01T10:00:00"; mentor_id := "mentor";
                             note := "Called the parents" |} |}, app') /\
    load_student_notes app' !! "S002"
      = Some [{| timestamp := "2024-09-01T10:00:00"; mentor_id := "mentor";
                 note := "Called the parents" |}].
Proof.
  destruct (@X19_note_is_appended ascii_str_builtins sample_app "mentor" "S002"
              (Some "  Called the parents ") "2024-09-01T10:00:00" eq_refl
              ltac:(discriminate))
    as (app' & Hrun & Hnew & _).
  exists app'. split; [exact Hrun | exact Hnew].
Defined.


Lemma X22_witness :
  snd (@upload_csv ascii_str_builtins sample_app (Some upload_without_fees))
    = set_students_data sample_app frame_without_fees /\
  exists msg,
    fst (@upload_csv ascii_str_builtins sample_app (Some upload_without_fees))
      = Failed 400 msg.
Proof.
  destruct (@X22_upload_replaces_data_before_validation ascii_str_builtins sample_app
              "mentor" upload_without_fees frame_without_fees eq_refl
              ltac:(discriminate) eq_refl eq_refl) as (Hst & _ & Hfail).
  split; [exact Hst|]. apply Hfail. exists "fees_due_days".
  split; [cbn; tauto|]. cbn. intros H.
  repeat (destruct H as [H|H]; [discriminate H|]). exact H.
Defined.

Lemma X24_witness :
  exists msg msg' app',
    @upload_csv ascii_str_builtins sample_app (Some upload_without_fees)
      = (Failed 400 msg, app') /\
    students_data app' = Some frame_without_fees /\
    @get_students decimal_builtins app' = (Failed 500 msg', app').
Proof.
  apply (@X24_rejected_upload_breaks_the_list decimal_builtins ascii_str_builtins
           sample_app "mentor" upload_without_fees frame_without_fees "fees_due_days").
  - reflexivity.
  - discriminate.
  - reflexivity.
  - reflexivity.
  - exact frame_without_fees_ok.
  - discriminate.
  - cbn. tauto.
  - cbn. intros H. repeat (destruct H as [H|H]; [discriminate H|]). exact H.
Defined.


(** * Properties on every float *)

(** ** Results too large for a float *)

Lemma float_limit_pos : (0 < float_limit)%Z.
Proof. reflexivity. Qed.

Lemma too_large_true (q : Q) : too_large q = true <-> inject_Z float_limit <= Qabs q.
Proof. unfold too_large. apply Qle_bool_iff. Qed.

Lemma too_large_false (q : Q) : too_large q = false <-> Qabs q < inject_Z float_limit.
Proof. unfold too_large. apply Qle_bool_false. Qed.

Lemma Qabs_inject_Z (z : Z) : Qabs (inject_Z z) = inject_Z (Z.abs z).
Proof. reflexivity. Qed.

Lemma Qabs_quotient (a k : Z) :
  (0 < k)%Z -> Qabs (inject_Z a / inject_Z k) == inject_Z (Z.abs a) / inject_Z k.
Proof.
  intros Hk. unfold Qdiv. rewrite Qabs_Qmult, Qabs_Qinv, !Qabs_inject_Z.
  rewrite (Z.abs_eq k) by lia. reflexivity.
Qed.

(** The division of two ints overflows exactly when the dividend has at
    least the magnitude of the limit times the divisor. *)
Lemma too_large_quotient (a k : Z) :
  (0 < k)%Z ->
  too_large (inject_Z a / inject_Z k) = true <-> (k * float_limit <= Z.abs a)%Z.
Proof.
  intros Hk. rewrite too_large_true, (Qabs_quotient a k Hk).
  assert (Hq : 0 < inject_Z k).
  { change 0 with (inject_Z 0). apply (proj1 (inject_Z_lt _ _)). exact Hk. }
  rewrite inject_Z_le, inject_Z_mult. split.
  - intros H. apply (Qmult_le_r _ _ (inject_Z k)) in H; [|exact Hq].
    unfold Qdiv in H. rewrite <- Qmult_assoc, (Qmult_comm (/ inject_Z k)) in H.
    rewrite Qmult_inv_r, Qmult_1_r in H by lra. lra.
  - intros H. apply Qle_shift_div_l; [exact Hq | lra].
Qed.

Lemma int_truediv_overflow (a k : Z) :
  (0 < k)%Z -> (k * float_limit <= Z.abs a)%Z ->
  int_truediv a k = inl (OverflowError DivisionTooLarge).
Proof.
  intros Hk Ha. unfold int_truediv. cbv zeta.
  rewrite (proj2 (too_large_quotient a k Hk) Ha). reflexivity.
Qed.

Lemma int_truediv_in_range (a k : Z) :
  (0 < k)%Z -> (Z.abs a < k * float_limit)%Z ->
  int_truediv a k = inr (inject_Z a / inject_Z k).
Proof.
  intros Hk Ha. unfold int_truediv. cbv zeta.
  destruct (too_large (inject_Z a / inject_Z k)) eqn:E; [|reflexivity].
  apply too_large_quotient in E; [lia | exact Hk].
Qed.

(** ** The component risks *)

(** [calculate_fee_risk] raises from [fee_overflow_from] days on, in either
    direction, and below that returns the minimum of the quotient and 1. *)
Lemma calculate_fee_risk_x_overflow (n : Z) :
  (fee_overflow_from <= Z.abs n)%Z ->
  calculate_fee_risk_x n = inl (OverflowError DivisionTooLarge).
Proof.
  intros Hn. unfold calculate_fee_risk_x.
  rewrite int_truediv_overflow; [reflexivity | lia | exact Hn].
Qed.

Lemma calculate_fee_risk_x_in_range (n : Z) :
  (Z.abs n < fee_overflow_from)%Z ->
  calculate_fee_risk_x n = inr (calculate_fee_risk n).
Proof.
  intros Hn. unfold calculate_fee_risk_x.
  rewrite int_truediv_in_range; [reflexivity | lia | exact Hn].
Qed.

Lemma calculate_fee_risk_x_cases (n : Z) :
  ((fee_overflow_from <= Z.abs n)%Z /\
   calculate_fee_risk_x n = inl (OverflowError DivisionTooLarge)) \/
  ((Z.abs n < fee_overflow_from)%Z /\
   calculate_fee_risk_x n = inr (calculate_fee_risk n)).
Proof.
  destruct (Z_le_gt_dec fee_overflow_from (Z.abs n)) as [H|H].
  - left. split; [exact H | apply calculate_fee_risk_x_overflow, H].
  - right. split; [lia | apply calculate_fee_risk_x_in_range; lia].
Qed.

Lemma calculate_attempts_risk_x_overflow (n : Z) :
  (attempts_overflow_from <= n)%Z ->
  calculate_attempts_risk_x n = inl (OverflowError DivisionTooLarge).
Proof.
  intros Hn. pose proof float_limit_pos as Hpos.
  unfold attempts_overflow_from in Hn. unfold calculate_attempts_risk_x.
  destruct (n <=? 1)%Z eqn:E; [apply Z.leb_le in E; lia|].
  rewrite int_truediv_overflow; [reflexivity | lia | lia].
Qed.

Lemma calculate_attempts_risk_x_in_range (n : Z) :
  (n < attempts_overflow_from)%Z ->
  calculate_attempts_risk_x n = inr (calculate_attempts_risk n).
Proof.
  intros Hn. unfold attempts_overflow_from in Hn.
  unfold calculate_attempts_risk_x, calculate_attempts_risk.
  destruct (n <=? 1)%Z eqn:E; [reflexivity|]. apply Z.leb_gt in E.
  rewrite int_truediv_in_range; [reflexivity | lia | lia].
Qed.

Lemma calculate_attempts_risk_x_cases (n : Z) :
  ((attempts_overflow_from <= n)%Z /\
   calculate_attempts_risk_x n = inl (OverflowError DivisionTooLarge)) \/
  ((n < attempts_overflow_from)%Z /\
   calculate_attempts_risk_x n = inr (calculate_attempts_risk n)).
Proof.
  destruct (Z_le_gt_dec attempts_overflow_from n) as [H|H].
  - left. split; [exact H | apply calculate_attempts_risk_x_overflow, H].
  - right. split; [lia | apply calculate_attempts_risk_x_in_range; lia].
Qed.

(** The two divisions raise nothing but [OverflowError]. *)
Lemma calculate_fee_risk_x_raises (n : Z) (e : exn_x) :
  calculate_fee_risk_x n = inl e -> e = OverflowError DivisionTooLarge.
Proof.
  destruct (calculate_fee_risk_x_cases n) as [[_ H]|[_ H]]; rewrite H; congruence.
Qed.

Lemma calculate_attempts_risk_x_raises (n : Z) (e : exn_x) :
  calculate_attempts_risk_x n = inl e -> e = OverflowError DivisionTooLarge.
Proof.
  destruct (calculate_attempts_risk_x_cases n) as [[_ H]|[_ H]]; rewrite H; congruence.
Qed.

(** On finite floats the two other component risks are those of the
    idealised arithmetic. *)
Lemma calculate_attendance_risk_x_finite (a : Q) :
  calculate_attendance_risk_x (Float a) = Float (calculate_attendance_risk a).
Proof.
  unfold calculate_attendance_risk_x, calculate_attendance_risk, fmax, py_max.
  cbn [fle fsub fneg fadd fdiv flt].
  destruct (Qle_bool 75 a); [reflexivity|].
  change (75 + - a) with (75 - a).
  destruct (Qlt_bool 0 ((75 - a) / 75)); reflexivity.
Qed.

Lemma calculate_score_trend_risk_x_finite (p c : Q) :
  calculate_score_trend_risk_x (Float p) (Float c) =
    Float (calculate_score_trend_risk p c).
Proof.
  unfold calculate_score_trend_risk_x, calculate_score_trend_risk, fmax, fmin,
    py_max, py_min.
  cbn [feq fle fsub fneg fadd fdiv flt].
  destruct (Qeq_bool p 0 || Qeq_bool c 0); [reflexivity|].
  cbv zeta. change (p + - c) with (p - c).
  destruct (Qle_bool (p - c) 0); [reflexivity|].
  destruct (Qlt_bool ((p - c) / 100) 0); cbn [flt];
    [destruct (Qlt_bool 1 0) | destruct (Qlt_bool 1 ((p - c) / 100))]; reflexivity.
Qed.

(** ** The monad *)

Lemma bind_inr_x {A B : Type} (m : Mx A) (k : A -> Mx B) (self self' : RiskCalculator)
    (a : A) :
  m self = (inr a, self') -> (m ≫= k) self = k a self'.
Proof. intros H. unfold mbind, Mx_bind. rewrite H. reflexivity. Qed.

Lemma bind_inl_x {A B : Type} (m : Mx A) (k : A -> Mx B) (self self' : RiskCalculator)
    (e : exn_x) :
  m self = (inl e, self') -> (m ≫= k) self = (inl e, self').
Proof. intros H. unfold mbind, Mx_bind. rewrite H. reflexivity. Qed.

Lemma try_except_x_run {A : Type} (body : Mx A) (handler : exn_x -> Mx A)
    (failed : exn_x -> A) (r : exn_x + A) (self : RiskCalculator) :
  body self = (r, self) ->
  (forall e, handler e self = (inr (failed e), self)) ->
  try_except_x body handler self = (handled failed r, self).
Proof.
  intros Hb Hh. unfold try_except_x. rewrite Hb.
  destruct r as [[c v|c v|o]|a]; cbn [handled caught]; try rewrite Hh; reflexivity.
Qed.

Section EngineXFacts.

Context {builtins_x : BuiltinsX}.

Lemma convert_x_inr (d : gmap string pyval_x) (f : FieldsX) :
  convert_x d = inr f ->
  py_float_x (dict_get_x d "attendance_percent" (XInt 0)) = inr (x_attendance f) /\
  py_int_x (dict_get_x d "fees_due_days" (XInt 0)) = inr (x_fees_due f) /\
  py_int_x (dict_get_x d "attempts_in_subject_X" (XInt 1)) = inr (x_attempts f) /\
  py_float_x (dict_get_x d "previous_3_tests_avg" (XInt 0)) = inr (x_previous_avg f) /\
  py_float_x (dict_get_x d "last_3_tests_avg" (XInt 0)) = inr (x_current_avg f).
Proof.
  unfold convert_x.
  destruct (py_float_x (dict_get_x d "attendance_percent" _)); [discriminate|].
  destruct (py_int_x (dict_get_x d "fees_due_days" _)); [discriminate|].
  destruct (py_int_x (dict_get_x d "attempts_in_subject_X" _)); [discriminate|].
  destruct (py_float_x (dict_get_x d "previous_3_tests_avg" _)); [discriminate|].
  destruct (py_float_x (dict_get_x d "last_3_tests_avg" _)); [discriminate|].
  intros [= <-]. cbn. auto.
Qed.

Lemma determine_risk_level_x_run (risk_score : pyfloat) (self : RiskCalculator) :
  determine_risk_level_x risk_score self = (inr (level_of_x self risk_score), self).
Proof.
  unfold determine_risk_level_x, level_of_x, self_threshold_x, attr_x, mbind, Mx_bind,
    mret, Mx_ret.
  destruct (fle (Float (t_high (thresholds self))) risk_score); [reflexivity|].
  destruct (fle (Float (t_medium (thresholds self))) risk_score); reflexivity.
Qed.

(** The body of the [try] block of [calculate_risk]. *)
Lemma calculate_risk_x_run (d : gmap string pyval_x) (self : RiskCalculator) :
  calculate_risk_x d self = (summary_of_x self d, self).
Proof.
  unfold calculate_risk_x, summary_of_x.
  apply try_except_x_run; [|reflexivity].
  unfold convert_x. unfold mbind at 1 2 3 4 5. unfold Mx_bind, lift_x.
  destruct (py_float_x (dict_get_x d "attendance_percent" _)) as [e|a]; [reflexivity|].
  destruct (py_int_x (dict_get_x d "fees_due_days" _)) as [e|n]; [reflexivity|].
  destruct (py_int_x (dict_get_x d "attempts_in_subject_X" _)) as [e|k]; [reflexivity|].
  destruct (py_float_x (dict_get_x d "previous_3_tests_avg" _)) as [e|p]; [reflexivity|].
  destruct (py_float_x (dict_get_x d "last_3_tests_avg" _)) as [e|c]; [reflexivity|].
  cbv beta zeta. cbn [x_fees_due x_attempts].
  unfold mbind at 1. unfold Mx_bind.
  destruct (calculate_fee_risk_x n) as [e|fr]; [reflexivity|].
  unfold mbind at 1. unfold Mx_bind.
  destruct (calculate_attempts_risk_x k) as [e|tr]; [reflexivity|].
  erewrite bind_inr_x by reflexivity.
  erewrite bind_inr_x by apply determine_risk_level_x_run.
  reflexivity.
Qed.

Lemma calculate_risk_x_pure (d : gmap string pyval_x) (self : RiskCalculator) :
  snd (calculate_risk_x d self) = self.
Proof. rewrite calculate_risk_x_run. reflexivity. Qed.

(** The failure of a conversion in [calculate_detailed_risk]. *)
Lemma calculate_detailed_risk_x_failed (d : gmap string pyval_x) (e : exn_x)
    (self : RiskCalculator) :
  convert_x d = inl e ->
  calculate_detailed_risk_x d self = (handled (detailed_failed_x self) (inl e), self).
Proof.
  intros Hc. unfold calculate_detailed_risk_x.
  apply try_except_x_run; [|reflexivity].
  unfold convert_x in Hc. unfold mbind at 1 2 3 4 5. unfold Mx_bind, lift_x.
  destruct (py_float_x (dict_get_x d "attendance_percent" _)) as [x|a];
    [injection Hc as ->; reflexivity|].
  destruct (py_int_x (dict_get_x d "fees_due_days" _)) as [x|n];
    [injection Hc as ->; reflexivity|].
  destruct (py_int_x (dict_get_x d "attempts_in_subject_X" _)) as [x|k];
    [injection Hc as ->; reflexivity|].
  destruct (py_float_x (dict_get_x d "previous_3_tests_avg" _)) as [x|p];
    [injection Hc as ->; reflexivity|].
  destruct (py_float_x (dict_get_x d "last_3_tests_avg" _)) as [x|c];
    [injection Hc as ->; reflexivity|].
  discriminate.
Qed.

End EngineXFacts.

(** ** Fee risk *)

(** C5 (amended): for every integer [fees_due_days] from 0 to below
    [90 * (2^1024 - 2^970)], [calculate_fee_risk] returns
    [clamp(fees_due_days/90, 0, 1)], which is not negative; it returns
    exactly 1 at 90 days and 0.5 at 45 days. *)
Theorem C5_fee_risk_clamp (fees_due_days : Z) :
  (0 <= fees_due_days)%Z ->
  (fees_due_days < fee_overflow_from)%Z ->
  (exists r, calculate_fee_risk_x fees_due_days = inr r /\
             r == clamp (inject_Z fees_due_days / 90) 0 1 /\
             0 <= r) /\
  (exists r, calculate_fee_risk_x 90 = inr r /\ r == 1) /\
  (exists r, calculate_fee_risk_x 45 = inr r /\ r == 1 # 2).
Proof.
  intros H0 H1. split; [|split].
  - exists (calculate_fee_risk fees_due_days).
    split; [apply calculate_fee_risk_x_in_range; lia|].
    apply calculate_fee_risk_clamp, H0.
  - exists (calculate_fee_risk 90).
    split; [apply calculate_fee_risk_x_in_range; reflexivity | reflexivity].
  - exists (calculate_fee_risk 45).
    split; [apply calculate_fee_risk_x_in_range; reflexivity | reflexivity].
Qed.

(** X3: [calculate_fee_risk] raises [OverflowError] exactly for the
    integers of magnitude [90 * (2^1024 - 2^970)] or more, and returns for
    every other integer; what it returns is at most 1, is 1 exactly from 90
    days, is negative exactly for a negative number of days, and never
    falls when the number of days grows. *)
Theorem X3_fee_risk_shape (n : Z) :
  (calculate_fee_risk_x n = inl (OverflowError DivisionTooLarge) <->
   (fee_overflow_from <= Z.abs n)%Z) /\
  ((exists r, calculate_fee_risk_x n = inr r) <-> (Z.abs n < fee_overflow_from)%Z) /\
  (forall r, calculate_fee_risk_x n = inr r ->
     r <= 1 /\ (r == 1 <-> (90 <= n)%Z) /\ (r < 0 <-> (n < 0)%Z)) /\
  (forall m r r', (n <= m)%Z ->
     calculate_fee_risk_x n = inr r -> calculate_fee_risk_x m = inr r' -> r <= r').
Proof.
  split; [|split; [|split]].
  - destruct (calculate_fee_risk_x_cases n) as [[H1 H2]|[H1 H2]]; rewrite H2.
    + tauto.
    + split; [discriminate | lia].
  - destruct (calculate_fee_risk_x_cases n) as [[H1 H2]|[H1 H2]]; rewrite H2.
    + split; [intros [r Hr]; discriminate | lia].
    + split; [intros _; exact H1 | intros _; eexists; reflexivity].
  - intros r Hr.
    destruct (calculate_fee_risk_x_cases n) as [[H1 H2]|[H1 H2]]; rewrite H2 in Hr;
      [discriminate|].
    injection Hr as <-.
    destruct (calculate_fee_risk_shape n) as (Ha & Hb & Hc & _). auto.
  - intros m r r' Hnm Hr Hr'.
    destruct (calculate_fee_risk_x_cases n) as [[H1 H2]|[H1 H2]]; rewrite H2 in Hr;
      [discriminate|].
    destruct (calculate_fee_risk_x_cases m) as [[H3 H4]|[H3 H4]]; rewrite H4 in Hr';
      [discriminate|].
    injection Hr as <-. injection Hr' as <-.
    destruct (calculate_fee_risk_shape n) as (_ & _ & _ & Hmono). apply Hmono, Hnm.
Qed.

(** X4: [calculate_attempts_risk] raises [OverflowError] exactly from
    [4 * (2^1024 - 2^970) + 1] attempts, and returns for every smaller
    integer, also 0 and the negative ones; what it returns lies in [0,1],
    is positive exactly from the second attempt, is 1 exactly from the
    fifth, and never falls when the number of attempts grows. *)
Theorem X4_attempts_risk_shape (n : Z) :
  (calculate_attempts_risk_x n = inl (OverflowError DivisionTooLarge) <->
   (attempts_overflow_from <= n)%Z) /\
  ((exists r, calculate_attempts_risk_x n = inr r) <-> (n < attempts_overflow_from)%Z) /\
  (forall r, calculate_attempts_risk_x n = inr r ->
     in_unit r /\ (0 < r <-> (2 <= n)%Z) /\ (r == 1 <-> (5 <= n)%Z)) /\
  (forall m r r', (n <= m)%Z ->
     calculate_attempts_risk_x n = inr r -> calculate_attempts_risk_x m = inr r' ->
     r <= r').
Proof.
  split; [|split; [|split]].
  - destruct (calculate_attempts_risk_x_cases n) as [[H1 H2]|[H1 H2]]; rewrite H2.
    + tauto.
    + split; [discriminate | lia].
  - destruct (calculate_attempts_risk_x_cases n) as [[H1 H2]|[H1 H2]]; rewrite H2.
    + split; [intros [r Hr]; discriminate | lia].
    + split; [intros _; exact H1 | intros _; eexists; reflexivity].
  - intros r Hr.
    destruct (calculate_attempts_risk_x_cases n) as [[H1 H2]|[H1 H2]]; rewrite H2 in Hr;
      [discriminate|].
    injection Hr as <-.
    destruct (calculate_attempts_risk_shape n) as (Ha & Hb & Hc & _). auto.
  - intros m r r' Hnm Hr Hr'.
    destruct (calculate_attempts_risk_x_cases n) as [[H1 H2]|[H1 H2]]; rewrite H2 in Hr;
      [discriminate|].
    destruct (calculate_attempts_risk_x_cases m) as [[H3 H4]|[H3 H4]]; rewrite H4 in Hr';
      [discriminate|].
    injection Hr as <-. injection Hr' as <-.
    destruct (calculate_attempts_risk_shape n) as (_ & _ & _ & Hmono). apply Hmono, Hnm.
Qed.

(** ** Bounds *)

Section BoundsX.

Context {builtins_x : BuiltinsX}.

(** C2 (amended): for every valid record whose test averages are finite
    and whose fee delay and number of attempts are below the values from
    which the divisions overflow, each of the four component risks lies in
    [0,1], and [calculate_risk] returns, without an error, a finite
    [risk_score] in [0,1]. *)
Theorem C2_risks_in_unit_interval (d : gmap string pyval_x) (f : FieldsX) :
  convert_x d = inr f ->
  valid_record_x f ->
  finite_averages f ->
  in_division_range f ->
  in_unit_x (calculate_attendance_risk_x (x_attendance f)) /\
  in_unit_x (calculate_score_trend_risk_x (x_previous_avg f) (x_current_avg f)) /\
  (exists r, calculate_fee_risk_x (x_fees_due f) = inr r /\ in_unit r) /\
  (exists r, calculate_attempts_risk_x (x_attempts f) = inr r /\ in_unit r) /\
  exists r, calculate_risk_x d init = (inr r, init) /\
            SummaryX.error r = None /\
            in_unit_x (SummaryX.risk_score r).
Proof.
  intros Hc ((a & Ea & Ha) & Hf & Hn) (p & c & Ep & Ec) (Rf & Rn).
  pose proof (calculate_attendance_risk_unit a (proj1 Ha)) as Ba.
  pose proof (calculate_score_trend_risk_unit p c) as Bs.
  pose proof (calculate_fee_risk_unit (x_fees_due f) Hf) as Bf.
  pose proof (calculate_attempts_risk_unit (x_attempts f)) as Bn.
  assert (Ef : calculate_fee_risk_x (x_fees_due f) = inr (calculate_fee_risk (x_fees_due f)))
    by (apply calculate_fee_risk_x_in_range; lia).
  assert (En : calculate_attempts_risk_x (x_attempts f)
               = inr (calculate_attempts_risk (x_attempts f)))
    by (apply calculate_attempts_risk_x_in_range; lia).
  rewrite Ea, Ep, Ec, calculate_attendance_risk_x_finite,
    calculate_score_trend_risk_x_finite.
  split; [eexists; split; [reflexivity | exact Ba]|].
  split; [eexists; split; [reflexivity | exact Bs]|].
  split; [eexists; split; [exact Ef | exact Bf]|].
  split; [eexists; split; [exact En | exact Bn]|].
  rewrite calculate_risk_x_run. unfold summary_of_x. rewrite Hc, Ef, En.
  cbn [handled]. eexists. split; [reflexivity|]. split; [reflexivity|].
  cbn [summary_ok_x SummaryX.risk_score]. unfold risk_score_x.
  rewrite Ea, Ep, Ec, calculate_attendance_risk_x_finite,
    calculate_score_trend_risk_x_finite.
  cbn [fmul fadd]. eexists. split; [reflexivity|].
  unfold in_unit in *.
  cbn [weights init w_attendance w_score_trend w_fees w_attempts].
  lra.
Qed.

End BoundsX.

(** ** Conversions that fail *)

Section InputXFacts.

Context {builtins_x : BuiltinsX}.

Lemma rejected_x_float (k : string) (v : pyval_x) :
  int_key k = false -> rejected_x k v ->
  exists e, py_float_x v = inl e /\ caught e = true.
Proof.
  intros Hk Hr. unfold rejected_x in Hr. rewrite Hk in Hr.
  destruct v as [z|[q| | |]|s| |tp]; cbn; try contradiction; try discriminate;
    try (eexists; split; reflexivity).
  rewrite Hr. eexists; split; reflexivity.
Qed.

Lemma rejected_x_int (k : string) (v : pyval_x) :
  int_key k = true -> rejected_x k v ->
  exists e, py_int_x v = inl e /\ caught e = true.
Proof.
  intros Hk Hr. unfold rejected_x in Hr. rewrite Hk in Hr.
  destruct v as [z|[q| | |]|s| |tp]; cbn; try contradiction;
    try (eexists; split; reflexivity).
  rewrite Hr. eexists; split; reflexivity.
Qed.

(** A conversion raises an exception that the [except] clause does not
    catch only on an overflowing value. *)
Lemma py_float_x_uncaught (k : string) (v : pyval_x) (e : exn_x) :
  int_key k = false -> py_float_x v = inl e -> caught e = false -> overflowing k v.
Proof.
  intros Hk He Hc. destruct v as [z|x|s| |tp]; cbn in He.
  - destruct (too_large (inject_Z z)) eqn:E; [|discriminate]. cbn. auto.
  - discriminate.
  - destruct (float_of_str_x s); [discriminate|]. injection He as <-. discriminate.
  - injection He as <-. discriminate.
  - injection He as <-. discriminate.
Qed.

Lemma py_int_x_uncaught (k : string) (v : pyval_x) (e : exn_x) :
  int_key k = true -> py_int_x v = inl e -> caught e = false -> overflowing k v.
Proof.
  intros Hk He Hc. destruct v as [z|[q| | |]|s| |tp]; cbn in He; try discriminate;
    try (injection He as <-; discriminate); try exact Hk.
  destruct (int_of_str_x s); [discriminate|]. injection He as <-. discriminate.
Qed.

(** The exception of an earlier conversion is caught when the value of
    that field does not overflow. *)
Lemma earlier_float_caught (d : gmap string pyval_x) (k j : string) (e : exn_x) :
  (forall i, In i (converted_before k) -> ~ overflowing i (field_x d i)) ->
  In j (converted_before k) ->
  int_key j = false ->
  py_float_x (field_x d j) = inl e ->
  caught e = true.
Proof.
  intros Hno Hj Hk He. destruct (caught e) eqn:Hc; [reflexivity|].
  exfalso. apply (Hno j Hj). eapply py_float_x_uncaught; eassumption.
Qed.

Lemma earlier_int_caught (d : gmap string pyval_x) (k j : string) (e : exn_x) :
  (forall i, In i (converted_before k) -> ~ overflowing i (field_x d i)) ->
  In j (converted_before k) ->
  int_key j = true ->
  py_int_x (field_x d j) = inl e ->
  caught e = true.
Proof.
  intros Hno Hj Hk He. destruct (caught e) eqn:Hc; [reflexivity|].
  exfalso. apply (Hno j Hj). eapply py_int_x_uncaught; eassumption.
Qed.

Lemma field_x_present (d : gmap string pyval_x) (k : string) (v : pyval_x) :
  d !! k = Some v -> field_x d k = v.
Proof. intros Hd. unfold field_x, dict_get_x. rewrite Hd. reflexivity. Qed.

(** A rejected value makes the conversions fail with an exception that is
    caught, when no field converted before it overflows. *)
Lemma rejected_x_convert (d : gmap string pyval_x) (k : string) (v : pyval_x) :
  In k record_keys -> d !! k = Some v -> rejected_x k v ->
  (forall j, In j (converted_before k) -> ~ overflowing j (field_x d j)) ->
  exists e, convert_x d = inl e /\ caught e = true.
Proof.
  intros Hk Hd Hr Hno. unfold convert_x.
  change (dict_get_x d "attendance_percent" (XInt 0)) with (field_x d "attendance_percent").
  change (dict_get_x d "fees_due_days" (XInt 0)) with (field_x d "fees_due_days").
  change (dict_get_x d "attempts_in_subject_X" (XInt 1))
    with (field_x d "attempts_in_subject_X").
  change (dict_get_x d "previous_3_tests_avg" (XInt 0))
    with (field_x d "previous_3_tests_avg").
  change (dict_get_x d "last_3_tests_avg" (XInt 0)) with (field_x d "last_3_tests_avg").
  pose proof (field_x_present d k v Hd) as Hv.
  unfold record_keys in Hk. cbn [In] in Hk.
  destruct Hk as [<-|[<-|[<-|[<-|[<-|[]]]]]].
  - destruct (rejected_x_float "attendance_percent" _ eq_refl Hr) as (e & He & Hc).
    rewrite Hv, He. eauto.
  - destruct (py_float_x (field_x d "attendance_percent")) as [e|a] eqn:E1.
    { exists e. split; [reflexivity|].
      apply (earlier_float_caught d "fees_due_days" "attendance_percent");
        [exact Hno | cbn; tauto | reflexivity | exact E1]. }
    destruct (rejected_x_int "fees_due_days" _ eq_refl Hr) as (e & He & Hc).
    rewrite Hv, He. eauto.
  - destruct (py_float_x (field_x d "attendance_percent")) as [e|a] eqn:E1.
    { exists e. split; [reflexivity|].
      apply (earlier_float_caught d "attempts_in_subject_X" "attendance_percent");
        [exact Hno | cbn; tauto | reflexivity | exact E1]. }
    destruct (py_int_x (field_x d "fees_due_days")) as [e|n] eqn:E2.
    { exists e. split; [reflexivity|].
      apply (earlier_int_caught d "attempts_in_subject_X" "fees_due_days");
        [exact Hno | cbn; tauto | reflexivity | exact E2]. }
    destruct (rejected_x_int "attempts_in_subject_X" _ eq_refl Hr) as (e & He & Hc).
    rewrite Hv, He. eauto.
  - destruct (py_float_x (field_x d "attendance_percent")) as [e|a] eqn:E1.
    { exists e. split; [reflexivity|].
      apply (earlier_float_caught d "previous_3_tests_avg" "attendance_percent");
        [exact Hno | cbn; tauto | reflexivity | exact E1]. }
    destruct (py_int_x (field_x d "fees_due_days")) as [e|n] eqn:E2.
    { exists e. split; [reflexivity|].
      apply (earlier_int_caught d "previous_3_tests_avg" "fees_due_days");
        [exact Hno | cbn; tauto | reflexivity | exact E2]. }
    destruct (py_int_x (field_x d "attempts_in_subject_X")) as [e|m] eqn:E3.
    { exists e. split; [reflexivity|].
      apply (earlier_int_caught d "previous_3_tests_avg" "attempts_in_subject_X");
        [exact Hno | cbn; tauto | reflexivity | exact E3]. }
    destruct (rejected_x_float "previous_3_tests_avg" _ eq_refl Hr) as (e & He & Hc).
    rewrite Hv, He. eauto.
  - destruct (py_float_x (field_x d "attendance_percent")) as [e|a] eqn:E1.
    { exists e. split; [reflexivity|].
      apply (earlier_float_caught d "last_3_tests_avg" "attendance_percent");
        [exact Hno | cbn; tauto | reflexivity | exact E1]. }
    destruct (py_int_x (field_x d "fees_due_days")) as [e|n] eqn:E2.
    { exists e. split; [reflexivity|].
      apply (earlier_int_caught d "last_3_tests_avg" "fees_due_days");
        [exact Hno | cbn; tauto | reflexivity | exact E2]. }
    destruct (py_int_x (field_x d "attempts_in_subject_X")) as [e|m] eqn:E3.
    { exists e. split; [reflexivity|].
      apply (earlier_int_caught d "last_3_tests_avg" "attempts_in_subject_X");
        [exact Hno | cbn; tauto | reflexivity | exact E3]. }
    destruct (py_float_x (field_x d "previous_3_tests_avg")) as [e|p] eqn:E4.
    { exists e. split; [reflexivity|].
      apply (earlier_float_caught d "last_3_tests_avg" "previous_3_tests_avg");
        [exact Hno | cbn; tauto | reflexivity | exact E4]. }
    destruct (rejected_x_float "last_3_tests_avg" _ eq_refl Hr) as (e & He & Hc).
    rewrite Hv, He. eauto.
Qed.

(** X8: one value that its conversion rejects ([None], an object of
    another type, a string that does not parse, for [int()] also [nan]),
    in any one of the five fields, turns the whole assessment into the
    zero score with level Low and an error, provided that no field
    converted before it holds a value on which the conversion raises
    [OverflowError]; the detailed assessment then has no factors, reasons
    or recommendations.  The fields converted after it can hold anything. *)
Theorem X8_one_rejected_field_zeroes (d : gmap string pyval_x) (k : string)
    (v : pyval_x) (self : RiskCalculator) :
  In k record_keys ->
  d !! k = Some v ->
  rejected_x k v ->
  (forall j, In j (converted_before k) -> ~ overflowing j (field_x d j)) ->
  exists rs rd,
    calculate_risk_x d self = (inr rs, self) /\
    calculate_detailed_risk_x d self = (inr rd, self) /\
    feq (SummaryX.risk_score rs) (Float 0) = true /\
    SummaryX.risk_level rs = Low /\
    SummaryX.error rs <> None /\
    feq (DetailedX.risk_score rd) (Float 0) = true /\
    DetailedX.risk_level rd = Low /\
    DetailedX.error rd <> None /\
    DetailedX.risk_factors rd = [] /\ DetailedX.top_reasons rd = [] /\
    DetailedX.recommendations rd = [].
Proof.
  intros Hk Hd Hr Hno.
  destruct (rejected_x_convert d k v Hk Hd Hr Hno) as (e & He & Hc).
  rewrite calculate_risk_x_run, (calculate_detailed_risk_x_failed d e self He).
  unfold summary_of_x. rewrite He. cbn [handled]. rewrite Hc.
  do 2 eexists. split; [reflexivity|]. split; [reflexivity|].
  cbn. repeat split; discriminate.
Qed.

(** When the first conversion that fails raises [OverflowError], both
    methods raise it, whatever the later fields hold. *)
Lemma overflow_escapes (d : gmap string pyval_x) (o : overflow) (self : RiskCalculator) :
  convert_x d = inl (OverflowError o) ->
  calculate_risk_x d self = (inl (OverflowError o), self) /\
  calculate_detailed_risk_x d self = (inl (OverflowError o), self).
Proof.
  intros He.
  rewrite calculate_risk_x_run, (calculate_detailed_risk_x_failed d _ self He).
  unfold summary_of_x. rewrite He. split; reflexivity.
Qed.

End InputXFacts.

(** ** Closed runs on every float *)

(** The example record is scored as in the idealised arithmetic. *)
Example example_record_x_scored :
  exists r,
    score_x example_record_x init = (inr r, init) /\
    feq (SummaryX.risk_score r) (Float (61 # 120)) = true /\
    SummaryX.risk_level r = Medium /\
    SummaryX.error r = None.
Proof. eexists. split; [vm_compute; reflexivity|]. repeat split. Qed.

(** A record whose attendance is an [int] too large for a float: both
    methods raise [OverflowError] although the fee delay, converted later,
    is [None]. *)
Example huge_attendance_raises :
  score_x record_huge_attendance init = (inl (OverflowError IntTooLarge), init) /\
  explain_x record_huge_attendance init = (inl (OverflowError IntTooLarge), init).
Proof. split; vm_compute; reflexivity. Qed.

(** C2 as stated fails: the record with attendance 80 and a fee delay of
    [10^400] days is valid, with finite test averages, and [calculate_risk]
    raises [OverflowError] on it.  Also, on the record with attendance 80
    whose previous test average is [nan], which meets the three conditions
    on attendance, fee delay and attempts, [calculate_risk] returns the
    score [nan]. *)
Lemma C2_counterexample :
  (@convert_x decimal_builtins_x record_huge_fees = inr fields_huge_fees /\
   valid_record_x fields_huge_fees /\
   finite_averages fields_huge_fees /\
   score_x record_huge_fees init = (inl (OverflowError DivisionTooLarge), init)) /\
  (exists f r,
     @convert_x decimal_builtins_x record_nan_average = inr f /\
     valid_record_x f /\
     score_x record_nan_average init = (inr r, init) /\
     SummaryX.risk_score r = NaN).
Proof.
  split.
  - split; [vm_compute; reflexivity|].
    split.
    { split; [exists (inject_Z 80); split; [reflexivity | split; discriminate]|].
      split; [vm_compute; discriminate | vm_compute; discriminate]. }
    split; [do 2 eexists; split; reflexivity|].
    vm_compute. reflexivity.
  - do 2 eexists. split; [vm_compute; reflexivity|].
    split.
    { split; [exists (inject_Z 80); split; [reflexivity | split; discriminate]|].
      split; [vm_compute; discriminate | vm_compute; discriminate]. }
    split; vm_compute; reflexivity.
Qed.

Lemma C2_witness :
  @convert_x decimal_builtins_x example_record_x = inr example_fields_x /\
  valid_record_x example_fields_x /\
  finite_averages example_fields_x /\
  in_division_range example_fields_x /\
  in_unit_x (calculate_attendance_risk_x (x_attendance example_fields_x)) /\
  in_unit_x (calculate_score_trend_risk_x (x_previous_avg example_fields_x)
               (x_current_avg example_fields_x)) /\
  (exists r, calculate_fee_risk_x (x_fees_due example_fields_x) = inr r /\ in_unit r) /\
  (exists r, calculate_attempts_risk_x (x_attempts example_fields_x) = inr r /\
             in_unit r) /\
  exists r, score_x example_record_x init = (inr r, init) /\
            SummaryX.error r = None /\
            in_unit_x (SummaryX.risk_score r).
Proof.
  assert (Hc : @convert_x decimal_builtins_x example_record_x = inr example_fields_x)
    by (vm_compute; reflexivity).
  assert (Hv : valid_record_x example_fields_x).
  { split; [exists (inject_Z 40); split; [reflexivity | split; discriminate]|].
    split; discriminate. }
  assert (Hf : finite_averages example_fields_x)
    by (do 2 eexists; split; reflexivity).
  assert (Hr : in_division_range example_fields_x) by (split; reflexivity).
  split; [exact Hc|]. split; [exact Hv|]. split; [exact Hf|]. split; [exact Hr|].
  exact (@C2_risks_in_unit_interval decimal_builtins_x example_record_x example_fields_x
           Hc Hv Hf Hr).
Defined.

(** C5 as stated fails: at -90 days the fee risk is -1, and the clamp of
    the specification gives 0. *)
Lemma C5_counterexample :
  calculate_fee_risk (-90) < 0 /\
  ~ calculate_fee_risk (-90) == clamp (inject_Z (-90) / 90) 0 1 /\
  calculate_fee_risk_x (-90) = inr (calculate_fee_risk (-90)).
Proof.
  split; [reflexivity|]. split.
  - intros Heq. vm_compute in Heq. discriminate.
  - apply calculate_fee_risk_x_in_range. reflexivity.
Qed.

Lemma C5_witness :
  (0 <= 45)%Z /\
  (45 < fee_overflow_from)%Z /\
  (exists r, calculate_fee_risk_x 45 = inr r /\
             r == clamp (inject_Z 45 / 90) 0 1 /\
             0 <= r) /\
  (exists r, calculate_fee_risk_x 90 = inr r /\ r == 1) /\
  (exists r, calculate_fee_risk_x 45 = inr r /\ r == 1 # 2).
Proof.
  assert (H0 : (0 <= 45)%Z) by discriminate.
  assert (H1 : (45 < fee_overflow_from)%Z) by reflexivity.
  split; [exact H0|]. split; [exact H1|]. exact (C5_fee_risk_clamp 45 H0 H1).
Defined.

Lemma X8_witness :
  exists rs rd,
    score_x record_none_fees_x init = (inr rs, init) /\
    explain_x record_none_fees_x init = (inr rd, init) /\
    feq (SummaryX.risk_score rs) (Float 0) = true /\
    SummaryX.risk_level rs = Low /\
    SummaryX.error rs <> None /\
    feq (DetailedX.risk_score rd) (Float 0) = true /\
    DetailedX.risk_level rd = Low /\
    DetailedX.error rd <> None /\
    DetailedX.risk_factors rd = [] /\ DetailedX.top_reasons rd = [] /\
    DetailedX.recommendations rd = [].
Proof.
  apply (@X8_one_rejected_field_zeroes decimal_builtins_x record_none_fees_x
           "fees_due_days" XNone init).
  - unfold record_keys. cbn [In]. right. left. reflexivity.
  - reflexivity.
  - exact I.
  - intros j Hj. cbn in Hj. destruct Hj as [<-|[]].
    vm_compute. intros [_ H]. discriminate H.
Defined.

(** * Properties of the handlers on every float *)

(** ** The order on floats *)

Lemma fle_total (a b : pyfloat) :
  a <> NaN -> b <> NaN -> fle a b = false -> fle b a = true.
Proof.
  intros Ha Hb. destruct a as [x| | |], b as [y| | |]; cbn; try congruence.
  intros E. apply Qle_bool_false in E. apply Qle_bool_iff. lra.
Qed.

Lemma fle_trans (a b c : pyfloat) :
  fle a b = true -> fle b c = true -> fle a c = true.
Proof.
  destruct a as [x| | |], b as [y| | |], c as [z| | |]; cbn; try congruence.
  intros H1 H2. apply Qle_bool_iff in H1. apply Qle_bool_iff in H2.
  apply Qle_bool_iff. lra.
Qed.

Lemma feq_fle (a b x : pyfloat) :
  feq a x = true -> feq b x = true -> fle b a = true.
Proof.
  destruct a as [p| | |], b as [q| | |], x as [r| | |]; cbn; try congruence.
  intros H1 H2. apply Qeq_bool_iff in H1. apply Qeq_bool_iff in H2.
  apply Qle_bool_iff. lra.
Qed.

(** ** Sorting on float keys *)

Section SortX.

Context {A : Type} (key : A -> pyfloat).

Lemma insert_desc_x_In (x y : A) (l : list A) :
  In y (insert_desc_x key x l) <-> y = x \/ In y l.
Proof.
  induction l as [|z l IH]; cbn.
  - intuition.
  - destruct (fle (key z) (key x)); cbn; [intuition|].
    rewrite IH. intuition.
Qed.

Lemma sort_desc_x_In (y : A) (l : list A) : In y (sort_desc_x key l) <-> In y l.
Proof.
  induction l as [|x l IH]; cbn; [tauto|].
  rewrite insert_desc_x_In, IH. intuition.
Qed.

Lemma insert_desc_x_perm (x : A) (l : list A) :
  Permutation (x :: l) (insert_desc_x key x l).
Proof.
  induction l as [|z l IH]; cbn; [reflexivity|].
  destruct (fle (key z) (key x)); [reflexivity|].
  rewrite perm_swap. apply perm_skip, IH.
Qed.

Lemma sort_desc_x_perm (l : list A) : Permutation l (sort_desc_x key l).
Proof.
  induction l as [|x l IH]; cbn; [reflexivity|].
  rewrite <- insert_desc_x_perm. apply perm_skip, IH.
Qed.

Lemma sort_desc_x_length (l : list A) : length (sort_desc_x key l) = length l.
Proof. symmetry. apply Permutation_length, sort_desc_x_perm. Qed.

Lemma insert_desc_x_descending (x : A) (l : list A) :
  key x <> NaN ->
  Forall (fun a => key a <> NaN) l ->
  StronglySorted (fun a b => fge (key a) (key b)) l ->
  StronglySorted (fun a b => fge (key a) (key b)) (insert_desc_x key x l).
Proof.
  intros Hx. induction l as [|z l IH]; intros Hn Hs; cbn.
  - repeat constructor.
  - apply StronglySorted_inv in Hs as [Hs Hz].
    apply Forall_cons_iff in Hn as [Hzn Hn].
    destruct (fle (key z) (key x)) eqn:E.
    + constructor; [constructor; assumption|].
      constructor; [exact E|].
      rewrite List.Forall_forall in *. intros y Hy. specialize (Hz y Hy).
      unfold fge in *. eapply fle_trans; eassumption.
    + constructor; [apply IH; assumption|].
      rewrite List.Forall_forall in *. intros y Hy.
      apply insert_desc_x_In in Hy as [->|Hy]; [|auto].
      unfold fge. apply fle_total; assumption.
Qed.

(** When no key is [nan], the sorted list is in descending order. *)
Lemma sort_desc_x_descending (l : list A) :
  Forall (fun a => key a <> NaN) l ->
  StronglySorted (fun a b => fge (key a) (key b)) (sort_desc_x key l).
Proof.
  induction l as [|x l IH]; intros Hn; cbn; [constructor|].
  apply Forall_cons_iff in Hn as [Hx Hn].
  apply insert_desc_x_descending; [exact Hx | | apply IH, Hn].
  rewrite List.Forall_forall in *. intros y Hy. apply Hn, sort_desc_x_In, Hy.
Qed.

(** Elements with the same key keep their order. *)
Lemma insert_desc_x_filter (q : pyfloat) (x : A) (l : list A) :
  List.filter (fun a => feq (key a) q) (insert_desc_x key x l) =
  List.filter (fun a => feq (key a) q) (x :: l).
Proof.
  induction l as [|z l IH]; cbn [insert_desc_x]; [reflexivity|].
  destruct (fle (key z) (key x)) eqn:E; [reflexivity|].
  cbn [List.filter] in *. rewrite IH.
  destruct (feq (key x) q) eqn:Ex; [|reflexivity].
  destruct (feq (key z) q) eqn:Ez; [|reflexivity].
  rewrite (feq_fle _ _ _ Ex Ez) in E. discriminate.
Qed.

Lemma sort_desc_x_filter (q : pyfloat) (l : list A) :
  List.filter (fun a => feq (key a) q) (sort_desc_x key l) =
  List.filter (fun a => feq (key a) q) l.
Proof.
  induction l as [|x l IH]; cbn [sort_desc_x fold_right]; [reflexivity|].
  fold (sort_desc_x key l). rewrite insert_desc_x_filter.
  cbn [List.filter]. rewrite IH. reflexivity.
Qed.

End SortX.

(** ** The handler monad *)

Lemma Hx_bind_inr {A B : Type} (m : Hx A) (k : A -> Hx B) (calc calc' : RiskCalculator)
    (a : A) :
  m calc = (inr a, calc') -> (m ≫= k) calc = k a calc'.
Proof. intros Hm. unfold mbind, Hx_bind. rewrite Hm. reflexivity. Qed.

Lemma Hx_bind_inl {A B : Type} (m : Hx A) (k : A -> Hx B) (calc calc' : RiskCalculator)
    (e : app_exn_x) :
  m calc = (inl e, calc') -> (m ≫= k) calc = (inl e, calc').
Proof. intros Hm. unfold mbind, Hx_bind. rewrite Hm. reflexivity. Qed.

Lemma set_risk_calc_x_same (app : AppX) : set_risk_calc_x app (risk_calc_x app) = app.
Proof. destruct app. reflexivity. Qed.

Lemma has_keys_x_true (keys : list string) (row : gmap string pyval_x) :
  has_keys_x keys row = true <-> forall k, In k keys -> row_has_x row k = true.
Proof. unfold has_keys_x. rewrite forallb_forall. reflexivity. Qed.

Lemma row_has_x_true (row : gmap string pyval_x) (k : string) :
  row_has_x row k = true <-> exists v, row !! k = Some v.
Proof.
  unfold row_has_x. destruct (row !! k) as [v|]; split; try discriminate; eauto.
  intros [v Hv]. discriminate.
Qed.

Lemma getitem_x_some (row : gmap string pyval_x) (k : string) (v : pyval_x)
    (calc : RiskCalculator) :
  row !! k = Some v -> getitem_x row k calc = (inr v, calc).
Proof. intros Hk. unfold getitem_x. rewrite Hk. reflexivity. Qed.

Lemma getitem_x_none (row : gmap string pyval_x) (k : string) (calc : RiskCalculator) :
  row !! k = None -> getitem_x row k calc = (inl (KeyError_x k), calc).
Proof. intros Hk. unfold getitem_x. rewrite Hk. reflexivity. Qed.

(** The quotient of a count by a total that is at least the count is not
    too large for a float. *)
Lemma py_truediv_x_ratio (h n : nat) (calc : RiskCalculator) :
  (h <= n)%nat -> (0 < n)%nat ->
  py_truediv_x (Z.of_nat h) (Z.of_nat n) calc =
    (inr (inject_Z (Z.of_nat h) / inject_Z (Z.of_nat n)), calc).
Proof.
  intros Hh Hn. unfold py_truediv_x.
  destruct (Z.of_nat n =? 0)%Z eqn:E; [apply Z.eqb_eq in E; lia|].
  rewrite int_truediv_in_range; [reflexivity | lia |].
  assert (Hlim : (2 <= float_limit)%Z) by discriminate.
  assert (Hmul : (Z.of_nat n * 2 <= Z.of_nat n * float_limit)%Z)
    by (apply Z.mul_le_mono_nonneg_l; lia).
  lia.
Qed.

Section HandlerXFacts.

Context {builtins_x : BuiltinsX} {str_builtins : StrBuiltins}.

Lemma raises_on_false (calc : RiskCalculator) (row : gmap string pyval_x) :
  raises_on calc row = false <-> exists r, calculate_risk_x row calc = (inr r, calc).
Proof.
  unfold raises_on. rewrite calculate_risk_x_run. cbn [fst].
  destruct (summary_of_x calc row) as [e|r]; split; try discriminate; eauto.
  intros [r Hr]. discriminate.
Qed.

Lemma raises_on_true (calc : RiskCalculator) (row : gmap string pyval_x) :
  raises_on calc row = true <-> exists e, calculate_risk_x row calc = (inl e, calc).
Proof.
  unfold raises_on. rewrite calculate_risk_x_run. cbn [fst].
  destruct (summary_of_x calc row) as [e|r]; split; try discriminate; eauto.
  intros [e He]. discriminate.
Qed.

Lemma call_x_returns (row : gmap string pyval_x) (calc : RiskCalculator)
    (r : SummaryX.t) :
  calculate_risk_x row calc = (inr r, calc) ->
  call_x (calculate_risk_x row) calc = (inr r, calc).
Proof. intros Hr. unfold call_x. rewrite Hr. reflexivity. Qed.

Lemma call_x_raises (row : gmap string pyval_x) (calc : RiskCalculator) (e : exn_x) :
  calculate_risk_x row calc = (inl e, calc) ->
  call_x (calculate_risk_x row) calc = (inl (Raised_x e), calc).
Proof. intros Hr. unfold call_x. rewrite Hr. reflexivity. Qed.

(** One pass of the loop of [get_students]. *)
Lemma student_info_of_x_ok (row : gmap string pyval_x) (calc : RiskCalculator) :
  listable calc row = true ->
  exists e, student_info_of_x row calc = (inr e, calc) /\ listed_for_x calc row e.
Proof.
  unfold listable. rewrite andb_true_iff, negb_true_iff, raises_on_false.
  intros [[r Hr] Hk]. rewrite has_keys_x_true in Hk.
  assert (Hv : forall k, In k list_keys -> exists v, row !! k = Some v)
    by (intros k Hin; apply row_has_x_true, Hk, Hin).
  destruct (Hv "student_id") as [v1 E1]; [cbn; tauto|].
  destruct (Hv "first_name") as [v2 E2]; [cbn; tauto|].
  destruct (Hv "last_name") as [v3 E3]; [cbn; tauto|].
  destruct (Hv "attendance_percent") as [v4 E4]; [cbn; tauto|].
  destruct (Hv "fees_due_days") as [v5 E5]; [cbn; tauto|].
  destruct (Hv "last_3_tests_avg") as [v6 E6]; [cbn; tauto|].
  eexists. split.
  - unfold student_info_of_x.
    erewrite Hx_bind_inr by (apply call_x_returns; exact Hr).
    erewrite Hx_bind_inr by (apply getitem_x_some; exact E1).
    erewrite Hx_bind_inr by (apply getitem_x_some; exact E2).
    erewrite Hx_bind_inr by (apply getitem_x_some; exact E3).
    cbv zeta.
    erewrite Hx_bind_inr by (apply getitem_x_some; exact E4).
    erewrite Hx_bind_inr by (apply getitem_x_some; exact E5).
    erewrite Hx_bind_inr by (apply getitem_x_some; exact E6).
    reflexivity.
  - exists r. cbn. repeat split; assumption.
Qed.

Lemma student_info_of_x_fail (row : gmap string pyval_x) (calc : RiskCalculator) :
  listable calc row = false ->
  exists err, student_info_of_x row calc = (inl err, calc).
Proof.
  unfold listable. intros Hl. unfold student_info_of_x.
  destruct (raises_on calc row) eqn:Hraise.
  { apply raises_on_true in Hraise as [e He]. eexists.
    erewrite Hx_bind_inl by (apply call_x_raises; exact He). reflexivity. }
  cbn [negb andb] in Hl.
  apply raises_on_false in Hraise as [r Hr].
  erewrite Hx_bind_inr by (apply call_x_returns; exact Hr).
  destruct (row !! "student_id") as [v1|] eqn:E1;
    [erewrite Hx_bind_inr by (apply getitem_x_some; exact E1)
    |eexists; erewrite Hx_bind_inl by (apply getitem_x_none; exact E1); reflexivity].
  destruct (row !! "first_name") as [v2|] eqn:E2;
    [erewrite Hx_bind_inr by (apply getitem_x_some; exact E2)
    |eexists; erewrite Hx_bind_inl by (apply getitem_x_none; exact E2); reflexivity].
  destruct (row !! "last_name") as [v3|] eqn:E3;
    [erewrite Hx_bind_inr by (apply getitem_x_some; exact E3)
    |eexists; erewrite Hx_bind_inl by (apply getitem_x_none; exact E3); reflexivity].
  cbv zeta.
  destruct (row !! "attendance_percent") as [v4|] eqn:E4;
    [erewrite Hx_bind_inr by (apply getitem_x_some; exact E4)
    |eexists; erewrite Hx_bind_inl by (apply getitem_x_none; exact E4); reflexivity].
  destruct (row !! "fees_due_days") as [v5|] eqn:E5;
    [erewrite Hx_bind_inr by (apply getitem_x_some; exact E5)
    |eexists; erewrite Hx_bind_inl by (apply getitem_x_none; exact E5); reflexivity].
  destruct (row !! "last_3_tests_avg") as [v6|] eqn:E6;
    [|eexists; erewrite Hx_bind_inl by (apply getitem_x_none; exact E6); reflexivity].
  exfalso. unfold has_keys_x, list_keys, row_has_x in Hl. cbn [forallb] in Hl.
  rewrite E1, E2, E3, E4, E5, E6 in Hl. discriminate.
Qed.

Lemma for_each_student_info_x_ok (l : list (gmap string pyval_x))
    (calc : RiskCalculator) :
  Forall (fun row => listable calc row = true) l ->
  exists infos,
    for_each_x student_info_of_x l calc = (inr infos, calc) /\
    Forall2 (listed_for_x calc) l infos.
Proof.
  induction 1 as [|row l Hrow _ IH].
  - exists []. split; [reflexivity | constructor].
  - destruct (student_info_of_x_ok row calc Hrow) as (e & He & Hl).
    destruct IH as (infos & Hi & Hf).
    exists (e :: infos). split; [|constructor; assumption].
    cbn [for_each_x].
    erewrite Hx_bind_inr by exact He.
    erewrite Hx_bind_inr by exact Hi. reflexivity.
Qed.

Lemma for_each_student_info_x_fail (l : list (gmap string pyval_x))
    (calc : RiskCalculator) :
  Exists (fun row => listable calc row = false) l ->
  exists err, for_each_x student_info_of_x l calc = (inl err, calc).
Proof.
  induction l as [|row l IH]; intros Hex; [inversion Hex|].
  cbn [for_each_x].
  destruct (listable calc row) eqn:Hrow.
  - destruct (student_info_of_x_ok row calc Hrow) as (e & He & _).
    erewrite Hx_bind_inr by exact He.
    destruct IH as (err & Hf).
    { inversion Hex; subst; [congruence | assumption]. }
    exists err. erewrite Hx_bind_inl by exact Hf. reflexivity.
  - destruct (student_info_of_x_fail row calc Hrow) as (err & Hf).
    exists err. erewrite Hx_bind_inl by exact Hf. reflexivity.
Qed.

(** What [get_students] does on rows it gets through. *)
Lemma get_students_x_run (app : AppX) (user : string) (df : DataFrameX) :
  session_x app !! "user_id" = Some user ->
  students_data_x app = Some df ->
  Forall (fun row => listable (risk_calc_x app) row = true) (rows_x df) ->
  exists infos,
    get_students_x app =
      (Ok {| StudentListX.students := sort_desc_x StudentInfoX.risk_score infos;
             StudentListX.total_count :=
               length (sort_desc_x StudentInfoX.risk_score infos) |}, app) /\
    Forall2 (listed_for_x (risk_calc_x app)) (rows_x df) infos.
Proof.
  intros Hs Hd Hk. unfold get_students_x. rewrite Hs, Hd.
  destruct (for_each_student_info_x_ok (rows_x df) (risk_calc_x app) Hk)
    as (infos & Hi & Hf).
  unfold get_students_body_x.
  erewrite Hx_bind_inr by exact Hi. cbn [mret Hx_ret]. rewrite set_risk_calc_x_same.
  exists infos. split; [reflexivity | exact Hf].
Qed.

(** X14: for a logged-in user and loaded data in which every row has the
    six columns the handler reads and [calculate_risk] raises on no row,
    [get_students] answers with one entry per row, also for rows whose
    data the calculator rejects and for rows with cells that are [nan] or
    infinite; each entry carries the level and colour that
    [calculate_risk] returns for its row and the score rounded to three
    decimals; the state is not changed.  When no score is [nan], the
    entries are in descending order of the score, and entries with the
    same score are in the order of the data. *)
Theorem X14_student_list_complete_and_sorted (app : AppX) (user : string)
    (df : DataFrameX) :
  session_x app !! "user_id" = Some user ->
  students_data_x app = Some df ->
  Forall (fun row => raises_on (risk_calc_x app) row = false) (rows_x df) ->
  Forall (fun row => has_keys_x list_keys row = true) (rows_x df) ->
  exists body infos,
    get_students_x app = (Ok body, app) /\
    Forall2 (listed_for_x (risk_calc_x app)) (rows_x df) infos /\
    Permutation infos (StudentListX.students body) /\
    StudentListX.total_count body = length (rows_x df) /\
    (Forall score_is_number infos ->
     StronglySorted
       (fun a b => fge (StudentInfoX.risk_score a) (StudentInfoX.risk_score b))
       (StudentListX.students body) /\
     forall x, List.filter (scored_x x) (StudentListX.students body)
               = List.filter (scored_x x) infos).
Proof.
  intros Hs Hd Hr Hk.
  assert (Hl : Forall (fun row => listable (risk_calc_x app) row = true) (rows_x df)).
  { rewrite List.Forall_forall in *. intros row Hin. unfold listable.
    rewrite (Hr row Hin), (Hk row Hin). reflexivity. }
  destruct (get_students_x_run app user df Hs Hd Hl) as (infos & Hrun & Hf).
  do 2 eexists. split; [exact Hrun|]. split; [exact Hf|].
  cbn [StudentListX.students StudentListX.total_count].
  split; [apply sort_desc_x_perm|].
  split; [rewrite sort_desc_x_length; symmetry; eapply Forall2_length; exact Hf|].
  intros Hn. split; [apply sort_desc_x_descending; exact Hn|].
  intros x. apply sort_desc_x_filter.
Qed.

(** X15: for a logged-in user and loaded data, [get_students] answers with
    status 500 exactly when, on some row, [calculate_risk] raises (an
    [OverflowError]) or one of the six columns the handler reads is
    missing; otherwise it answers with the list; the state is not
    changed. *)
Theorem X15_student_list_fails_exactly_when (app : AppX) (user : string)
    (df : DataFrameX) :
  session_x app !! "user_id" = Some user ->
  students_data_x app = Some df ->
  snd (get_students_x app) = app /\
  ((exists msg, fst (get_students_x app) = Failed 500 msg) <->
   Exists (fun row => raises_on (risk_calc_x app) row = true \/
                      has_keys_x list_keys row = false) (rows_x df)) /\
  ((exists body, fst (get_students_x app) = Ok body) <->
   Forall (fun row => raises_on (risk_calc_x app) row = false /\
                      has_keys_x list_keys row = true) (rows_x df)).
Proof.
  intros Hs Hd.
  assert (Hiff : forall row,
            listable (risk_calc_x app) row = false <->
            raises_on (risk_calc_x app) row = true \/ has_keys_x list_keys row = false).
  { intros row. unfold listable.
    destruct (raises_on (risk_calc_x app) row), (has_keys_x list_keys row); cbn;
      intuition congruence. }
  assert (Hiff' : forall row,
            listable (risk_calc_x app) row = true <->
            raises_on (risk_calc_x app) row = false /\ has_keys_x list_keys row = true).
  { intros row. unfold listable.
    destruct (raises_on (risk_calc_x app) row), (has_keys_x list_keys row); cbn;
      intuition congruence. }
  assert (Hdec : forall row : gmap string pyval_x,
             {listable (risk_calc_x app) row = false} +
             {listable (risk_calc_x app) row <> false}).
  { intros row. destruct (listable (risk_calc_x app) row);
      [right; discriminate | left; reflexivity]. }
  unfold get_students_x. rewrite Hs, Hd.
  destruct (List.Exists_dec (fun row => listable (risk_calc_x app) row = false)
              (rows_x df) Hdec) as [Hex|Hno].
  - destruct (for_each_student_info_x_fail (rows_x df) (risk_calc_x app) Hex)
      as (err & Hf).
    unfold get_students_body_x. erewrite Hx_bind_inl by exact Hf.
    cbn [fst snd]. split; [apply set_risk_calc_x_same|]. split.
    + split; [intros _ | intros _; eexists; reflexivity].
      apply List.Exists_exists in Hex as (row & Hin & Hrow).
      apply List.Exists_exists. exists row. split; [exact Hin | apply Hiff, Hrow].
    + split; [intros [body Hb]; discriminate|].
      intros Hall. exfalso.
      apply List.Exists_exists in Hex as (row & Hin & Hrow).
      rewrite List.Forall_forall in Hall. specialize (Hall row Hin).
      apply Hiff' in Hall. congruence.
  - assert (Hall : Forall (fun row => listable (risk_calc_x app) row = true) (rows_x df)).
    { apply List.Forall_forall. intros row Hin.
      destruct (listable (risk_calc_x app) row) eqn:E; [reflexivity|].
      exfalso. apply Hno. apply List.Exists_exists. eauto. }
    destruct (for_each_student_info_x_ok (rows_x df) (risk_calc_x app) Hall)
      as (infos & Hi & _).
    unfold get_students_body_x. erewrite Hx_bind_inr by exact Hi.
    cbn [mret Hx_ret fst snd]. split; [apply set_risk_calc_x_same|]. split.
    + split; [intros [msg Hmsg]; discriminate|].
      intros Hex. exfalso. apply Hno.
      apply List.Exists_exists in Hex as (row & Hin & Hrow).
      apply List.Exists_exists. exists row. split; [exact Hin | apply Hiff, Hrow].
    + split; [intros _ | intros _; eexists; reflexivity].
      rewrite List.Forall_forall in *. intros row Hin. apply Hiff', Hall, Hin.
Qed.

(** One pass of the loop of [get_summary]. *)
Lemma summary_step_x_ok (c : RiskCounts) (a : list AttendanceStatX.t)
    (t : list ScoreTrendX.t) (row : gmap string pyval_x) (calc : RiskCalculator) :
  summable calc row = true ->
  exists r x y,
    calculate_risk_x row calc = (inr r, calc) /\
    summary_step_x (c, a, t) row calc =
      (inr (counts_incr c (SummaryX.risk_level r), (a ++ [x])%list, (t ++ [y])%list),
       calc) /\
    attendance_stat_for_x row x /\ score_trend_for_x row y.
Proof.
  unfold summable. rewrite andb_true_iff, negb_true_iff, raises_on_false.
  intros [[r Hr] Hk]. rewrite has_keys_x_true in Hk.
  assert (Hv : forall k, In k summary_keys -> exists v, row !! k = Some v)
    by (intros k Hin; apply row_has_x_true, Hk, Hin).
  destruct (Hv "student_id") as [v1 E1]; [cbn; tauto|].
  destruct (Hv "attendance_percent") as [v2 E2]; [cbn; tauto|].
  destruct (Hv "previous_3_tests_avg") as [v3 E3]; [cbn; tauto|].
  destruct (Hv "last_3_tests_avg") as [v4 E4]; [cbn; tauto|].
  exists r. do 2 eexists. split; [exact Hr|]. split.
  - unfold summary_step_x.
    erewrite Hx_bind_inr by (apply call_x_returns; exact Hr). cbv zeta.
    erewrite Hx_bind_inr by (apply getitem_x_some; exact E1).
    erewrite Hx_bind_inr by (apply getitem_x_some; exact E2).
    erewrite Hx_bind_inr by (apply getitem_x_some; exact E1).
    erewrite Hx_bind_inr by (apply getitem_x_some; exact E3).
    erewrite Hx_bind_inr by (apply getitem_x_some; exact E4).
    reflexivity.
  - split; [split; assumption | repeat split; assumption].
Qed.

Lemma row_at_x_returns (calc : RiskCalculator) (lv : level) (row : gmap string pyval_x)
    (r : SummaryX.t) :
  calculate_risk_x row calc = (inr r, calc) ->
  row_at_x calc lv row = level_eqb (SummaryX.risk_level r) lv.
Proof. intros Hr. unfold row_at_x. rewrite Hr. reflexivity. Qed.

Lemma for_loop_summary_x_ok (l : list (gmap string pyval_x)) (calc : RiskCalculator) :
  Forall (fun row => summable calc row = true) l ->
  forall (c : RiskCounts) (a : list AttendanceStatX.t) (t : list ScoreTrendX.t),
  exists c' xs ys,
    for_loop_x summary_step_x l (c, a, t) calc =
      (inr (c', (a ++ xs)%list, (t ++ ys)%list), calc) /\
    (forall lv, counts_get c' lv =
       (counts_get c lv + length (List.filter (row_at_x calc lv) l))%nat) /\
    Forall2 attendance_stat_for_x l xs /\
    Forall2 score_trend_for_x l ys.
Proof.
  induction 1 as [|row l Hrow _ IH]; intros c a t.
  - exists c, [], []. rewrite !app_nil_r. split; [reflexivity|].
    split; [intros lv; cbn; lia|]. split; constructor.
  - destruct (summary_step_x_ok c a t row calc Hrow) as (r & x & y & Hr & Hstep & Hx & Hy).
    destruct (IH (counts_incr c (SummaryX.risk_level r)) (a ++ [x])%list (t ++ [y])%list)
      as (c' & xs & ys & Hloop & Hc & Hxs & Hys).
    exists c', (x :: xs), (y :: ys). split.
    + cbn [for_loop_x]. erewrite Hx_bind_inr by exact Hstep.
      rewrite Hloop, <- !app_assoc. reflexivity.
    + split; [|split; constructor; assumption].
      intros lv. rewrite Hc, counts_get_incr, filter_cons_length.
      rewrite (row_at_x_returns calc lv row r Hr). lia.
Qed.

Lemma levels_partition_x (calc : RiskCalculator) (l : list (gmap string pyval_x)) :
  Forall (fun row => raises_on calc row = false) l ->
  (length (List.filter (row_at_x calc Low) l) +
   length (List.filter (row_at_x calc Medium) l) +
   length (List.filter (row_at_x calc High) l))%nat = length l.
Proof.
  induction 1 as [|row l Hrow _ IH]; [reflexivity|].
  rewrite !filter_cons_length. cbn [length].
  apply raises_on_false in Hrow as [r Hr].
  rewrite !(row_at_x_returns calc _ row r Hr).
  destruct (SummaryX.risk_level r); cbn [level_eqb Nat.b2n]; lia.
Qed.

(** X16: for a logged-in user and loaded data with at least one row, in
    which every row has the four columns the handler reads and
    [calculate_risk] raises on no row, [get_summary] answers with the
    number of rows, the number of rows at each level (the three numbers
    add up to the number of rows), one attendance entry and one
    score-trend entry per row in the order of the data, and a percentage
    of High students between 0 and 100.  The state is not changed. *)
Theorem X16_summary_counts (app : AppX) (user : string) (df : DataFrameX) :
  session_x app !! "user_id" = Some user ->
  students_data_x app = Some df ->
  rows_x df <> [] ->
  Forall (fun row => raises_on (risk_calc_x app) row = false) (rows_x df) ->
  Forall (fun row => has_keys_x summary_keys row = true) (rows_x df) ->
  exists body,
    get_summary_x app = (Ok body, app) /\
    SummaryStatsX.total_students body = length (rows_x df) /\
    (forall lv, counts_get (SummaryStatsX.risk_distribution body) lv =
       length (List.filter (row_at_x (risk_calc_x app) lv) (rows_x df))) /\
    (count_Low (SummaryStatsX.risk_distribution body) +
     count_Medium (SummaryStatsX.risk_distribution body) +
     count_High (SummaryStatsX.risk_distribution body))%nat
      = SummaryStatsX.total_students body /\
    Forall2 attendance_stat_for_x (rows_x df) (SummaryStatsX.attendance_stats body) /\
    Forall2 score_trend_for_x (rows_x df) (SummaryStatsX.score_trends body) /\
    0 <= SummaryStatsX.high_risk_percentage body <= 100.
Proof.
  intros Hs Hd Hne Hr Hk.
  assert (Hl : Forall (fun row => summable (risk_calc_x app) row = true) (rows_x df)).
  { rewrite List.Forall_forall in *. intros row Hin. unfold summable.
    rewrite (Hr row Hin), (Hk row Hin). reflexivity. }
  destruct (for_loop_summary_x_ok (rows_x df) (risk_calc_x app) Hl
              {| count_Low := 0; count_Medium := 0; count_High := 0 |} [] [])
    as (c & xs & ys & Hloop & Hc & Hxs & Hys).
  assert (Hc' : forall lv, counts_get c lv =
            length (List.filter (row_at_x (risk_calc_x app) lv) (rows_x df))).
  { intros lv. rewrite Hc. destruct lv; reflexivity. }
  pose proof (levels_partition_x (risk_calc_x app) (rows_x df) Hr) as Hpart.
  assert (Hhigh : (counts_get c High <= length (rows_x df))%nat)
    by (rewrite (Hc' High); lia).
  assert (Hpos : (0 < length (rows_x df))%nat)
    by (destruct (rows_x df); [congruence | cbn; lia]).
  unfold get_summary_x. rewrite Hs, Hd.
  unfold get_summary_body_x. cbv zeta.
  erewrite Hx_bind_inr by exact Hloop. cbn [List.app].
  erewrite Hx_bind_inr by (apply py_truediv_x_ratio; assumption).
  cbn [mret Hx_ret]. rewrite set_risk_calc_x_same.
  eexists. split; [reflexivity|].
  cbn [SummaryStatsX.total_students SummaryStatsX.risk_distribution
       SummaryStatsX.attendance_stats SummaryStatsX.score_trends
       SummaryStatsX.high_risk_percentage].
  split; [reflexivity|]. split; [exact Hc'|].
  split.
  { pose proof (Hc' Low) as HL. pose proof (Hc' Medium) as HM. pose proof (Hc' High) as HH.
    cbn [counts_get] in HL, HM, HH. rewrite HL, HM, HH. exact Hpart. }
  split; [exact Hxs|]. split; [exact Hys|].
  apply percentage_bounds; assumption.
Qed.

(** ** Uploads *)

(** X23: an upload that was accepted can be listed when [calculate_risk]
    raises on no row of it: when the frame is as pandas makes it (every
    row has exactly the columns of the frame), [get_students] then answers
    with as many entries as the upload reported students. *)
Theorem X23_accepted_upload_can_be_listed (app app' : AppX) (file : UploadX)
    (u : Uploaded) (df : DataFrameX) :
  upload_csv_x app (Some file) = (Ok u, app') ->
  students_data_x app' = Some df ->
  frame_ok_x df ->
  Forall (fun row => raises_on (risk_calc_x app') row = false) (rows_x df) ->
  exists listing,
    get_students_x app' = (Ok listing, app') /\
    StudentListX.total_count listing = up_student_count u.
Proof.
  intros Hup Hd Hok Hr. unfold upload_csv_x in Hup.
  destruct (session_x app !! "user_id") as [user|] eqn:Hs; [|discriminate].
  destruct (String.eqb (filename_x file) EmptyString); [discriminate|].
  destruct (endswith (lower (filename_x file)) ".csv"); [|discriminate].
  destruct (content_x file) as [msg|df0]; [discriminate|].
  cbv zeta in Hup.
  destruct (List.filter (fun col => negb (str_in col (columns_x df0))) required_cols)
    as [|c l] eqn:Em; [|discriminate].
  injection Hup as <- <-. cbn [set_students_data_x students_data_x] in Hd.
  injection Hd as <-.
  pose proof (proj1 (missing_cols_nil (columns_x df0)) Em) as Hall.
  assert (Hl : Forall (fun row => listable (risk_calc_x (set_students_data_x app df0)) row
                                  = true) (rows_x df0)).
  { rewrite List.Forall_forall in *. intros row Hin. unfold listable.
    rewrite (Hr row Hin). cbn [negb andb]. apply has_keys_x_true. intros k Hkin.
    apply (Hok row k Hin). apply Hall.
    unfold list_keys in Hkin. unfold required_cols. cbn [In] in *. tauto. }
  destruct (get_students_x_run (set_students_data_x app df0) user df0 Hs eq_refl Hl)
    as (infos & Hrun & Hf).
  eexists. split; [exact Hrun|]. cbn [StudentListX.total_count up_student_count].
  rewrite sort_desc_x_length. symmetry. eapply Forall2_length. exact Hf.
Qed.

End HandlerXFacts.

(** ** Closed runs of the handlers on every float *)

(** The sample data listed: the student rated High first, then the one
    with the blank fee delay, whose data the calculator rejects, is listed
    with score 0 like the student whose attendance cannot be read. *)
Example sample_listing_x :
  exists body,
    @get_students_x decimal_builtins_x sample_app_x = (Ok body, sample_app_x) /\
    List.map StudentInfoX.student_id (StudentListX.students body)
      = [XStr "S002"; XStr "S001"; XStr "S003"; XStr "S004"] /\
    List.map StudentInfoX.risk_level (StudentListX.students body)
      = [High; Low; Low; Low] /\
    StudentListX.total_count body = 4%nat.
Proof. eexists. split; [vm_compute; reflexivity|]. repeat split. Qed.

(** With an infinite fee delay in one row, [calculate_risk] raises
    [OverflowError] on that row and both handlers answer with status 500,
    although every column is present. *)
Example infinity_breaks_the_list :
  @get_students_x decimal_builtins_x (set_students_data_x sample_app_x frame_with_infinity)
    = (Failed 500 "Error calculating risks: cannot convert float infinity to integer",
       set_students_data_x sample_app_x frame_with_infinity) /\
  @get_summary_x decimal_builtins_x (set_students_data_x sample_app_x frame_with_infinity)
    = (Failed 500 "Error generating summary: cannot convert float infinity to integer",
       set_students_data_x sample_app_x frame_with_infinity) /\
  Forall (fun row => has_keys_x required_cols row = true) (rows_x frame_with_infinity).
Proof.
  split; [vm_compute; reflexivity|]. split; [vm_compute; reflexivity|].
  repeat constructor.
Qed.

Lemma sample_rows_x_return :
  Forall (fun row => @raises_on decimal_builtins_x init row = false)
    (rows_x sample_frame_x).
Proof. repeat constructor. Qed.

Lemma sample_rows_x_have_list_keys :
  Forall (fun row => has_keys_x list_keys row = true) (rows_x sample_frame_x).
Proof. repeat constructor. Qed.

Lemma sample_rows_x_have_summary_keys :
  Forall (fun row => has_keys_x summary_keys row = true) (rows_x sample_frame_x).
Proof. repeat constructor. Qed.

Lemma sample_frame_x_ok : frame_ok_x sample_frame_x.
Proof.
  intros row key Hin. cbn in Hin.
  repeat (destruct Hin as [<-|Hin]; [|]); try contradiction;
    unfold row_has_x, student_row_x;
    rewrite ?lookup_insert, ?lookup_empty;
    repeat case_decide; subst; cbn; split; intros Hx;
    try reflexivity; try discriminate; try tauto;
    repeat (destruct Hx as [Hx|Hx]; [congruence|]); try contradiction.
Qed.

Lemma X14_witness :
  exists body,
    @get_students_x decimal_builtins_x sample_app_x = (Ok body, sample_app_x) /\
    StudentListX.total_count body = 4%nat /\
    StronglySorted
      (fun a b => fge (StudentInfoX.risk_score a) (StudentInfoX.risk_score b))
      (StudentListX.students body).
Proof.
  destruct (@X14_student_list_complete_and_sorted decimal_builtins_x sample_app_x "mentor"
              sample_frame_x eq_refl eq_refl sample_rows_x_return
              sample_rows_x_have_list_keys)
    as (body & infos & Hrun & _ & Hperm & Hcount & Hsorted).
  exists body. split; [exact Hrun|]. split; [exact Hcount|].
  apply Hsorted.
  apply (Permutation_Forall (Permutation_sym Hperm)).
  vm_compute in Hrun. injection Hrun as <-.
  repeat constructor; discriminate.
Defined.

Lemma X15_witness :
  snd (@get_students_x decimal_builtins_x
         (set_students_data_x sample_app_x frame_with_infinity))
    = set_students_data_x sample_app_x frame_with_infinity /\
  exists msg,
    fst (@get_students_x decimal_builtins_x
           (set_students_data_x sample_app_x frame_with_infinity)) = Failed 500 msg.
Proof.
  destruct (@X15_student_list_fails_exactly_when decimal_builtins_x
              (set_students_data_x sample_app_x frame_with_infinity) "mentor"
              frame_with_infinity eq_refl eq_refl) as (Hst & Hiff & _).
  split; [exact Hst|]. apply Hiff. apply Exists_cons_hd. left. reflexivity.
Defined.

Lemma X16_witness :
  exists body,
    @get_summary_x decimal_builtins_x sample_app_x = (Ok body, sample_app_x) /\
    SummaryStatsX.total_students body = 4%nat /\
    (count_Low (SummaryStatsX.risk_distribution body) +
     count_Medium (SummaryStatsX.risk_distribution body) +
     count_High (SummaryStatsX.risk_distribution body))%nat
      = SummaryStatsX.total_students body /\
    0 <= SummaryStatsX.high_risk_percentage body <= 100.
Proof.
  destruct (@X16_summary_counts decimal_builtins_x sample_app_x "mentor" sample_frame_x
              eq_refl eq_refl ltac:(discriminate) sample_rows_x_return
              sample_rows_x_have_summary_keys)
    as (body & Hrun & Ht & _ & Hsum & _ & _ & Hp).
  exists body. split; [exact Hrun|]. split; [exact Ht|]. split; [exact Hsum | exact Hp].
Defined.

Lemma X23_witness :
  exists listing,
    @get_students_x decimal_builtins_x (set_students_data_x fresh_app_x sample_frame_x)
      = (Ok listing, set_students_data_x fresh_app_x sample_frame_x) /\
    StudentListX.total_count listing = 4%nat.
Proof.
  exact (@X23_accepted_upload_can_be_listed decimal_builtins_x ascii_str_builtins
           fresh_app_x (set_students_data_x fresh_app_x sample_frame_x) upload_sample_x
           {| up_message := "CSV uploaded successfully"; up_student_count := 4;
              up_columns := required_cols |}
           sample_frame_x eq_refl eq_refl sample_frame_x_ok sample_rows_x_return).
Defined.

(** The upload of the data with the infinite fee delay is accepted, and
    the list of students then fails. *)
Example accepted_upload_with_infinity :
  exists u,
    @upload_csv_x ascii_str_builtins fresh_app_x (Some upload_with_infinity)
      = (Ok u, set_students_data_x fresh_app_x frame_with_infinity) /\
    exists msg,
      @get_students_x decimal_builtins_x
        (set_students_data_x fresh_app_x frame_with_infinity)
        = (Failed 500 msg, set_students_data_x fresh_app_x frame_with_infinity).
Proof.
  eexists. split; [vm_compute; reflexivity|].
  eexists. vm_compute. reflexivity.
Qed.
